(** * The NNPI backend decision core (lib/Backends/NNPI/NNPI.cpp)

    A shallow embedding of the operation-acceptance predicate, the lowering
    decision, the parallelization planner with its validation, and the
    partition resource binder, followed by the properties proved about
    them. *)

From stdpp Require Import base option strings list gmap fin_maps.
From Stdlib Require Import ZArith NArith Lia.

Set Warnings "-register-all".

Local Open Scope string_scope.
Local Open Scope list_scope.

(** ** Element kinds, tensor types *)

(** The element kinds the backend file names, together with [Int16QTy], the
    one remaining kind of the graph library's enumeration. *)
Inductive ElemKind : Set :=
| FloatTy | Float16Ty | Int8QTy | UInt8QTy | Int16QTy | Int32QTy
| Int32ITy | Int64ITy | UInt8FusedQTy | UInt8FusedFP16QTy
| UInt4FusedFP16QTy | BoolTy.

#[global] Instance ElemKind_eq_dec : EqDecision ElemKind.
Proof. solve_decision. Defined.

(** A tensor type: element kind and shape. [dim_t] is unsigned. *)
Record TypeRef : Set := mkType {
  getElementType : ElemKind;
  dims : list N
}.

(** Number of elements of a tensor type: the product of its dimensions. *)
Definition numElements (t : TypeRef) : N :=
  fold_right N.mul 1%N (dims t).

(** ** Node kinds *)

(** Every kind the backend file names; [PlaceholderKind] and [ConstantKind]
    are the two storage kinds, [OtherNodeKind] stands for the rest of the
    closed enumeration. *)
Inductive Kind : Set :=
| AddNodeKind | SubNodeKind | MulNodeKind | MaxNodeKind | MinNodeKind
| PowNodeKind | ReluNodeKind | ReplaceNaNNodeKind | MatMulNodeKind
| BatchedReduceAddNodeKind | BatchedReduceMeanNodeKind
| BatchedReduceMinNodeKind | LocalResponseNormalizationNodeKind
| BatchedAddNodeKind | TanhNodeKind | LogNodeKind | SigmoidNodeKind
| SplatNodeKind | ExpNodeKind | LayerNormalizationNodeKind
| BatchNormalizationNodeKind | AvgPoolNodeKind | AdaptiveAvgPoolNodeKind
| BatchMatMulNodeKind | PReluNodeKind | ClipNodeKind | DivNodeKind
| SaveNodeKind | ConcatNodeKind | TileNodeKind | TransposeNodeKind
| ConvolutionNodeKind | Convolution3DNodeKind | QuantizeNodeKind
| DequantizeNodeKind | RescaleQuantizedNodeKind | ConvertToNodeKind
| FullyConnectedNodeKind | MaxPoolNodeKind | TopKNodeKind | GatherNodeKind
| GatherRangesNodeKind | SliceNodeKind | ReshapeNodeKind | CmpLTENodeKind
| CmpEQNodeKind | CmpLTNodeKind | SelectNodeKind
| RowwiseQuantizedFullyConnectedNodeKind
| ChannelwiseQuantizedConvolutionNodeKind
| SparseLengthsSumNodeKind | SparseLengthsWeightedSumNodeKind
| EmbeddingBagNodeKind | EmbeddingBagByteRowwiseOffsetsNodeKind
| FusedRowwiseQuantizedSparseLengthsSumNodeKind
| FusedRowwiseQuantizedSparseLengthsWeightedSumNodeKind
| RowwiseQuantizedSparseLengthsWeightedSumNodeKind
| SparseToDenseNodeKind | SoftMaxNodeKind | LengthsRangeFillNodeKind
| BatchOneHotNodeKind | NNPICustomDSPNodeKind | NNPICustomIANodeKind
| SpaceToDepthNodeKind | ArgMaxNodeKind | LogitNodeKind
| PlaceholderKind | ConstantKind
| OtherNodeKind (tag : nat).

#[global] Instance Kind_eq_dec : EqDecision Kind.
Proof. solve_decision. Defined.

(** ** Operand positions

    The backend names operands through the per-class constants
    [XNode::YIdx] and the accessors [getInput], [getWeights], [getLHS],
    [getResult]. Those constants are declared by the graph library's node
    definitions, so they are a parameter here. The activation classes are
    the exception: the file's own [static_assert]s fix
    [ActivationIOIdx = 0] for Relu, Sigmoid and Tanh. *)
Record OperandLayout : Set := mkLayout {
  ConvolutionNode_InputIdx : nat;
  ConvolutionNode_BiasIdx : nat;
  Convolution3DNode_InputIdx : nat;
  Convolution3DNode_BiasIdx : nat;
  QuantizeNode_InputIdx : nat;
  QuantizeNode_ResultIdx : nat;
  DequantizeNode_InputIdx : nat;
  DequantizeNode_ResultIdx : nat;
  ConvertToNode_InputIdx : nat;
  ConvertToNode_ResultIdx : nat;
  FullyConnectedNode_InputIdx : nat;
  FullyConnectedNode_WeightsIdx : nat;
  FullyConnectedNode_BiasIdx : nat;
  FullyConnectedNode_ResultIdx : nat;
  MaxPoolNode_ArgmaxIdx : nat;
  TopKNode_IndicesIdx : nat;
  GatherNode_IndicesIdx : nat;
  GatherRangesNode_DataIdx : nat;
  GatherRangesNode_OutputIdx : nat;
  CmpEQNode_ResultIdx : nat;
  SelectNode_CondIdx : nat;
  RowwiseQuantizedFullyConnectedNode_InputIdx : nat;
  RowwiseQuantizedFullyConnectedNode_WeightsIdx : nat;
  RowwiseQuantizedFullyConnectedNode_ScalesIdx : nat;
  RowwiseQuantizedFullyConnectedNode_OffsetsIdx : nat;
  RowwiseQuantizedFullyConnectedNode_BiasIdx : nat;
  RowwiseQuantizedFullyConnectedNode_ResultIdx : nat;
  ChannelwiseQuantizedConvolutionNode_InputIdx : nat;
  ChannelwiseQuantizedConvolutionNode_FilterIdx : nat;
  ChannelwiseQuantizedConvolutionNode_BiasIdx : nat;
  ChannelwiseQuantizedConvolutionNode_FilterScalesIdx : nat;
  ChannelwiseQuantizedConvolutionNode_FilterOffsetsIdx : nat;
  ChannelwiseQuantizedConvolutionNode_ResultIdx : nat;
  SparseLengthsSumNode_DataIdx : nat;
  SparseLengthsSumNode_IndicesIdx : nat;
  SparseLengthsSumNode_LengthsIdx : nat;
  SparseLengthsWeightedSumNode_DataIdx : nat;
  SparseLengthsWeightedSumNode_IndicesIdx : nat;
  SparseLengthsWeightedSumNode_LengthsIdx : nat;
  EmbeddingBagNode_IndicesIdx : nat;
  EmbeddingBagNode_OffsetsIdx : nat;
  EmbeddingBagByteRowwiseOffsetsNode_DataIdx : nat;
  EmbeddingBagByteRowwiseOffsetsNode_OffsetsIdx : nat;
  EmbeddingBagByteRowwiseOffsetsNode_IndicesIdx : nat;
  EmbeddingBagByteRowwiseOffsetsNode_ResultIdx : nat;
  FusedRowwiseQuantizedSparseLengthsSumNode_DataIdx : nat;
  FusedRowwiseQuantizedSparseLengthsSumNode_LengthsIdx : nat;
  FusedRowwiseQuantizedSparseLengthsSumNode_IndicesIdx : nat;
  FusedRowwiseQuantizedSparseLengthsSumNode_ResultIdx : nat;
  FusedRowwiseQuantizedSparseLengthsWeightedSumNode_DataIdx : nat;
  FusedRowwiseQuantizedSparseLengthsWeightedSumNode_WeightsIdx : nat;
  FusedRowwiseQuantizedSparseLengthsWeightedSumNode_LengthsIdx : nat;
  FusedRowwiseQuantizedSparseLengthsWeightedSumNode_IndicesIdx : nat;
  FusedRowwiseQuantizedSparseLengthsWeightedSumNode_ResultIdx : nat;
  RowwiseQuantizedSparseLengthsWeightedSumNode_DataIdx : nat;
  RowwiseQuantizedSparseLengthsWeightedSumNode_IndicesIdx : nat;
  RowwiseQuantizedSparseLengthsWeightedSumNode_LengthsIdx : nat;
  SparseToDenseNode_IndicesIdx : nat;
  SoftMaxNode_SelectedIdx : nat;
  BatchOneHotNode_LengthsIdx : nat;
  ArgMaxNode_ResultIdx : nat;
  ClipNode_InputIdx : nat;
  ClipNode_ResultIdx : nat;
  MulNode_LHSIdx : nat;
  PReluNode_ResultIdx : nat
}.

(** All activations have a single input and output. *)
Definition ActivationIOIdx : nat := 0.

(** ** NodeInfo: kind plus the types of the operands and results *)

Record NodeInfo : Set := mkNodeInfo {
  getKind : Kind;
  inTypes_ : list TypeRef;
  outTypes_ : list TypeRef
}.

(** [NI.getInTy(idx)] and friends. An index past the end is outside the
    accessor's contract; the model reads [None] there, and every test made
    on [None] fails. *)
Definition getInTy (NI : NodeInfo) (idx : nat) : option TypeRef :=
  inTypes_ NI !! idx.
Definition getOutTy (NI : NodeInfo) (idx : nat) : option TypeRef :=
  outTypes_ NI !! idx.
Definition getInElemTy (NI : NodeInfo) (idx : nat) : option ElemKind :=
  getElementType <$> getInTy NI idx.
Definition getOutElemTy (NI : NodeInfo) (idx : nat) : option ElemKind :=
  getElementType <$> getOutTy NI idx.

(** [NI.getInElemTy(idx) == k] *)
Definition inIs (NI : NodeInfo) (idx : nat) (k : ElemKind) : bool :=
  bool_decide (getInElemTy NI idx = Some k).
Definition outIs (NI : NodeInfo) (idx : nat) (k : ElemKind) : bool :=
  bool_decide (getOutElemTy NI idx = Some k).

(** The element kinds of the types at the positions that are not ignored,
    counting positions from [pos]. *)
Fixpoint keptKinds (pos : nat) (tys : list TypeRef) (ignore : list nat)
  : list ElemKind :=
  match tys with
  | [] => []
  | t :: tys' =>
      if existsb (Nat.eqb pos) ignore
      then keptKinds (S pos) tys' ignore
      else getElementType t :: keptKinds (S pos) tys' ignore
  end.

(** Modelled from the spec: [NodeInfo::allInputsAndOutputsHaveSameElemKind]
    is declared by the graph library and only called here. Section 4.1
    describes it as the check that all input and output element kinds belong
    to an allowed set, with named exceptions (the ignored input and output
    positions); as its name says, the kinds that are not excepted must also
    be one and the same kind. Section 4.1 does not spell this last
    requirement out, and the properties proved of the oracle hold with it
    and without it: they use only that a passing check puts every kind
    that is not excepted in the allowed set, and that the check passes
    when these kinds are one and the same allowed kind. *)
Definition allInputsAndOutputsHaveSameElemKind
    (NI : NodeInfo) (allowed : list ElemKind)
    (ignoreIn ignoreOut : list nat) : bool :=
  match keptKinds 0 (inTypes_ NI) ignoreIn
        ++ keptKinds 0 (outTypes_ NI) ignoreOut with
  | [] => true
  | k :: ks =>
      forallb (fun k' => bool_decide (k' = k)) ks
      && existsb (fun a => bool_decide (a = k)) allowed
  end.

(** ** Process-wide flags and backend options *)

Record Flags : Set := mkFlags {
  GlowNNPILowerAllBatchMatMul : bool;
  GlowNNPIAcceptUnarySLS : bool;
  GlowDumpNNPICompilerData : bool;
  GlowUsePerPartitionIcetConfig : bool;
  GlowDisableNNPITransforms : bool;
  GlowDisableNNPIPrivateTransforms : bool;
  GlowNNPINumParallelChunks : Z
}.

Record NNPIBackendOptions : Set := mkBackendOptions {
  useIceT : bool;
  inferOnDevice : bool;
  dumpRuntime : bool
}.

(** ** Errors

    [Error] and [Expected<T>] of the support library: a value or a
    message. *)
Inductive Expected (T : Type) : Type :=
| Ok (v : T)
| Err (msg : string).
Arguments Ok {T} v.
Arguments Err {T} msg.

Definition Error : Type := Expected unit.
Definition success : Error := Ok tt.

Definition bindE {A B : Type} (x : Expected A) (k : A -> Expected B)
  : Expected B :=
  match x with
  | Ok v => k v
  | Err msg => Err msg
  end.

Definition isErr {T : Type} (x : Expected T) : Prop :=
  match x with
  | Ok _ => False
  | Err _ => True
  end.

(** [ASSIGN_VALUE_OR_RETURN_ERR(x, e); k] and [RETURN_IF_ERR(e); k] *)
Notation "'ASSIGN_VALUE_OR_RETURN_ERR' x <- e ;; k" :=
  (bindE e (fun x => k))
  (at level 10, x name, e at level 99, k at level 200, only parsing).
Notation "'RETURN_IF_ERR' e ;; k" :=
  (bindE e (fun _ => k))
  (at level 10, e at level 99, k at level 200, only parsing).
(** [RETURN_ERR_IF_NOT(cond, msg); k] *)
Notation "'RETURN_ERR_IF_NOT' c 'MSG' m ;; k" :=
  (if c then k else Err m)
  (at level 10, c at level 9, m at level 99, k at level 200, only parsing).

(** ** Floats

    A [float] is kept as its IEEE-754 binary32 bit pattern; the only
    operation the backend applies to floats is [!=]. *)
Definition float : Set := Z.

Definition isNaN (x : float) : bool :=
  (Z.land (Z.shiftr x 23) 255 =? 255)%Z && negb (Z.land x 8388607 =? 0)%Z.
Definition isZero (x : float) : bool := (Z.land x 2147483647 =? 0)%Z.

(** [a != b] on floats: a NaN differs from everything, the two zeros are
    equal. *)
Definition float_ne (a b : float) : bool :=
  isNaN a || isNaN b || negb ((a =? b)%Z || (isZero a && isZero b)).

Definition float_0 : float := 0%Z.
Definition float_1 : float := 1065353216%Z.

(** ** Graph: node values, nodes, functions *)

(** A node pointer. *)
Definition NodeId : Set := nat.

(** One result of a node, with its type. NodeValues are compared by node
    and result number. *)
Record NodeValue : Set := mkNodeValue {
  getNode : NodeId;
  getResNo : nat;
  getType : TypeRef
}.

Definition sameValue (a b : NodeValue) : bool :=
  (getNode a =? getNode b)%nat && (getResNo a =? getResNo b)%nat.

Record Node : Set := mkNode {
  node_id : NodeId;
  getName : string;
  node_kind : Kind;
  getInputs : list NodeValue;
  node_outTypes : list TypeRef;
  (** bounds of a Clip *)
  getMin : float;
  getMax : float;
  (** value of a Splat *)
  getValue : float
}.

Definition getNthInput (N : Node) (idx : nat) : option NodeValue :=
  getInputs N !! idx.
Definition getNthResult (N : Node) (idx : nat) : option NodeValue :=
  mkNodeValue (node_id N) idx <$> node_outTypes N !! idx.

(** [NodeInfo NI( *N )] *)
Definition NodeInfo_of (N : Node) : NodeInfo :=
  mkNodeInfo (node_kind N) (getType <$> getInputs N) (node_outTypes N).

(** [llvm::dyn_cast<XNode>(N)] succeeds exactly on nodes of kind X. *)
Definition isa (k : Kind) (N : Node) : bool := bool_decide (node_kind N = k).

(** [nv.getElementType() == k], [nv.dims()] for a NodeValue that is
    present. *)
Definition elemTypeIs (nv : option NodeValue) (k : ElemKind) : bool :=
  bool_decide (getElementType ∘ getType <$> nv = Some k).
Definition dimsOf (nv : option NodeValue) : list N :=
  from_option (dims ∘ getType) [] nv.
(** [d[i]]; the source does not read past the end of a shape, the model
    reads 0 there. *)
Definition dimAt (d : list N) (i : nat) : N := default 0%N (d !! i).

Record Function : Set := mkFunction {
  fun_id : nat;
  fun_name : string;
  getNodes : list Node
}.

(** The node a pointer designates, among the nodes of the function.
    Storage nodes (placeholders, constants) live outside the function;
    they are of no operation kind, so a failed lookup and a storage node
    fail the same casts. *)
Definition findNode (F : Function) (id : NodeId) : option Node :=
  List.find (fun N => (node_id N =? id)%nat) (getNodes F).

(** [N->getNumUsers()]: the uses of any result of [N] by operands of the
    function's nodes. *)
Definition getNumUsers (F : Function) (N : Node) : nat :=
  length (List.filter (fun v => (getNode v =? node_id N)%nat)
            (concat (getInputs <$> getNodes F))).

(** ** Compilation options *)

Inductive ParallelTransformKind : Set := PTK_None | PTK_Data | PTK_Model.

#[global] Instance ParallelTransformKind_eq_dec :
  EqDecision ParallelTransformKind.
Proof. solve_decision. Defined.

(** [BackendSpecificNodeInfo]: per function, per node, string-keyed lists
    of strings. *)
Abbreviation NodeAnnotations := (gmap string (list string)).
Abbreviation FunctionNodeInfo := (gmap NodeId (gmap string (list string))).
Abbreviation BackendSpecificNodeInfo :=
  (gmap nat (gmap NodeId (gmap string (list string)))).

Record BackendOptions : Type := mkBackendOpts {
  backendSpecificOpts : gmap string string;
  backendSpecificNodeInfo : BackendSpecificNodeInfo
}.

Record CompilationContext : Type := mkCctx {
  backendOpts : BackendOptions
}.

(** ** Collaborators

    What the backend file uses and does not define: operand positions,
    type and node predicates of the graph library, the string-to-int
    parser, the annotation keys, the post-order visitor, the graph
    mutation primitives ([replaceAllUsesOfWith], [createSplat],
    [createSelect]) and the graph rewrites [lowerNode], [parallelizeOps]
    and (internal builds only) [transformPrivate]. *)
Record Collaborators : Type := mkCollaborators {
  layout : OperandLayout;
  isQuantizedType : TypeRef -> bool;
  isConvolutionSameAsFullyConnected : Node -> bool;
  getIntFromStr : string -> Expected Z;
  numParallelChunksKey : string;
  parallelTransformKindKey : string;
  coreAssignmentsKey : string;
  coreAssignmentsSuffixKey : string;
  extraEdgesTargetNameKey : string;
  extraEdgesTargetSuffixKey : string;
  extraEdgesSourceSuffixKey : string;
  getPostOrder : Function -> list Node;
  replaceAllUsesOfWith : Function -> NodeValue -> NodeValue -> Function;
  createSplat : Function -> string -> TypeRef -> float -> Function * Node;
  createSelect :
    Function -> string -> NodeValue -> Node -> Node -> Function * Node;
  lowerNode : Function -> Node -> Function;
  parallelizeOps :
    Function -> gmap NodeId Z -> gmap NodeId ParallelTransformKind -> Z ->
    Function * Expected (list (Node * Node));
  transformPrivate : option (Function -> Function * bool)
}.

(** ** Legality oracle and lowering decision *)

Section Legality.

Context (E : Collaborators) (G : Flags) (backendOptions_ : NNPIBackendOptions).

Let L := layout E.

(** \returns whether [type] is 2 dimensional and unary. *)
Definition isUnaryLookup (type : TypeRef) : bool :=
  if negb (length (dims type) =? 2)%nat then false
  else (dimAt (dims type) 1 =? 1)%N.

(** \returns whether SLS indices type is valid for NNPI: no more than 64k
    indices. *)
Definition isSLSIndicesValid (type : TypeRef) : bool :=
  (length (dims type) =? 1)%nat
  && (dimAt (dims type) 0 <? N.shiftl 1 16)%N.

(** [t->p()] for a type read from a [NodeInfo]. *)
Definition onTy (p : TypeRef -> bool) (t : option TypeRef) : bool :=
  from_option p false t.

Definition isConversionSupportedFor (kind : option ElemKind) : bool :=
  match kind with
  | Some FloatTy | Some Float16Ty | Some Int32ITy | Some Int64ITy => true
  | _ => false
  end.

(** [NNPIBackend::isOpSupported]. The diagnostic line printed in the
    default case is not modelled. *)
Definition isOpSupported (NI : NodeInfo) : bool :=
  let same := allInputsAndOutputsHaveSameElemKind NI in
  match getKind NI with
  (* General math fp32/fp16/i8. *)
  | AddNodeKind | SubNodeKind | MulNodeKind | MaxNodeKind | MinNodeKind
  | PowNodeKind | ReluNodeKind | ReplaceNaNNodeKind | MatMulNodeKind
  | BatchedReduceAddNodeKind | BatchedReduceMeanNodeKind
  | BatchedReduceMinNodeKind | LocalResponseNormalizationNodeKind
  | BatchedAddNodeKind | TanhNodeKind | LogNodeKind | SigmoidNodeKind
  | SplatNodeKind | ExpNodeKind =>
      same [FloatTy; Float16Ty; Int8QTy; Int32ITy; Int64ITy] [] []
  | LayerNormalizationNodeKind =>
      same [FloatTy; Float16Ty; Int8QTy] [] []
  | BatchNormalizationNodeKind | AvgPoolNodeKind | AdaptiveAvgPoolNodeKind =>
      same [FloatTy; Float16Ty; Int8QTy] [] []
  | BatchMatMulNodeKind | PReluNodeKind | ClipNodeKind =>
      same [Int8QTy; Float16Ty] [] []
  | DivNodeKind =>
      same [FloatTy; Float16Ty; Int8QTy; Int64ITy] [] []
  (* Data transfer fp32/fp16/i8/i32/i64/bool. *)
  | SaveNodeKind | ConcatNodeKind | TileNodeKind | TransposeNodeKind =>
      same [FloatTy; Float16Ty; Int8QTy; Int32ITy; Int64ITy; BoolTy] [] []
  | ConvolutionNodeKind =>
      if negb (onTy (isQuantizedType E)
                 (getInTy NI (ConvolutionNode_InputIdx L)))
      then same [FloatTy; Float16Ty] [] []
      else
        same [Int8QTy] [ConvolutionNode_BiasIdx L] []
        && (inIs NI (ConvolutionNode_BiasIdx L) Int32QTy
            || inIs NI (ConvolutionNode_BiasIdx L) FloatTy)
  | Convolution3DNodeKind =>
      if negb (onTy (isQuantizedType E)
                 (getInTy NI (Convolution3DNode_InputIdx L)))
      then same [FloatTy; Float16Ty] [] []
      else
        same [Int8QTy] [Convolution3DNode_BiasIdx L] []
        && (inIs NI (Convolution3DNode_BiasIdx L) Int32QTy
            || inIs NI (ConvolutionNode_BiasIdx L) FloatTy)
  | QuantizeNodeKind =>
      (inIs NI (QuantizeNode_InputIdx L) FloatTy
       || inIs NI (QuantizeNode_InputIdx L) Float16Ty)
      && outIs NI (QuantizeNode_ResultIdx L) Int8QTy
  | DequantizeNodeKind =>
      inIs NI (DequantizeNode_InputIdx L) Int8QTy
      && (outIs NI (DequantizeNode_ResultIdx L) FloatTy
          || outIs NI (DequantizeNode_ResultIdx L) Float16Ty)
  | RescaleQuantizedNodeKind => same [Int8QTy] [] []
  | ConvertToNodeKind =>
      isConversionSupportedFor (getInElemTy NI (ConvertToNode_InputIdx L))
      && isConversionSupportedFor
           (getOutElemTy NI (ConvertToNode_ResultIdx L))
  | FullyConnectedNodeKind =>
      if negb (onTy (isQuantizedType E)
                 (getInTy NI (FullyConnectedNode_InputIdx L)))
      then same [FloatTy; Float16Ty] [] []
      else
        same [Int8QTy] [FullyConnectedNode_BiasIdx L] []
        && (inIs NI (FullyConnectedNode_BiasIdx L) Int32QTy
            || inIs NI (FullyConnectedNode_BiasIdx L) FloatTy)
  | MaxPoolNodeKind =>
      same [FloatTy; Float16Ty; Int8QTy] [] [MaxPoolNode_ArgmaxIdx L]
      && outIs NI (MaxPoolNode_ArgmaxIdx L) Int64ITy
  | TopKNodeKind =>
      same [FloatTy; Float16Ty; Int8QTy] [] [TopKNode_IndicesIdx L]
      && outIs NI (TopKNode_IndicesIdx L) Int64ITy
  | GatherNodeKind =>
      same [FloatTy; Float16Ty; Int64ITy; Int8QTy]
           [GatherNode_IndicesIdx L] []
      && (inIs NI (GatherNode_IndicesIdx L) Int32ITy
          || inIs NI (GatherNode_IndicesIdx L) Int64ITy)
  | GatherRangesNodeKind =>
      same [Int32ITy; Int64ITy]
           [GatherRangesNode_DataIdx L] [GatherRangesNode_OutputIdx L]
      && (inIs NI (GatherRangesNode_DataIdx L) FloatTy
          || inIs NI (GatherRangesNode_DataIdx L) Float16Ty
          || inIs NI (GatherRangesNode_DataIdx L) Int8QTy
          || inIs NI (GatherRangesNode_DataIdx L) Int32ITy
          || inIs NI (GatherRangesNode_DataIdx L) Int64ITy)
      && bool_decide (getOutElemTy NI (GatherRangesNode_OutputIdx L)
                      = getInElemTy NI (GatherRangesNode_DataIdx L))
  | SliceNodeKind | ReshapeNodeKind =>
      same [FloatTy; Float16Ty; Int8QTy; Int64ITy] [] []
  | CmpLTENodeKind | CmpEQNodeKind | CmpLTNodeKind =>
      same [FloatTy; Float16Ty; Int8QTy; Int32ITy; Int64ITy]
           [] [CmpEQNode_ResultIdx L]
      && outIs NI (CmpEQNode_ResultIdx L) BoolTy
  | SelectNodeKind =>
      same [FloatTy; Float16Ty; Int8QTy] [SelectNode_CondIdx L] []
      && inIs NI (SelectNode_CondIdx L) BoolTy
  | RowwiseQuantizedFullyConnectedNodeKind =>
      inIs NI (RowwiseQuantizedFullyConnectedNode_InputIdx L) Int8QTy
      && inIs NI (RowwiseQuantizedFullyConnectedNode_WeightsIdx L) Int8QTy
      && inIs NI (RowwiseQuantizedFullyConnectedNode_ScalesIdx L) FloatTy
      && inIs NI (RowwiseQuantizedFullyConnectedNode_OffsetsIdx L) Int32ITy
      && (inIs NI (RowwiseQuantizedFullyConnectedNode_BiasIdx L) Int32QTy
          || inIs NI (RowwiseQuantizedFullyConnectedNode_BiasIdx L) FloatTy)
      && outIs NI (RowwiseQuantizedFullyConnectedNode_ResultIdx L) Int8QTy
  | ChannelwiseQuantizedConvolutionNodeKind =>
      inIs NI (ChannelwiseQuantizedConvolutionNode_InputIdx L) Int8QTy
      && inIs NI (ChannelwiseQuantizedConvolutionNode_FilterIdx L) Int8QTy
      && (inIs NI (ChannelwiseQuantizedConvolutionNode_BiasIdx L) Int32QTy
          || inIs NI (ChannelwiseQuantizedConvolutionNode_BiasIdx L) FloatTy)
      && inIs NI (ChannelwiseQuantizedConvolutionNode_FilterScalesIdx L)
              FloatTy
      && inIs NI (ChannelwiseQuantizedConvolutionNode_FilterOffsetsIdx L)
              Int32ITy
      && outIs NI (ChannelwiseQuantizedConvolutionNode_ResultIdx L) Int8QTy
  | SparseLengthsSumNodeKind =>
      onTy isSLSIndicesValid (getInTy NI (SparseLengthsSumNode_IndicesIdx L))
      && same [FloatTy; Float16Ty; Int8QTy]
              [SparseLengthsSumNode_IndicesIdx L;
               SparseLengthsSumNode_LengthsIdx L] []
      && (inIs NI (SparseLengthsSumNode_IndicesIdx L) Int64ITy
          || inIs NI (SparseLengthsSumNode_IndicesIdx L) Int32ITy)
      && inIs NI (SparseLengthsSumNode_LengthsIdx L) Int32ITy
  | SparseLengthsWeightedSumNodeKind =>
      onTy isSLSIndicesValid
        (getInTy NI (SparseLengthsWeightedSumNode_IndicesIdx L))
      && same [FloatTy; Float16Ty; Int8QTy]
              [SparseLengthsWeightedSumNode_IndicesIdx L;
               SparseLengthsWeightedSumNode_LengthsIdx L] []
      && (inIs NI (SparseLengthsWeightedSumNode_IndicesIdx L) Int64ITy
          || inIs NI (SparseLengthsWeightedSumNode_IndicesIdx L) Int32ITy)
      && inIs NI (SparseLengthsWeightedSumNode_LengthsIdx L) Int32ITy
  | EmbeddingBagNodeKind =>
      onTy isSLSIndicesValid (getInTy NI (EmbeddingBagNode_IndicesIdx L))
      && same [FloatTy; Float16Ty; Int8QTy]
              [EmbeddingBagNode_IndicesIdx L; EmbeddingBagNode_OffsetsIdx L]
              []
      && inIs NI (EmbeddingBagNode_IndicesIdx L) Int64ITy
      && inIs NI (EmbeddingBagNode_OffsetsIdx L) Int64ITy
  | EmbeddingBagByteRowwiseOffsetsNodeKind =>
      let dataK := inIs NI (EmbeddingBagByteRowwiseOffsetsNode_DataIdx L) in
      let offsetsK :=
        inIs NI (EmbeddingBagByteRowwiseOffsetsNode_OffsetsIdx L) in
      let indicesK :=
        inIs NI (EmbeddingBagByteRowwiseOffsetsNode_IndicesIdx L) in
      let resultK :=
        outIs NI (EmbeddingBagByteRowwiseOffsetsNode_ResultIdx L) in
      onTy isSLSIndicesValid
        (getInTy NI (EmbeddingBagByteRowwiseOffsetsNode_IndicesIdx L))
      && (dataK UInt8FusedQTy || dataK UInt8FusedFP16QTy
          || dataK UInt4FusedFP16QTy)
      && (resultK FloatTy || resultK Float16Ty)
      && indicesK Int64ITy && offsetsK Int64ITy
  | FusedRowwiseQuantizedSparseLengthsSumNodeKind =>
      let dataK :=
        inIs NI (FusedRowwiseQuantizedSparseLengthsSumNode_DataIdx L) in
      let lengthsK :=
        inIs NI (FusedRowwiseQuantizedSparseLengthsSumNode_LengthsIdx L) in
      let indicesK :=
        inIs NI (FusedRowwiseQuantizedSparseLengthsSumNode_IndicesIdx L) in
      let resultK :=
        outIs NI (FusedRowwiseQuantizedSparseLengthsSumNode_ResultIdx L) in
      onTy isSLSIndicesValid
        (getInTy NI (FusedRowwiseQuantizedSparseLengthsSumNode_IndicesIdx L))
      && (dataK UInt8FusedQTy || dataK UInt8FusedFP16QTy
          || dataK UInt4FusedFP16QTy)
      && (resultK FloatTy || resultK Float16Ty)
      && (indicesK Int64ITy || indicesK Int32ITy)
      && lengthsK Int32ITy
  | FusedRowwiseQuantizedSparseLengthsWeightedSumNodeKind =>
      let dataK := inIs NI
        (FusedRowwiseQuantizedSparseLengthsWeightedSumNode_DataIdx L) in
      let weightsK := inIs NI
        (FusedRowwiseQuantizedSparseLengthsWeightedSumNode_WeightsIdx L) in
      let lengthsK := inIs NI
        (FusedRowwiseQuantizedSparseLengthsWeightedSumNode_LengthsIdx L) in
      let indicesK := inIs NI
        (FusedRowwiseQuantizedSparseLengthsWeightedSumNode_IndicesIdx L) in
      let resultK := outIs NI
        (FusedRowwiseQuantizedSparseLengthsWeightedSumNode_ResultIdx L) in
      onTy isSLSIndicesValid
        (getInTy NI
           (FusedRowwiseQuantizedSparseLengthsWeightedSumNode_IndicesIdx L))
      && (dataK UInt8FusedQTy || dataK UInt8FusedFP16QTy
          || dataK UInt4FusedFP16QTy)
      && (weightsK FloatTy || weightsK Float16Ty)
      && (resultK FloatTy || resultK Float16Ty)
      && (indicesK Int64ITy || indicesK Int32ITy)
      && lengthsK Int32ITy
  | RowwiseQuantizedSparseLengthsWeightedSumNodeKind =>
      onTy isSLSIndicesValid
        (getInTy NI
           (RowwiseQuantizedSparseLengthsWeightedSumNode_IndicesIdx L))
      && same [FloatTy; Float16Ty]
              [RowwiseQuantizedSparseLengthsWeightedSumNode_DataIdx L;
               RowwiseQuantizedSparseLengthsWeightedSumNode_IndicesIdx L;
               RowwiseQuantizedSparseLengthsWeightedSumNode_LengthsIdx L] []
      && inIs NI (RowwiseQuantizedSparseLengthsWeightedSumNode_DataIdx L)
              UInt8QTy
      && (inIs NI (RowwiseQuantizedSparseLengthsWeightedSumNode_IndicesIdx L)
               Int64ITy
          || inIs NI
               (RowwiseQuantizedSparseLengthsWeightedSumNode_IndicesIdx L)
               Int32ITy)
      && inIs NI (RowwiseQuantizedSparseLengthsWeightedSumNode_LengthsIdx L)
              Int32ITy
  | SparseToDenseNodeKind =>
      same [FloatTy] [SparseToDenseNode_IndicesIdx L] []
      && inIs NI (SparseToDenseNode_IndicesIdx L) Int64ITy
  | SoftMaxNodeKind =>
      same [FloatTy; Float16Ty; Int8QTy] [SoftMaxNode_SelectedIdx L] []
      && inIs NI (SoftMaxNode_SelectedIdx L) Int64ITy
  | LengthsRangeFillNodeKind => same [Int32ITy] [] []
  | BatchOneHotNodeKind =>
      same [FloatTy; Float16Ty; Int8QTy; Int32ITy; Int64ITy]
           [BatchOneHotNode_LengthsIdx L] []
      && inIs NI (BatchOneHotNode_LengthsIdx L) Int32ITy
  | NNPICustomDSPNodeKind | NNPICustomIANodeKind => true
  | SpaceToDepthNodeKind =>
      same [FloatTy; Float16Ty; Int8QTy; Int32ITy; Int64ITy] [] []
  | ArgMaxNodeKind => outIs NI (ArgMaxNode_ResultIdx L) Int64ITy
  | LogitNodeKind => same [FloatTy; Float16Ty] [] []
  | _ => false
  end.

(** [NNPIBackend::acceptForExecution]: for performance reasons, only accept
    for execution SLS/SLWS with non-unary data inputs. *)
Definition acceptForExecution (NI : NodeInfo) : bool :=
  if negb (isOpSupported NI) then false
  else
    match getKind NI with
    | SparseLengthsSumNodeKind =>
        GlowNNPIAcceptUnarySLS G
        || negb (onTy isUnaryLookup
                   (getInTy NI (SparseLengthsSumNode_DataIdx L)))
    | SparseLengthsWeightedSumNodeKind =>
        GlowNNPIAcceptUnarySLS G
        || negb (onTy isUnaryLookup
                   (getInTy NI (SparseLengthsWeightedSumNode_DataIdx L)))
    | _ => true
    end.

(** [NNPIBackend::shouldLower] *)
Definition shouldLower (N : Node) : bool :=
  match node_kind N with
  | ClipNodeKind =>
      let result := getNthResult N (ClipNode_ResultIdx L) in
      if negb (elemTypeIs result Float16Ty)
         && negb (elemTypeIs result Int8QTy)
      then true
      else false
  | ConvolutionNodeKind => isConvolutionSameAsFullyConnected E N
  | FullyConnectedNodeKind | ConcatNodeKind | SigmoidNodeKind | TanhNodeKind
  | ReluNodeKind | Convolution3DNodeKind | TileNodeKind | LogNodeKind
  | ReplaceNaNNodeKind | LocalResponseNormalizationNodeKind
  | BatchedReduceMeanNodeKind | BatchedReduceMinNodeKind
  | BatchMatMulNodeKind | BatchNormalizationNodeKind
  | ChannelwiseQuantizedConvolutionNodeKind | AdaptiveAvgPoolNodeKind
  | EmbeddingBagNodeKind | EmbeddingBagByteRowwiseOffsetsNodeKind
  | LayerNormalizationNodeKind
  | FusedRowwiseQuantizedSparseLengthsSumNodeKind | PReluNodeKind => false
  | SparseLengthsSumNodeKind =>
      (* WA - lower until ICE-T implements it. *)
      if useIceT backendOptions_ || inferOnDevice backendOptions_
      then true
      else false
  | LogitNodeKind =>
      let NI := NodeInfo_of N in
      allInputsAndOutputsHaveSameElemKind NI [FloatTy] [] []
  | _ => true
  end.

End Legality.

(** ** Parallelization planner: planning *)

(** [size_t(n)] for an [int] or [int32_t] [n]. *)
Definition to_size_t (n : Z) : Z := (n mod 2 ^ 64)%Z.

(** The two planning tables, [numChunks] and [parOpts], keyed by node. *)
Abbreviation PlanMaps :=
  (gmap NodeId Z * gmap NodeId ParallelTransformKind)%type.

(** Control flow of one loop iteration: [Continue] leaves the iteration,
    [Next] goes on with the statements that follow. *)
Inductive Flow (S : Type) : Type :=
| Continue (st : S)
| Next (st : S).
Arguments Continue {S} st.
Arguments Next {S} st.

Definition andThen {S : Type} (f : Flow S) (k : S -> Flow S) : Flow S :=
  match f with
  | Continue st => Continue st
  | Next st => k st
  end.

Definition endIteration {S : Type} (f : Flow S) : S :=
  match f with
  | Continue st => st
  | Next st => st
  end.

Section Planning.

Context (E : Collaborators).

Let L := layout E.

(** [parOpts[X] = kind; numChunks[X] = n;] *)
Definition plan (X : Node) (kind : ParallelTransformKind) (n : Z)
    (st : PlanMaps) : PlanMaps :=
  (<[node_id X := to_size_t n]> st.1, <[node_id X := kind]> st.2).

(** [numChunks.find(inputNode) != numChunks.end() &&
     parOpts.find(inputNode) != parOpts.end()] *)
Definition planned (inputNode : option NodeId) (st : PlanMaps) : bool :=
  match inputNode with
  | Some i => bool_decide (is_Some (st.1 !! i))
              && bool_decide (is_Some (st.2 !! i))
  | None => false
  end.

(** [llvm::dyn_cast<XNode>(inputNode)] for a pointer read from an edge. *)
Definition isaAt (F : Function) (k : Kind) (p : option NodeId) : bool :=
  match p ≫= findNode F with
  | Some N => isa k N
  | None => false
  end.

(** One iteration of the loop of [setupBasicParallelizationConfigs]. *)
Definition setupBasicNode (F : Function) (numParallelChunks : Z)
    (node : Node) (st : PlanMaps) : PlanMaps :=
  endIteration (
    (* Find all FC layers to split *)
    andThen
      (if isa FullyConnectedNodeKind node then
         let K := dimAt (dimsOf (getNthInput node
                                   (FullyConnectedNode_WeightsIdx L))) 1 in
         if (512 <=? K)%N
         then Continue (plan node PTK_Model numParallelChunks st)
         else
           let M := dimAt (dimsOf (getNthInput node
                                     (FullyConnectedNode_InputIdx L))) 0 in
           if (256 <=? M)%N
           then Continue (plan node PTK_Data numParallelChunks st)
           else Next st
       else Next st)
    (fun st =>
    (* Relu parallelization: if a Relu follows FC, mirror FC split so that
       they fuse; otherwise, use data parallelism. *)
    andThen
      (if isa ReluNodeKind node then
         let input := getNthInput node ActivationIOIdx in
         let inputNode := getNode <$> input in
         if negb (isaAt F FullyConnectedNodeKind inputNode) then
           if planned inputNode st
           then Continue (plan node PTK_Data numParallelChunks st)
           else Continue st
         else if (length (dimsOf input) <? 2)%nat then Continue st
         else
           let K := dimAt (dimsOf input) 1 in
           if (512 <=? K)%N
           then Continue (plan node PTK_Model numParallelChunks st)
           else
             let M := dimAt (dimsOf input) 0 in
             if (256 <=? M)%N
             then Continue (plan node PTK_Data numParallelChunks st)
             else Next st
       else Next st)
    (fun st =>
    (* Split transpose layers in data parallel fashion *)
    andThen
      (if isa TransposeNodeKind node
       then Next (plan node PTK_Data numParallelChunks st)
       else Next st)
    (fun st =>
    (* Split Quantize layers in data parallel fashion *)
    andThen
      (if isa QuantizeNodeKind node
       then Next (plan node PTK_Data numParallelChunks st)
       else Next st)
    (fun st =>
    (* Split Dequantize layers in data parallel fashion *)
    andThen
      (if isa DequantizeNodeKind node
       then Next (plan node PTK_Data numParallelChunks st)
       else Next st)
    (fun st =>
    (* Split BMM layers in data parallel fashion *)
    andThen
      (if isa BatchMatMulNodeKind node
       then Next (plan node PTK_Data numParallelChunks st)
       else Next st)
    (fun st =>
    (* Split Tanh layers in data parallel fashion *)
    andThen
      (if isa TanhNodeKind node then
         let input := getNthInput node ActivationIOIdx in
         if (length (dimsOf input) <? 2)%nat then Continue st
         else
           let N := dimAt (dimsOf input) 1 in
           if (N <? 4096)%N then Continue st
           else Next (plan node PTK_Data numParallelChunks st)
       else Next st)
    (fun st =>
    (* Split Mul layers in data parallel fashion *)
    andThen
      (if isa MulNodeKind node then
         let lhs := getNthInput node (MulNode_LHSIdx L) in
         if (length (dimsOf lhs) <? 2)%nat then Continue st
         else
           let N := dimAt (dimsOf lhs) 1 in
           if (N <? 4096)%N then Continue st
           else Next (plan node PTK_Data numParallelChunks st)
       else Next st)
    (fun st =>
    (* Clip parallelization: if a Clip follows a parallel op, mirror
       that. *)
    if isa ClipNodeKind node then
      let inputNode := getNode <$> getNthInput node (ClipNode_InputIdx L) in
      match inputNode ≫= (fun i => st.1 !! i),
            inputNode ≫= (fun i => st.2 !! i) with
      | Some n, Some k =>
          Next (<[node_id node := n]> st.1, <[node_id node := k]> st.2)
      | _, _ => Next st
      end
    else Next st))))))))).

(** [setupBasicParallelizationConfigs]: nodes are processed in post order,
    so inputs are always processed before outputs. *)
Definition setupBasicParallelizationConfigs (F : Function)
    (maps : PlanMaps) (numParallelChunks : Z) : PlanMaps :=
  fold_left (fun st node => setupBasicNode F numParallelChunks node st)
            (getPostOrder E F) maps.

(** One iteration of the loop of [setupPerNodeParallelizationConfigs]. *)
Definition setupPerNode (currFunInfo : FunctionNodeInfo) (node : Node)
    (st : PlanMaps) : Expected PlanMaps :=
  match currFunInfo !! node_id node with
  | None => Ok st
  | Some nodeInfo =>
      (* Setup parallelTransformKind. It can be specified without
         numParallelChunks only if it is set to "None". *)
      match nodeInfo !! parallelTransformKindKey E with
      | None => Ok st
      | Some kinds =>
          RETURN_ERR_IF_NOT (length kinds =? 1)%nat
            MSG ("Expected single value for " +:+ parallelTransformKindKey E) ;;
          let pKindStr := List.hd "" kinds in
          ASSIGN_VALUE_OR_RETURN_ERR pKind <-
            (if String.eqb pKindStr "Data" then Ok PTK_Data
             else if String.eqb pKindStr "Model" then Ok PTK_Model
             else if String.eqb pKindStr "None" then Ok PTK_None
             else Err (parallelTransformKindKey E +:+ " " +:+ pKindStr
                       +:+ " not supported.")) ;;
          if bool_decide (pKind = PTK_None) then Ok st
          else
            (* Setup numParallelChunks. It must be specified at this
               point, as we have a valid parallelTransformKind found
               above. *)
            match nodeInfo !! numParallelChunksKey E with
            | None =>
                Err (numParallelChunksKey E +:+ " and "
                     +:+ parallelTransformKindKey E
                     +:+ " must be specified together.")
            | Some chunks =>
                RETURN_ERR_IF_NOT (length chunks =? 1)%nat
                  MSG ("Expected single value for "
                       +:+ numParallelChunksKey E) ;;
                ASSIGN_VALUE_OR_RETURN_ERR numChunks <-
                  getIntFromStr E (List.hd "" chunks) ;;
                RETURN_ERR_IF_NOT (1 <? numChunks)%Z
                  MSG "numChunks must be > 1." ;;
                Ok (<[node_id node := to_size_t numChunks]> st.1,
                    <[node_id node := pKind]> st.2)
            end
      end
  end.

Fixpoint setupPerNodeLoop (currFunInfo : FunctionNodeInfo)
    (nodes : list Node) (st : PlanMaps) : Expected PlanMaps :=
  match nodes with
  | [] => Ok st
  | node :: nodes' =>
      ASSIGN_VALUE_OR_RETURN_ERR st' <- setupPerNode currFunInfo node st ;;
      setupPerNodeLoop currFunInfo nodes' st'
  end.

(** [setupPerNodeParallelizationConfigs] *)
Definition setupPerNodeParallelizationConfigs (F : Function)
    (maps : PlanMaps) (backendSpecificNodeInfo : BackendSpecificNodeInfo)
  : Expected PlanMaps :=
  match backendSpecificNodeInfo !! fun_id F with
  | None => Err "Must have backend-specific info for this Function."
  | Some currFunInfo => setupPerNodeLoop currFunInfo (getNodes F) maps
  end.

End Planning.

(** ** Parallelization planner: validation *)

Section Validation.

Context (E : Collaborators).

(** The first loop of [validateBackendSpecificNodeInfo], over the pairs
    (replaced node, concat that replaced it). The table of replaced names
    the source fills on the way is not read afterwards and is left out.
    The annotations are edited in place, so they are returned also when
    the loop fails. *)
Fixpoint validateReplaced (F : Function) (replacedMap : list (Node * Node))
    (currFunInfo : FunctionNodeInfo) : Error * FunctionNodeInfo :=
  match replacedMap with
  | [] => (success, currFunInfo)
  | (replacedNode, CN) :: rest =>
      if negb (getNumUsers F replacedNode =? 0)%nat then
        (Err "Replaced Node should no longer be used in the Function.",
         currFunInfo)
      else
        match currFunInfo !! node_id replacedNode with
        | None =>
            (Err ("Only should have parallelized if "
                  +:+ "backendSpecificNodeInfo said so."), currFunInfo)
        | Some nodeInfo =>
            (* Validate that the number of nodes concatenated together is
               equal to the parallelization factor specified in
               numParallelChunks. *)
            match nodeInfo !! numParallelChunksKey E with
            | None =>
                (Err ("Must have corresponding " +:+ numParallelChunksKey E
                      +:+ " for any Node that was parallelized."),
                 currFunInfo)
            | Some chunks =>
                if negb (length chunks =? 1)%nat then
                  (Err "Expected a single value for numParallelChunks",
                   currFunInfo)
                else
                  match getIntFromStr E (List.hd "" chunks) with
                  | Err msg => (Err msg, currFunInfo)
                  | Ok numParChunksVal =>
                      if negb (to_size_t numParChunksVal
                               =? Z.of_nat (length (getInputs CN)))%Z
                      then
                        (Err "Node not split the expected number of times.",
                         currFunInfo)
                      else
                        (* Now we can erase this Node's info from
                           currFunInfo because it has been replaced and
                           will be DCE'd soon. *)
                        validateReplaced F rest
                          (delete (node_id replacedNode) currFunInfo)
                  end
            end
        end
  end.

(** [nodeInfo.count(key)] *)
Definition count (nodeInfo : NodeAnnotations) (key : string) : bool :=
  bool_decide (is_Some (nodeInfo !! key)).

(** The checks made on one node that still carries annotations. *)
Definition checkNoHints (node : Node) (nodeInfo : NodeAnnotations) : Error :=
  RETURN_ERR_IF_NOT (negb (count nodeInfo (parallelTransformKindKey E)))
    MSG ("Node " +:+ getName node +:+ " should not have a "
         +:+ "parallelTransformKind after parallelization") ;;
  RETURN_ERR_IF_NOT (negb (count nodeInfo (numParallelChunksKey E)))
    MSG ("Node " +:+ getName node +:+ " should not have a "
         +:+ "numParallelChunks after parallelization") ;;
  RETURN_ERR_IF_NOT (negb (count nodeInfo (coreAssignmentsKey E)))
    MSG ("Node " +:+ getName node +:+ " should not have a "
         +:+ "coreAssignments prior to placement") ;;
  RETURN_ERR_IF_NOT (negb (count nodeInfo (coreAssignmentsSuffixKey E)))
    MSG ("Node " +:+ getName node +:+ " should not have a "
         +:+ "coreAssignmentsSuffix prior to placement") ;;
  RETURN_ERR_IF_NOT (negb (count nodeInfo (extraEdgesTargetNameKey E)))
    MSG ("Node " +:+ getName node +:+ " should not have a "
         +:+ "extraEdgesTargetName prior to placement") ;;
  RETURN_ERR_IF_NOT (negb (count nodeInfo (extraEdgesTargetSuffixKey E)))
    MSG ("Node " +:+ getName node +:+ " should not have a "
         +:+ "extraEdgesTargetSuffix prior to placement") ;;
  RETURN_ERR_IF_NOT (negb (count nodeInfo (extraEdgesSourceSuffixKey E)))
    MSG ("Node " +:+ getName node +:+ " should not have a "
         +:+ "extraEdgesSourceSuffix prior to placement") ;;
  success.

(** The second loop: no parallelization or placement hints should be
    present at this point. *)
Fixpoint validateRemaining (currFunInfo : FunctionNodeInfo)
    (nodes : list Node) : Error :=
  match nodes with
  | [] => success
  | node :: nodes' =>
      match currFunInfo !! node_id node with
      | None => validateRemaining currFunInfo nodes'
      | Some nodeInfo =>
          RETURN_IF_ERR checkNoHints node nodeInfo ;;
          validateRemaining currFunInfo nodes'
      end
  end.

(** [validateBackendSpecificNodeInfo]: the verdict and the annotations as
    the call leaves them. *)
Definition validateBackendSpecificNodeInfo (F : Function)
    (replacedMap : list (Node * Node))
    (backendSpecificNodeInfo : BackendSpecificNodeInfo)
  : Error * BackendSpecificNodeInfo :=
  match backendSpecificNodeInfo !! fun_id F with
  | None =>
      (Err "Must have backend-specific info for this Function.",
       backendSpecificNodeInfo)
  | Some currFunInfo =>
      let '(res, currFunInfo') :=
        validateReplaced F replacedMap currFunInfo in
      let info' := <[fun_id F := currFunInfo']> backendSpecificNodeInfo in
      match res with
      | Err msg => (Err msg, info')
      | Ok _ => (validateRemaining currFunInfo' (getNodes F), info')
      end
  end.

End Validation.

(** ** Graph rewrites

    The rewrites act on the function being compiled and on the backend
    options of the compilation context. The calls made to the graph
    collaborator are logged in the order they are issued. *)

Inductive GraphCall : Set :=
| CallReplaceAllUsesOfWith (old new : NodeValue)
| CallCreateSplat (name : string) (ty : TypeRef) (value : float)
| CallCreateSelect (name : string)
| CallLowerNode (N : Node)
| CallParallelizeOps
| CallTransformPrivate.

Record State : Type := mkState {
  st_fn : Function;
  st_opts : BackendOptions;
  st_calls : list GraphCall
}.

Definition withFn (s : State) (F : Function) (call : GraphCall) : State :=
  mkState F (st_opts s) (st_calls s ++ [call]).

Section Rewrites.

Context (E : Collaborators) (G : Flags).

Let L := layout E.

(** [defaultNumParallelChunks] as [parallelizeFunction] computes it in
    heuristic mode: [GlowNNPINumParallelChunks] set via flags takes
    precedence over backend options in the compilation context. *)
Definition defaultNumParallelChunks (opts : BackendOptions) : Expected Z :=
  let defaultNumParallelChunks := GlowNNPINumParallelChunks G in
  if (defaultNumParallelChunks =? 0)%Z then
    match backendSpecificOpts opts !! "NNPINumParallelChunks" with
    | Some v => getIntFromStr E v
    | None => Ok defaultNumParallelChunks
    end
  else Ok defaultNumParallelChunks.

(** [parallelizeFunction]: \returns whether the function was modified. *)
Definition parallelizeFunction (usePerNodeParallelizationSpec : bool)
    (s : State) : Expected bool * State :=
  let F := st_fn s in
  let opts := st_opts s in
  let planning : Expected (option (PlanMaps * Z)) :=
    if usePerNodeParallelizationSpec then
      (* If we don't have any info for this function then return early. *)
      match backendSpecificNodeInfo opts !! fun_id F with
      | None => Ok None
      | Some _ =>
          (* Only parallelize based on what is explicitly specified. *)
          ASSIGN_VALUE_OR_RETURN_ERR maps <-
            setupPerNodeParallelizationConfigs E F (∅, ∅)
              (backendSpecificNodeInfo opts) ;;
          Ok (Some (maps, 1%Z))
      end
    else
      (* Check for basic parallelization based on specified degree of
         parallelism. *)
      ASSIGN_VALUE_OR_RETURN_ERR n <- defaultNumParallelChunks opts ;;
      (* If there's no parallelization to perform then exit early. *)
      if (n <=? 1)%Z then Ok None
      else Ok (Some (setupBasicParallelizationConfigs E F (∅, ∅) n, n))
  in
  match planning with
  | Err msg => (Err msg, s)
  | Ok None => (Ok false, s)
  | Ok (Some ((numChunks, parOpts), n)) =>
      if negb (size numChunks =? size parOpts)%nat then
        (Err "Require that numChunks and parOpts have same size.", s)
      else if (size numChunks =? 0)%nat then
        (* No parallelization to do, so return early. *)
        (Ok false, s)
      else
        (* Now actually do the parallelization. *)
        let '(F', replaced) := parallelizeOps E F numChunks parOpts n in
        let s1 := withFn s F' CallParallelizeOps in
        match replaced with
        | Err msg => (Err msg, s1)
        | Ok replacedMap =>
            if negb (size numChunks =? length replacedMap)%nat then
              (Err "Expected that numChunks and replacedMap have same size.",
               s1)
            else if usePerNodeParallelizationSpec then
              (* If parallelization was based on backend-specific node
                 info then validate the new nodes that were added. *)
              let '(res, info') :=
                validateBackendSpecificNodeInfo E F' replacedMap
                  (backendSpecificNodeInfo opts) in
              let s2 :=
                mkState F' (mkBackendOpts (backendSpecificOpts opts) info')
                        (st_calls s1) in
              match res with
              | Err msg => (Err msg, s2)
              | Ok _ => (Ok true, s2)
              end
            else (Ok true, s1)
        end
  end.

(** One iteration of [removeClipsBlockingFusion], on the node [id] points
    at. The pattern is read from the graph as the earlier iterations left
    it. *)
Definition removeClipBlockingFusion (id : NodeId) (acc : bool * State)
  : bool * State :=
  let '(changed, s) := acc in
  let F := st_fn s in
  match findNode F id with
  | None => acc
  | Some clipActivation =>
      if negb (isa ClipNodeKind clipActivation) then acc
      else
        match (getNode <$> getNthInput clipActivation (ClipNode_InputIdx L))
              ≫= findNode F with
        | None => acc
        | Some activation =>
            match node_kind activation with
            | ReluNodeKind | SigmoidNodeKind | TanhNodeKind =>
                let activationInput :=
                  getNthInput activation ActivationIOIdx in
                match (getNode <$> activationInput) ≫= findNode F with
                | None => acc
                | Some clipFC =>
                    if negb (isa ClipNodeKind clipFC) then acc
                    else if float_ne (getMin clipFC) (getMin clipActivation)
                            || float_ne (getMax clipFC)
                                 (getMax clipActivation)
                    then acc
                    else
                      match (getNode <$> getNthInput clipFC
                                           (ClipNode_InputIdx L))
                            ≫= findNode F with
                      | None => acc
                      | Some FC =>
                          if negb (isa FullyConnectedNodeKind FC) then acc
                          else
                            match getNthResult clipFC (ClipNode_ResultIdx L),
                                  getNthResult FC
                                    (FullyConnectedNode_ResultIdx L) with
                            | Some old, Some new =>
                                (true,
                                 withFn s (replaceAllUsesOfWith E F old new)
                                   (CallReplaceAllUsesOfWith old new))
                            | _, _ => acc
                            end
                      end
                end
            | _ => acc
            end
        end
  end.

(** [removeClipsBlockingFusion]: looks for FC -> Clip -> Activation -> Clip
    and removes the Clip between the FC and the Activation. *)
Definition removeClipsBlockingFusion (s : State) : bool * State :=
  fold_left (fun acc id => removeClipBlockingFusion id acc)
            (node_id <$> getNodes (st_fn s)) (false, s).

(** [lowerNode(F, N, cctx); changed = true;] *)
Definition lowerIt (N : Node) (s : State) : bool * State :=
  (true, withFn s (lowerNode E (st_fn s) N) (CallLowerNode N)).

(** One iteration of [lowerRequiredNodes]. Every test is on the kind and
    on operand and result types of the node, which are fixed when the node
    is built, so the node is read as it was when the walk started. *)
Definition lowerRequiredNode (N : Node) (acc : bool * State)
  : bool * State :=
  let '(changed, s) := acc in
  if isa BatchMatMulNodeKind N then
    if negb (GlowNNPILowerAllBatchMatMul G)
       && negb (allInputsAndOutputsHaveSameElemKind (NodeInfo_of N)
                  [FloatTy] [] [])
    then acc
    else lowerIt N s
  else if isa FusedRowwiseQuantizedSparseLengthsSumNodeKind N then
    (* Lower FRWQSLS only if not FP16. *)
    if elemTypeIs
         (getNthResult N
            (FusedRowwiseQuantizedSparseLengthsSumNode_ResultIdx L))
         Float16Ty
    then acc
    else lowerIt N s
  else if isa PReluNodeKind N then
    (* Lower PRelu only if not FP16. *)
    if elemTypeIs (getNthResult N (PReluNode_ResultIdx L)) Float16Ty
    then acc
    else lowerIt N s
  else if isa ConvertToNodeKind N then
    (* Handle bool->float conversion *)
    match getNthResult N (ConvertToNode_ResultIdx L),
          getNthInput N (ConvertToNode_InputIdx L) with
    | Some result, Some input =>
        if (elemTypeIs (Some result) FloatTy
            || elemTypeIs (Some result) Float16Ty)
           && elemTypeIs (Some input) BoolTy
        then
          let outputType := getType result in
          let ctName := getName N in
          let '(F1, s0) :=
            createSplat E (st_fn s) (ctName +:+ "_s0") outputType float_0 in
          let '(F2, s1) :=
            createSplat E F1 (ctName +:+ "_s1") outputType float_1 in
          let '(F3, sel) :=
            createSelect E F2 (ctName +:+ "_sel") input s1 s0 in
          let selValue := mkNodeValue (node_id sel) 0 outputType in
          let F4 := replaceAllUsesOfWith E F3 result selValue in
          (true,
           mkState F4 (st_opts s)
             (st_calls s
              ++ [CallCreateSplat (ctName +:+ "_s0") outputType float_0;
                  CallCreateSplat (ctName +:+ "_s1") outputType float_1;
                  CallCreateSelect (ctName +:+ "_sel");
                  CallReplaceAllUsesOfWith result selValue]))
        else acc
    | _, _ => acc
    end
  else acc.

(** [lowerRequiredNodes]: lowers nodes which need further lowering;
    \returns whether the function was modified. The model walks the nodes
    present at the start: the nodes the rewrites add are appended behind
    the walk and, being the products of the lowerings (matmuls, slices,
    splats, selects and the like), are taken to fall in no branch. *)
Definition lowerRequiredNodes (s : State) : bool * State :=
  fold_left (fun acc N => lowerRequiredNode N acc)
            (getNodes (st_fn s)) (false, s).

(** [NNPIBackend::transformPostLowering] *)
Definition transformPostLowering (s : State) : Expected bool * State :=
  if GlowDisableNNPITransforms G then (Ok false, s)
  else
    let '(changed, s1) := removeClipsBlockingFusion s in
    let '(lowered, s2) := lowerRequiredNodes s1 in
    let changed := changed || lowered in
    match parallelizeFunction false s2 with
    | (Err msg, s3) => (Err msg, s3)
    | (Ok parallelized, s3) =>
        let changed := changed || parallelized in
        match transformPrivate E with
        | None => (Ok changed, s3)
        | Some transformPrivate =>
            if GlowDisableNNPIPrivateTransforms G then (Ok changed, s3)
            else
              let '(F', private) := transformPrivate (st_fn s3) in
              (Ok (changed || private),
               withFn s3 F' CallTransformPrivate)
        end
    end.

End Rewrites.

(** ** Compilation entry point *)

(** What [compile] does to the function, in order: the graph calls of the
    planner, the run of the clean-up pass manager on the function as the
    planner left it, the call of the device compiler with the function and
    the options it is given. *)
Inductive CompileStep : Type :=
| StepGraph (call : GraphCall)
| StepFinalizeFPM (F : Function)
| StepDeviceCompile (F : Function) (newOpts : BackendOptions).

Section Compile.

Context (E : Collaborators) (G : Flags).

(** The collaborators of [compile]: the run of the "FinalizeFPM" pass
    manager (EliminateConcatSlice, FoldSlicesIntoConstants, DCE) on a
    function, the constructor of [NNPICompiledFunction] and its [compile]
    method, which answers with an error or with success. *)
Context {NNPICompiledFunction : Type}.
Context (runFinalizeFPM : Function -> Function).
Context (make_unique : Function -> NNPICompiledFunction).
Context (compileFunction :
           NNPICompiledFunction -> Function -> BackendOptions
           -> Error * NNPICompiledFunction).

(** [NNPIBackend::compile]: the compiled function or the error, and the
    steps taken. *)
Definition compile (F : Function) (opts : BackendOptions)
  : Expected NNPICompiledFunction * list CompileStep :=
  let newOpts := opts in
  (* Perform parallelization based on any node options found in opts. *)
  match parallelizeFunction E G true (mkState F newOpts []) with
  | (Err msg, s) => (Err msg, StepGraph <$> st_calls s)
  | (Ok parallelized, s) =>
      let '(F, steps) :=
        if (parallelized : bool)
        then (runFinalizeFPM (st_fn s),
              (StepGraph <$> st_calls s) ++ [StepFinalizeFPM (st_fn s)])
        else (st_fn s, StepGraph <$> st_calls s) in
      let newOpts := st_opts s in
      let compiledFunc := make_unique F in
      let '(compileHasError, compiledFunc) :=
        compileFunction compiledFunc F newOpts in
      let steps := steps ++ [StepDeviceCompile F newOpts] in
      match compileHasError with
      | Err msg => (Err msg, steps)
      | Ok _ => (Ok compiledFunc, steps)
      end
  end.

End Compile.

(** ** Partition resource binder *)

(** A tensor handle. *)
Definition Tensor : Set := nat.

(** Usage record of one placeholder. *)
Record PlaceholderUsage : Set := mkUsage {
  numWriters : N;
  numReaders : N;
  disableP2P : bool;
  disableDRT : bool;
  tensor : option Tensor
}.

Abbreviation PlaceholderUsageMap := (gmap string PlaceholderUsage).

(** A runtime context, reduced to what the binder reads from it: the
    tensor bound to the placeholder of a given name, if any. *)
Record ExecutionContext : Type := mkContext {
  getPlaceholderBindings : gmap string Tensor
}.

(** The two device operations the binder calls. [bindContext] answers
    [true] when it fails. *)
Record NNPIDeviceManager : Type := mkDeviceManager {
  addPlaceholderUsageCount :
    string -> PlaceholderUsageMap -> PlaceholderUsageMap;
  bindContext : string -> ExecutionContext -> PlaceholderUsageMap -> bool
}.

(** A device manager is an NNPI device manager or one of another class;
    [dynamic_cast] tells them apart. *)
Inductive DeviceManager : Type :=
| NNPIDevice (nnpiDM : NNPIDeviceManager)
| OtherDevice.

Definition dynamic_cast (d : option DeviceManager)
  : option NNPIDeviceManager :=
  match d with
  | Some (NNPIDevice nnpiDM) => Some nnpiDM
  | _ => None
  end.

Record ContextBinding : Type := mkBinding {
  context : option ExecutionContext;
  device : option DeviceManager;
  networkName : string
}.

(** A node of the device DAG. A node shared by several parents occurs
    under each of them with the same [dag_id], which stands for its
    address. *)
Inductive DAGNode : Set :=
| mkDAGNode (dag_id : nat) (name : string) (backendName : string)
            (children : list DAGNode).

Definition dag_id (n : DAGNode) : nat :=
  match n with mkDAGNode i _ _ _ => i end.
Definition name (n : DAGNode) : string :=
  match n with mkDAGNode _ s _ _ => s end.
Definition backendName (n : DAGNode) : string :=
  match n with mkDAGNode _ _ b _ => b end.
Definition children (n : DAGNode) : list DAGNode :=
  match n with mkDAGNode _ _ _ cs => cs end.

(** Traverse the DAG and collect nodes in post order. *)
Fixpoint traversePostOrder (root : DAGNode)
    (st : gset nat * list DAGNode) : gset nat * list DAGNode :=
  match root with
  | mkDAGNode i _ _ cs =>
      let visit :=
        fix visit (cs : list DAGNode) (st : gset nat * list DAGNode) :=
          match cs with
          | [] => st
          | c :: cs' =>
              visit cs'
                (if bool_decide (dag_id c ∈ st.1) then st
                 else traversePostOrder c st)
          end in
      let st' := visit cs ({[i]} ∪ st.1, st.2) in
      (st'.1, st'.2 ++ [root])
  end.

(** The calls the binder issues to its collaborators. *)
Inductive DeviceCall : Set :=
| DotClear
| DotAddSubGraph (id label : string)
| AddPlaceholderUsageCount (networkName : string)
| BindContext (name : string)
| DotWriteToFile (name : string).

Definition isBindContext (c : DeviceCall) : bool :=
  match c with
  | BindContext _ => true
  | _ => false
  end.

(** Collect placeholders usage count. *)
Fixpoint collectUsage (bindings : list ContextBinding)
    (phUsage : PlaceholderUsageMap)
  : Expected PlaceholderUsageMap * list DeviceCall :=
  match bindings with
  | [] => (Ok phUsage, [])
  | cb :: bindings' =>
      match dynamic_cast (device cb) with
      | None => (Err "Invalid device manager", [])
      | Some nnpiDM =>
          let '(res, calls) :=
            collectUsage bindings'
              (addPlaceholderUsageCount nnpiDM (networkName cb) phUsage) in
          (res, AddPlaceholderUsageCount (networkName cb) :: calls)
      end
  end.

(** The loop over the usage table: reject a second writer, record the two
    transfer flags. *)
Fixpoint markUsage (entries : list (string * PlaceholderUsage))
    (enableP2P enableDRT : bool) (phUsage : PlaceholderUsageMap)
  : Expected PlaceholderUsageMap :=
  match entries with
  | [] => Ok phUsage
  | (phName, usage) :: entries' =>
      RETURN_ERR_IF_NOT (numWriters usage <? 2)%N
        MSG "Multiple writes to the same placeholder not suported" ;;
      markUsage entries' enableP2P enableDRT
        (<[phName := mkUsage (numWriters usage) (numReaders usage)
                       (negb enableP2P) (negb enableDRT) (tensor usage)]>
           phUsage)
  end.

(** Find the contextbinding for this node (assuming there's only one). *)
Fixpoint findBinding (bindings : list ContextBinding) (nodeName : string)
  : option ExecutionContext * option DeviceManager :=
  match bindings with
  | [] => (None, None)
  | cb :: bindings' =>
      if String.eqb (networkName cb) nodeName
      then (context cb, device cb)
      else findBinding bindings' nodeName
  end.

(** Update the tensors bound to placeholders. *)
Definition updateTensors (ctx : ExecutionContext)
    (phUsage : PlaceholderUsageMap) : PlaceholderUsageMap :=
  map_imap
    (fun phName usage =>
       Some (mkUsage (numWriters usage) (numReaders usage)
               (disableP2P usage) (disableDRT usage)
               (getPlaceholderBindings ctx !! phName)))
    phUsage.

(** The loop over the DAG nodes in post order. *)
Fixpoint bindNodes (bindings : list ContextBinding)
    (postOrder : list DAGNode) (phUsage : PlaceholderUsageMap)
  : Error * list DeviceCall :=
  match postOrder with
  | [] => (success, [])
  | dagNode :: postOrder' =>
      if negb (String.eqb (backendName dagNode) "NNPI")
      then bindNodes bindings postOrder' phUsage
      else
        match findBinding bindings (name dagNode) with
        | (Some ctx, Some devMgr) =>
            let phUsage := updateTensors ctx phUsage in
            match dynamic_cast (Some devMgr) with
            | None => (Err "Invalid device manager bound", [])
            | Some nnpiDM =>
                if negb (bindContext nnpiDM (name dagNode) ctx phUsage)
                then
                  let '(res, calls) :=
                    bindNodes bindings postOrder' phUsage in
                  (res, BindContext (name dagNode) :: calls)
                else
                  (Err "Failed to bind context",
                   [BindContext (name dagNode)])
            end
        | _ => bindNodes bindings postOrder' phUsage
        end
  end.

(** [NNPIBackend::bindContexts]: the verdict and the calls issued. The
    dump is written under [root->name], which the source reads without
    testing [root]: with dumping on and a null root the source has no
    defined behaviour once the bind loop is over, and the answer of the
    model on that input (a write under the empty name) stands for nothing
    the source does. *)
Definition bindContexts (backendOptions_ : NNPIBackendOptions)
    (bindings : list ContextBinding) (root : option DAGNode)
    (enableP2P enableDRT : bool) : Error * list DeviceCall :=
  let dotStart :=
    if dumpRuntime backendOptions_
    then [DotClear; DotAddSubGraph "Host" "Host"] else [] in
  (* Need post order to ensure p2p dest resources are created before their
     source (since source will handle the copy command). *)
  let postOrder :=
    match root with
    | None => []
    | Some r => (traversePostOrder r (∅, [])).2
    end in
  match collectUsage bindings ∅ with
  | (Err msg, calls) => (Err msg, dotStart ++ calls)
  | (Ok phUsage, calls) =>
      match markUsage (map_to_list phUsage) enableP2P enableDRT phUsage with
      | Err msg => (Err msg, dotStart ++ calls)
      | Ok phUsage =>
          match bindNodes bindings postOrder phUsage with
          | (Err msg, bound) => (Err msg, dotStart ++ calls ++ bound)
          | (Ok _, bound) =>
              (success,
               dotStart ++ calls ++ bound
               ++ (if dumpRuntime backendOptions_
                   then [DotWriteToFile (from_option name "" root)]
                   else []))
          end
      end
  end.

(** ** Vocabulary of the properties *)

(** Every operand and every result of the node has element kind [k]. *)
Definition allTensorsAre (k : ElemKind) (NI : NodeInfo) : bool :=
  forallb (fun t => bool_decide (getElementType t = k))
          (inTypes_ NI ++ outTypes_ NI).

(** The sparse-lookup-sum family and the position of its data operand. *)
Definition isLookupSum (k : Kind) : bool :=
  match k with
  | SparseLengthsSumNodeKind | SparseLengthsWeightedSumNodeKind => true
  | _ => false
  end.

Definition lookupDataIdx (L : OperandLayout) (k : Kind) : nat :=
  match k with
  | SparseLengthsWeightedSumNodeKind => SparseLengthsWeightedSumNode_DataIdx L
  | _ => SparseLengthsSumNode_DataIdx L
  end.

(** The indexed-gather-style kinds and the position of their indices
    operand. *)
Definition indicesIdxOf (L : OperandLayout) (k : Kind) : option nat :=
  match k with
  | SparseLengthsSumNodeKind => Some (SparseLengthsSumNode_IndicesIdx L)
  | SparseLengthsWeightedSumNodeKind =>
      Some (SparseLengthsWeightedSumNode_IndicesIdx L)
  | EmbeddingBagNodeKind => Some (EmbeddingBagNode_IndicesIdx L)
  | EmbeddingBagByteRowwiseOffsetsNodeKind =>
      Some (EmbeddingBagByteRowwiseOffsetsNode_IndicesIdx L)
  | FusedRowwiseQuantizedSparseLengthsSumNodeKind =>
      Some (FusedRowwiseQuantizedSparseLengthsSumNode_IndicesIdx L)
  | FusedRowwiseQuantizedSparseLengthsWeightedSumNodeKind =>
      Some (FusedRowwiseQuantizedSparseLengthsWeightedSumNode_IndicesIdx L)
  | RowwiseQuantizedSparseLengthsWeightedSumNodeKind =>
      Some (RowwiseQuantizedSparseLengthsWeightedSumNode_IndicesIdx L)
  | _ => None
  end.

(** A directive the setup must reject: a transform-kind that is not one of
    the three values, a Data or Model transform-kind without chunk-count,
    or with a chunk-count that is not a single integer above 1. *)
Inductive BadDirective (E : Collaborators) (nodeInfo : NodeAnnotations)
  : Prop :=
| bad_kind (kinds : list string) :
    nodeInfo !! parallelTransformKindKey E = Some kinds ->
    kinds <> ["Data"] -> kinds <> ["Model"] -> kinds <> ["None"] ->
    BadDirective E nodeInfo
| bad_missing_chunks (kind : string) :
    nodeInfo !! parallelTransformKindKey E = Some [kind] ->
    kind = "Data" \/ kind = "Model" ->
    nodeInfo !! numParallelChunksKey E = None ->
    BadDirective E nodeInfo
| bad_chunks (kind : string) (chunks : list string) :
    nodeInfo !! parallelTransformKindKey E = Some [kind] ->
    kind = "Data" \/ kind = "Model" ->
    nodeInfo !! numParallelChunksKey E = Some chunks ->
    (forall s n, chunks = [s] -> getIntFromStr E s = Ok n -> (n <= 1)%Z) ->
    BadDirective E nodeInfo.

(** The sentence "the setup returns an error for every node annotation
    whose chunk-count is not an integer > 1", read on one node of a
    function, whatever else the annotation of the node holds. *)
Definition errsOnBadChunkCount (E : Collaborators) (F : Function)
    (info : BackendSpecificNodeInfo) (node : Node) : Prop :=
  forall currFunInfo nodeInfo chunks,
    info !! fun_id F = Some currFunInfo ->
    node ∈ getNodes F ->
    currFunInfo !! node_id node = Some nodeInfo ->
    nodeInfo !! numParallelChunksKey E = Some chunks ->
    (forall s n, chunks = [s] -> getIntFromStr E s = Ok n -> (n <= 1)%Z) ->
    isErr (setupPerNodeParallelizationConfigs E F (∅, ∅) info).

(** The annotation keys that must be gone once parallelization is
    validated. *)
Definition hintKeys (E : Collaborators) : list string :=
  [parallelTransformKindKey E; numParallelChunksKey E; coreAssignmentsKey E;
   coreAssignmentsSuffixKey E; extraEdgesTargetNameKey E;
   extraEdgesTargetSuffixKey E; extraEdgesSourceSuffixKey E].

(** The annotations of a function once the records of the replaced nodes
    are purged. *)
Definition purge (replacedMap : list (Node * Node))
    (currFunInfo : FunctionNodeInfo) : FunctionNodeInfo :=
  fold_left (fun info p => delete (node_id p.1) info) replacedMap currFunInfo.

(** The concat that replaced a node has as many inputs as the chunk-count
    recorded for that node says. *)
Definition splitAsRecorded (E : Collaborators)
    (currFunInfo : FunctionNodeInfo) (p : Node * Node) : Prop :=
  exists nodeInfo s n,
    currFunInfo !! node_id p.1 = Some nodeInfo
    /\ nodeInfo !! numParallelChunksKey E = Some [s]
    /\ getIntFromStr E s = Ok n
    /\ n = Z.of_nat (length (getInputs p.2)).

(** No hint key is left on the node. *)
Definition noHintLeft (E : Collaborators) (currFunInfo : FunctionNodeInfo)
    (node : Node) : Prop :=
  forall nodeInfo key,
    currFunInfo !! node_id node = Some nodeInfo ->
    key ∈ hintKeys E -> nodeInfo !! key = None.

(** The sentence "a logit op lowers unless all tensors are 32-bit float",
    read on one node. *)
Definition lowersUnlessAllFloat32 (E : Collaborators)
    (backendOptions_ : NNPIBackendOptions) (N : Node) : Prop :=
  shouldLower E backendOptions_ N
  = negb (allTensorsAre FloatTy (NodeInfo_of N)).

(** The entry of node [i] is the same in both pairs of planning tables. *)
Definition sameEntry (i : NodeId) (st st' : PlanMaps) : Prop :=
  st'.1 !! i = st.1 !! i /\ st'.2 !! i = st.2 !! i.



(** The walk of [lowerRequiredNodes] has nothing to do on the node. *)
Definition leftAlone (G : Flags) (N : Node) : Prop :=
  node_kind N <> FusedRowwiseQuantizedSparseLengthsSumNodeKind
  /\ node_kind N <> PReluNodeKind
  /\ node_kind N <> ConvertToNodeKind
  /\ (node_kind N = BatchMatMulNodeKind ->
      GlowNNPILowerAllBatchMatMul G = false
      /\ allTensorsAre FloatTy (NodeInfo_of N) = false).

(** A directive the setup accepts: a single transform-kind "Data" or
    "Model", with a single chunk-count that parses to an integer above
    1. *)
Definition GoodDirective (E : Collaborators) (nodeInfo : NodeAnnotations)
    (kind : ParallelTransformKind) (n : Z) : Prop :=
  exists kindStr s,
    nodeInfo !! parallelTransformKindKey E = Some [kindStr]
    /\ ((kindStr = "Data" /\ kind = PTK_Data)
        \/ (kindStr = "Model" /\ kind = PTK_Model))
    /\ nodeInfo !! numParallelChunksKey E = Some [s]
    /\ getIntFromStr E s = Ok n
    /\ (1 < n)%Z.

(** The call is a [replaceAllUsesOfWith]. *)
Definition isReplaceAllUses (c : GraphCall) : Prop :=
  exists old new, c = CallReplaceAllUsesOfWith old new.

(** The node is one the walk of [lowerRequiredNodes] hands to
    [lowerNode]. *)
Definition handedToLowerNode (E : Collaborators) (G : Flags) (N : Node)
  : bool :=
  if isa BatchMatMulNodeKind N then
    negb (negb (GlowNNPILowerAllBatchMatMul G)
          && negb (allInputsAndOutputsHaveSameElemKind (NodeInfo_of N)
                     [FloatTy] [] []))
  else if isa FusedRowwiseQuantizedSparseLengthsSumNodeKind N then
    negb (elemTypeIs
            (getNthResult N
               (FusedRowwiseQuantizedSparseLengthsSumNode_ResultIdx
                  (layout E)))
            Float16Ty)
  else if isa PReluNodeKind N then
    negb (elemTypeIs (getNthResult N (PReluNode_ResultIdx (layout E)))
            Float16Ty)
  else false.

(** The partition is one the binder binds: it belongs to this backend and
    the first binding of its name has a context and a device. *)
Definition toBind (bindings : list ContextBinding) (n : DAGNode) : bool :=
  String.eqb (backendName n) "NNPI"
  && match findBinding bindings (name n) with
     | (Some _, Some _) => true
     | _ => false
     end.

(** A usage record with the two transfer flags of a bind operation. *)
Definition withFlags (enableP2P enableDRT : bool) (usage : PlaceholderUsage)
  : PlaceholderUsage :=
  mkUsage (numWriters usage) (numReaders usage)
          (negb enableP2P) (negb enableDRT) (tensor usage).

(** The calls that open and close the runtime dump. *)
Definition dotOpen (backendOptions_ : NNPIBackendOptions)
  : list DeviceCall :=
  if dumpRuntime backendOptions_
  then [DotClear; DotAddSubGraph "Host" "Host"] else [].

(** The post order the binder walks. *)
Definition postOrderOf (root : option DAGNode) : list DAGNode :=
  match root with
  | None => []
  | Some r => (traversePostOrder r (∅, [])).2
  end.

(** ** Sample collaborators and graphs

    A concrete instance of the collaborators, used to run the definitions
    on concrete inputs: operand positions in the order the node classes
    list their operands, a decimal parser, identity-like rewrites. *)
Module Samples.

Definition glowLayout : OperandLayout :=
  {| ConvolutionNode_InputIdx := 0; ConvolutionNode_BiasIdx := 2;
     Convolution3DNode_InputIdx := 0; Convolution3DNode_BiasIdx := 2;
     QuantizeNode_InputIdx := 0; QuantizeNode_ResultIdx := 0;
     DequantizeNode_InputIdx := 0; DequantizeNode_ResultIdx := 0;
     ConvertToNode_InputIdx := 0; ConvertToNode_ResultIdx := 0;
     FullyConnectedNode_InputIdx := 0; FullyConnectedNode_WeightsIdx := 1;
     FullyConnectedNode_BiasIdx := 2; FullyConnectedNode_ResultIdx := 0;
     MaxPoolNode_ArgmaxIdx := 1; TopKNode_IndicesIdx := 1;
     GatherNode_IndicesIdx := 1;
     GatherRangesNode_DataIdx := 0; GatherRangesNode_OutputIdx := 0;
     CmpEQNode_ResultIdx := 0; SelectNode_CondIdx := 0;
     RowwiseQuantizedFullyConnectedNode_InputIdx := 0;
     RowwiseQuantizedFullyConnectedNode_WeightsIdx := 1;
     RowwiseQuantizedFullyConnectedNode_ScalesIdx := 2;
     RowwiseQuantizedFullyConnectedNode_OffsetsIdx := 3;
     RowwiseQuantizedFullyConnectedNode_BiasIdx := 4;
     RowwiseQuantizedFullyConnectedNode_ResultIdx := 0;
     ChannelwiseQuantizedConvolutionNode_InputIdx := 0;
     ChannelwiseQuantizedConvolutionNode_FilterIdx := 1;
     ChannelwiseQuantizedConvolutionNode_BiasIdx := 2;
     ChannelwiseQuantizedConvolutionNode_FilterScalesIdx := 3;
     ChannelwiseQuantizedConvolutionNode_FilterOffsetsIdx := 4;
     ChannelwiseQuantizedConvolutionNode_ResultIdx := 0;
     SparseLengthsSumNode_DataIdx := 0;
     SparseLengthsSumNode_IndicesIdx := 1;
     SparseLengthsSumNode_LengthsIdx := 2;
     SparseLengthsWeightedSumNode_DataIdx := 0;
     SparseLengthsWeightedSumNode_IndicesIdx := 2;
     SparseLengthsWeightedSumNode_LengthsIdx := 3;
     EmbeddingBagNode_IndicesIdx := 2; EmbeddingBagNode_OffsetsIdx := 3;
     EmbeddingBagByteRowwiseOffsetsNode_DataIdx := 0;
     EmbeddingBagByteRowwiseOffsetsNode_OffsetsIdx := 3;
     EmbeddingBagByteRowwiseOffsetsNode_IndicesIdx := 2;
     EmbeddingBagByteRowwiseOffsetsNode_ResultIdx := 0;
     FusedRowwiseQuantizedSparseLengthsSumNode_DataIdx := 0;
     FusedRowwiseQuantizedSparseLengthsSumNode_LengthsIdx := 2;
     FusedRowwiseQuantizedSparseLengthsSumNode_IndicesIdx := 1;
     FusedRowwiseQuantizedSparseLengthsSumNode_ResultIdx := 0;
     FusedRowwiseQuantizedSparseLengthsWeightedSumNode_DataIdx := 0;
     FusedRowwiseQuantizedSparseLengthsWeightedSumNode_WeightsIdx := 1;
     FusedRowwiseQuantizedSparseLengthsWeightedSumNode_LengthsIdx := 3;
     FusedRowwiseQuantizedSparseLengthsWeightedSumNode_IndicesIdx := 2;
     FusedRowwiseQuantizedSparseLengthsWeightedSumNode_ResultIdx := 0;
     RowwiseQuantizedSparseLengthsWeightedSumNode_DataIdx := 0;
     RowwiseQuantizedSparseLengthsWeightedSumNode_IndicesIdx := 4;
     RowwiseQuantizedSparseLengthsWeightedSumNode_LengthsIdx := 5;
     SparseToDenseNode_IndicesIdx := 0; SoftMaxNode_SelectedIdx := 1;
     BatchOneHotNode_LengthsIdx := 1; ArgMaxNode_ResultIdx := 0;
     ClipNode_InputIdx := 0; ClipNode_ResultIdx := 0;
     MulNode_LHSIdx := 0; PReluNode_ResultIdx := 0 |}.

Definition quantized (t : TypeRef) : bool :=
  match getElementType t with
  | Int8QTy | UInt8QTy | Int16QTy | Int32QTy | UInt8FusedQTy
  | UInt8FusedFP16QTy | UInt4FusedFP16QTy => true
  | _ => false
  end.

(** Decimal digits to a number. *)
Fixpoint parseDigits (s : string) (acc : Z) : option Z :=
  match s with
  | EmptyString => Some acc
  | String c s' =>
      let d := (Z.of_nat (Ascii.nat_of_ascii c) - 48)%Z in
      if (0 <=? d)%Z && (d <=? 9)%Z
      then parseDigits s' (10 * acc + d)%Z
      else None
  end.

(** A decimal parser with the range of [int]. *)
Definition parseInt (s : string) : Expected Z :=
  match s with
  | EmptyString => Err "Integer was not properly specified: "
  | _ =>
      match parseDigits s 0 with
      | Some n =>
          if (n <? 2 ^ 31)%Z then Ok n
          else Err ("Integer was not properly specified: " +:+ s)
      | None => Err ("Integer was not properly specified: " +:+ s)
      end
  end.

(** Every use of [old] among the operands becomes a use of [new]. *)
Definition replaceUses (F : Function) (old new : NodeValue) : Function :=
  mkFunction (fun_id F) (fun_name F)
    ((fun N =>
        mkNode (node_id N) (getName N) (node_kind N)
          ((fun v => if sameValue v old then new else v) <$> getInputs N)
          (node_outTypes N) (getMin N) (getMax N) (getValue N))
       <$> getNodes F).

(** A node that no pointer of the function designates yet. *)
Definition freshId (F : Function) : NodeId :=
  S (foldr Nat.max 0 (node_id <$> getNodes F)).

Definition appendNode (F : Function) (N : Node) : Function * Node :=
  (mkFunction (fun_id F) (fun_name F) (getNodes F ++ [N]), N).

Definition sampleE : Collaborators :=
  {| layout := glowLayout;
     isQuantizedType := quantized;
     isConvolutionSameAsFullyConnected := fun _ => false;
     getIntFromStr := parseInt;
     numParallelChunksKey := "NNPI_numParallelChunks";
     parallelTransformKindKey := "NNPI_parallelTransformKind";
     coreAssignmentsKey := "NNPI_coreAssignments";
     coreAssignmentsSuffixKey := "NNPI_coreAssignmentsSuffix";
     extraEdgesTargetNameKey := "NNPI_extraEdgesTargetName";
     extraEdgesTargetSuffixKey := "NNPI_extraEdgesTargetSuffix";
     extraEdgesSourceSuffixKey := "NNPI_extraEdgesSourceSuffix";
     getPostOrder := getNodes;
     replaceAllUsesOfWith := replaceUses;
     createSplat := fun F name ty v =>
       appendNode F
         (mkNode (freshId F) name SplatNodeKind [] [ty] 0%Z 0%Z v);
     createSelect := fun F name cond s1 s0 =>
       appendNode F
         (mkNode (freshId F) name SelectNodeKind
            [cond;
             mkNodeValue (node_id s1) 0
               (default (getType cond) (head (node_outTypes s1)));
             mkNodeValue (node_id s0) 0
               (default (getType cond) (head (node_outTypes s0)))]
            (node_outTypes s1) 0%Z 0%Z 0%Z);
     lowerNode := fun F _ => F;
     parallelizeOps := fun F _ _ _ => (F, Ok []);
     transformPrivate := None |}.

Definition flagsOff : Flags := mkFlags false false false false false false 0.
Definition optionsOff : NNPIBackendOptions := mkBackendOptions false false false.

Definition ty (k : ElemKind) (d : list N) : TypeRef := mkType k d.

(** A node with the given operands (each fed by a fresh storage node) and
    results. *)
Definition node (id : NodeId) (nm : string) (k : Kind)
    (ins outs : list TypeRef) : Node :=
  mkNode id nm k
    (imap (fun i t => mkNodeValue (100 * id + i) 0 t) ins) outs 0%Z 0%Z 0%Z.

(** Logit over float32 and over float16. *)
Definition logitF32 : Node :=
  node 1 "logit" LogitNodeKind [ty FloatTy [4; 8]%N] [ty FloatTy [4; 8]%N].
Definition logitF16 : Node :=
  node 2 "logit16" LogitNodeKind [ty Float16Ty [4; 8]%N] [ty Float16Ty [4; 8]%N].

(** SparseLengthsSum whose data has shape [N,1], here [100,1]. *)
Definition slsUnary : NodeInfo :=
  mkNodeInfo SparseLengthsSumNodeKind
    [ty FloatTy [100; 1]%N; ty Int64ITy [50]%N; ty Int32ITy [10]%N]
    [ty FloatTy [10; 1]%N].
Definition acceptUnary : Flags :=
  mkFlags false true false false false false 0.

(** A Relu: neither a lookup nor anything special for acceptance. *)
Definition reluInfo : NodeInfo :=
  mkNodeInfo ReluNodeKind [ty Float16Ty [8]%N] [ty Float16Ty [8]%N].

(** SparseLengthsSum with 65536 indices. *)
Definition slsTooManyIndices : NodeInfo :=
  mkNodeInfo SparseLengthsSumNodeKind
    [ty FloatTy [100; 16]%N; ty Int64ITy [65536]%N; ty Int32ITy [10]%N]
    [ty FloatTy [10; 16]%N].


(** Three batched-matmuls and a parametric ReLU. *)
Definition bmmF16 : Node :=
  node 3 "bmm16" BatchMatMulNodeKind
    [ty Float16Ty [2; 3; 4]%N; ty Float16Ty [2; 4; 5]%N]
    [ty Float16Ty [2; 3; 5]%N].
Definition bmmF32 : Node :=
  node 4 "bmm32" BatchMatMulNodeKind
    [ty FloatTy [2; 3; 4]%N; ty FloatTy [2; 4; 5]%N]
    [ty FloatTy [2; 3; 5]%N].
Definition preluF32 : Node :=
  node 5 "prelu" PReluNodeKind
    [ty FloatTy [8]%N; ty FloatTy [8]%N] [ty FloatTy [8]%N].
Definition reluF16 : Node :=
  node 6 "relu" ReluNodeKind [ty Float16Ty [8]%N] [ty Float16Ty [8]%N].

Definition noOpts : BackendOptions := mkBackendOpts ∅ ∅.
Definition disabled : Flags := mkFlags false false false false true false 0.

Definition fn (nodes : list Node) : Function := mkFunction 7 "main" nodes.

(** Three fully-connected nodes: input [M,K'] times weights [K',K]. *)
Definition fc (id : NodeId) (M K : N) : Node :=
  node id "fc" FullyConnectedNodeKind
    [ty Float16Ty [M; 64]%N; ty Float16Ty [64; K]%N; ty Float16Ty [K]]
    [ty Float16Ty [M; K]].
Definition fcWide : Node := fc 11 32 512.
Definition fcTall : Node := fc 12 256 100.
Definition fcSmall : Node := fc 13 32 100.
Definition fcFunction : Function := fn [fcWide; fcTall; fcSmall].

(** Directives: Data with chunk-count 1, "None", and Data with
    chunk-count 2. *)
Definition directive (kind : string) (chunks : list string)
  : NodeAnnotations :=
  <["NNPI_parallelTransformKind" := [kind]]>
    (<["NNPI_numParallelChunks" := chunks]> ∅).
Definition dataOnce : NodeAnnotations := directive "Data" ["1"].
Definition noneDirective : NodeAnnotations :=
  <["NNPI_parallelTransformKind" := ["None"]]> ∅.
Definition dataTwice : NodeAnnotations := directive "Data" ["2"].
Definition onlyDataOnce : FunctionNodeInfo := <[11 := dataOnce]> ∅.
Definition onlyNone : FunctionNodeInfo := <[12 := noneDirective]> ∅.
Definition infoOf (currFunInfo : FunctionNodeInfo)
  : BackendSpecificNodeInfo := <[7 := currFunInfo]> ∅.

(** A function after a Data split in two of its fully-connected node 11:
    the two halves feed the concat 23, the Relu reads the concat, and the
    replaced node is left without user. *)
Definition half (id : NodeId) : Node := fc id 16 512.
Definition concatOfHalves : Node :=
  mkNode 23 "fc_concat" ConcatNodeKind
    [mkNodeValue 21 0 (ty Float16Ty [16; 512]%N);
     mkNodeValue 22 0 (ty Float16Ty [16; 512]%N)]
    [ty Float16Ty [32; 512]%N] 0%Z 0%Z 0%Z.
Definition reluOfConcat : Node :=
  mkNode 24 "relu" ReluNodeKind
    [mkNodeValue 23 0 (ty Float16Ty [32; 512]%N)]
    [ty Float16Ty [32; 512]%N] 0%Z 0%Z 0%Z.
Definition splitFunction : Function :=
  fn [fcWide; half 21; half 22; concatOfHalves; reluOfConcat].
Definition splitInfo : FunctionNodeInfo := <[11 := dataTwice]> ∅.

(** Two partitions under one root, each of them a writer of "W". *)
Definition addWriter (ph : string) (m : PlaceholderUsageMap)
  : PlaceholderUsageMap :=
  match m !! ph with
  | Some u =>
      <[ph := mkUsage (numWriters u + 1) (numReaders u) (disableP2P u)
                (disableDRT u) (tensor u)]> m
  | None => <[ph := mkUsage 1 0 false false None]> m
  end.
Definition writerOf (ph : string) : NNPIDeviceManager :=
  {| addPlaceholderUsageCount := fun _ m => addWriter ph m;
     bindContext := fun _ _ _ => false |}.
Definition someContext : ExecutionContext := mkContext (<["W" := 1]> ∅).
Definition binding (net ph : string) : ContextBinding :=
  mkBinding (Some someContext) (Some (NNPIDevice (writerOf ph))) net.
Definition twoPartitions : DAGNode :=
  mkDAGNode 0 "root" "NNPI"
    [mkDAGNode 1 "p0" "NNPI" []; mkDAGNode 2 "p1" "NNPI" []].


(** FC -> Clip(0,6) -> Relu -> Clip(0,6), and the same chain with another
    upper bound on the first clip. 6.0f is 0x40C00000, 3.0f is
    0x40400000. *)
Definition six : float := 1086324736%Z.
Definition three : float := 1077936128%Z.
Definition wide : TypeRef := ty Float16Ty [32; 512]%N.
Definition clipOf (id src : NodeId) (lo hi : float) : Node :=
  mkNode id "clip" ClipNodeKind [mkNodeValue src 0 wide] [wide] lo hi 0%Z.
Definition reluOf (id src : NodeId) : Node :=
  mkNode id "relu" ReluNodeKind [mkNodeValue src 0 wide] [wide] 0%Z 0%Z 0%Z.
Definition clipChain (hi : float) : Function :=
  fn [fcWide; clipOf 31 11 float_0 hi; reluOf 32 31;
      clipOf 33 32 float_0 six].

(** A conversion from bool to float. *)
Definition boolToFloat : Node :=
  node 41 "ct" ConvertToNodeKind [ty BoolTy [4]%N] [ty FloatTy [4]%N].

(** A chunk-count of 1 without transform-kind. *)
Definition loneChunks : NodeAnnotations :=
  <["NNPI_numParallelChunks" := ["1"]]> ∅.
Definition onlyLoneChunks : FunctionNodeInfo := <[11 := loneChunks]> ∅.

(** SparseLengthsSum whose data has shape [100,16]. *)
Definition slsWide : NodeInfo :=
  mkNodeInfo SparseLengthsSumNodeKind
    [ty FloatTy [100; 16]%N; ty Int64ITy [50]%N; ty Int32ITy [10]%N]
    [ty FloatTy [10; 16]%N].

(** A tanh over [8,4096] and one over [8,64]. *)
Definition tanhWide : Node :=
  node 51 "tanh" TanhNodeKind [ty Float16Ty [8; 4096]%N]
    [ty Float16Ty [8; 4096]%N].
Definition tanhNarrow : Node :=
  node 52 "tanh" TanhNodeKind [ty Float16Ty [8; 64]%N]
    [ty Float16Ty [8; 64]%N].

(** A Relu right behind the fully-connected node 11. *)
Definition reluAfterFc : Function := fn [fcWide; reluOf 34 11].

(** Clip -> Relu -> Clip without fully-connected node. *)
Definition clipsOnly : Function :=
  fn [clipOf 31 11 float_0 six; reluOf 32 31; clipOf 33 32 float_0 six].

(** The plan the directive [dataTwice] on node 11 asks for. *)
Definition planOfDataTwice : PlanMaps :=
  (<[11 := 2%Z]> ∅, <[11 := PTK_Data]> ∅).

(** Collaborators whose [parallelizeOps] does the Data split in two of
    node 11: the function becomes [splitFunction] and the replaced node is
    recorded with its concat. *)
Definition splitE : Collaborators :=
  {| layout := glowLayout;
     isQuantizedType := quantized;
     isConvolutionSameAsFullyConnected := fun _ => false;
     getIntFromStr := parseInt;
     numParallelChunksKey := "NNPI_numParallelChunks";
     parallelTransformKindKey := "NNPI_parallelTransformKind";
     coreAssignmentsKey := "NNPI_coreAssignments";
     coreAssignmentsSuffixKey := "NNPI_coreAssignmentsSuffix";
     extraEdgesTargetNameKey := "NNPI_extraEdgesTargetName";
     extraEdgesTargetSuffixKey := "NNPI_extraEdgesTargetSuffix";
     extraEdgesSourceSuffixKey := "NNPI_extraEdgesSourceSuffix";
     getPostOrder := getNodes;
     replaceAllUsesOfWith := replaceUses;
     createSplat := createSplat sampleE;
     createSelect := createSelect sampleE;
     lowerNode := fun F _ => F;
     parallelizeOps := fun _ _ _ _ =>
       (splitFunction, Ok [(fcWide, concatOfHalves)]);
     transformPrivate := None |}.
Definition annotated : State :=
  mkState (fn [fcWide]) (mkBackendOpts ∅ (infoOf splitInfo)) [].

(** A device compiler that always succeeds, the compiled function being
    the function it was built from, and a clean-up that drops the nodes
    without user other than the last one. *)
Definition cleanUp (F : Function) : Function :=
  mkFunction (fun_id F) (fun_name F)
    (List.filter
       (fun N => negb (getNumUsers F N =? 0)%nat
                 || (node_id N =? from_option node_id 0 (last (getNodes F)))%nat)
       (getNodes F)).
Definition compiles (c : Function) (F : Function) (opts : BackendOptions)
  : Error * Function := (success, c).

(** A device that fails to bind, a device of another class. *)
Definition failingDevice : NNPIDeviceManager :=
  {| addPlaceholderUsageCount := fun _ m => m;
     bindContext := fun _ _ _ => true |}.
Definition failingBinding (net : string) : ContextBinding :=
  mkBinding (Some someContext) (Some (NNPIDevice failingDevice)) net.
Definition foreignBinding (net : string) : ContextBinding :=
  mkBinding (Some someContext) (Some OtherDevice) net.

(** A root over two partitions that share a child. *)
Definition shared : DAGNode := mkDAGNode 3 "p2" "NNPI" [].
Definition diamond : DAGNode :=
  mkDAGNode 0 "root" "NNPI"
    [mkDAGNode 1 "p0" "NNPI" [shared]; mkDAGNode 2 "p1" "NNPI" [shared]].

End Samples.

(** * Properties *)

(** ** Legality oracle and lowering decision *)

Section LegalityFacts.

Context (E : Collaborators) (G : Flags) (backendOptions_ : NNPIBackendOptions).

Lemma keptKinds_none pos tys :
  keptKinds pos tys [] = getElementType <$> tys.
Proof.
  revert pos. induction tys as [|t tys IH]; intros pos; simpl; [done|].
  by rewrite IH.
Qed.

(** With one allowed kind and no exception, the collaborator's check says
    that every operand and result has that kind. *)
Lemma sameElemKind_singleton NI k :
  allInputsAndOutputsHaveSameElemKind NI [k] [] [] = allTensorsAre k NI.
Proof.
  unfold allInputsAndOutputsHaveSameElemKind, allTensorsAre.
  rewrite !keptKinds_none, <- fmap_app.
  destruct (inTypes_ NI ++ outTypes_ NI) as [|t ts]; [done|].
  simpl. rewrite orb_false_r.
  destruct (decide (getElementType t = k)) as [->|Hne].
  - rewrite !bool_decide_eq_true_2 by done. rewrite andb_true_r. simpl.
    induction ts as [|t' ts IH]; [done|]. simpl. by rewrite IH.
  - rewrite (bool_decide_eq_false_2 (k = _)) by congruence.
    rewrite (bool_decide_eq_false_2 (_ = k)) by done.
    by rewrite andb_false_r.
Qed.

(** C2, as the code has it: a logit node is lowered exactly when all of its
    operands and results are 32-bit float; in every other case it is kept
    for the device. *)
Theorem shouldLower_logit (N : Node) :
  node_kind N = LogitNodeKind ->
  shouldLower E backendOptions_ N = allTensorsAre FloatTy (NodeInfo_of N).
Proof.
  intros HN. unfold shouldLower. rewrite HN. apply sameElemKind_singleton.
Qed.

(** C4: among the nodes the oracle supports, a sparse-lookup-sum with a
    unary data operand is refused when the accept-unary flag is off, every
    sparse-lookup-sum is accepted when the flag is on, and for every other
    kind acceptance is support. *)
Theorem acceptForExecution_policy (NI : NodeInfo) :
  (isLookupSum (getKind NI) = true ->
   isOpSupported E NI = true ->
   (forall data n,
      getInTy NI (lookupDataIdx (layout E) (getKind NI)) = Some data ->
      dims data = [n; 1%N] ->
      GlowNNPIAcceptUnarySLS G = false ->
      acceptForExecution E G NI = false)
   /\ (GlowNNPIAcceptUnarySLS G = true -> acceptForExecution E G NI = true))
  /\ (isLookupSum (getKind NI) = false ->
      acceptForExecution E G NI = isOpSupported E NI).
Proof.
  split.
  - intros Hk Hsup. unfold acceptForExecution. rewrite Hsup. simpl. split.
    + intros data n Hdata Hdims Hflag. rewrite Hflag.
      destruct (getKind NI); try discriminate Hk; simpl in Hdata |- *;
        rewrite Hdata; simpl; unfold isUnaryLookup; by rewrite Hdims.
    + intros ->. by destruct (getKind NI).
  - intros Hk. unfold acceptForExecution.
    destruct (isOpSupported E NI); [|done]. simpl.
    by destruct (getKind NI).
Qed.

(** C5: an indexed-gather-style node whose indices operand is not
    one-dimensional, or counts 65536 elements or more, is not supported. *)
Theorem isOpSupported_indices_bound (NI : NodeInfo) (idx : nat)
    (indices : TypeRef) :
  indicesIdxOf (layout E) (getKind NI) = Some idx ->
  getInTy NI idx = Some indices ->
  length (dims indices) <> 1 \/ (65536 <= numElements indices)%N ->
  isOpSupported E NI = false.
Proof.
  intros Hk Hty Hbad.
  assert (Hinv : isSLSIndicesValid indices = false).
  { unfold isSLSIndicesValid.
    destruct Hbad as [Hlen|Hcount].
    - apply andb_false_iff. left. by apply Nat.eqb_neq.
    - destruct (dims indices) as [|d [|d' ds]] eqn:Hd; try done.
      simpl. apply N.ltb_ge.
      unfold numElements in Hcount. rewrite Hd in Hcount. simpl in Hcount.
      unfold dimAt. simpl. change (N.shiftl 1 16) with 65536%N. lia. }
  unfold isOpSupported.
  destruct (getKind NI); try discriminate Hk; simpl in Hk;
    injection Hk as <-; rewrite Hty; simpl; by rewrite Hinv.
Qed.

End LegalityFacts.

(** On a float32 logit the code lowers, where the sentence of C2 keeps the
    node. *)
Lemma shouldLower_logit_float32_lowered :
  node_kind Samples.logitF32 = LogitNodeKind
  /\ allTensorsAre FloatTy (NodeInfo_of Samples.logitF32) = true
  /\ shouldLower Samples.sampleE Samples.optionsOff Samples.logitF32 = true
  /\ ~ lowersUnlessAllFloat32 Samples.sampleE Samples.optionsOff
         Samples.logitF32.
Proof. repeat split; try reflexivity. intros H. discriminate H. Qed.

Lemma shouldLower_logit_witness :
  node_kind Samples.logitF16 = LogitNodeKind
  /\ shouldLower Samples.sampleE Samples.optionsOff Samples.logitF16
     = allTensorsAre FloatTy (NodeInfo_of Samples.logitF16).
Proof.
  split; [reflexivity|].
  apply (shouldLower_logit Samples.sampleE Samples.optionsOff
           Samples.logitF16).
  reflexivity.
Defined.

Lemma acceptForExecution_policy_witness :
  isOpSupported Samples.sampleE Samples.slsUnary = true
  /\ acceptForExecution Samples.sampleE Samples.flagsOff Samples.slsUnary
     = false
  /\ acceptForExecution Samples.sampleE Samples.acceptUnary Samples.slsUnary
     = true
  /\ acceptForExecution Samples.sampleE Samples.flagsOff Samples.reluInfo
     = isOpSupported Samples.sampleE Samples.reluInfo.
Proof.
  split; [reflexivity|]. split; [|split].
  - apply (proj1 (proj1 (acceptForExecution_policy Samples.sampleE
                           Samples.flagsOff Samples.slsUnary)
                          eq_refl eq_refl)
             (mkType FloatTy [100; 1]%N) 100%N);
      reflexivity.
  - apply (proj2 (proj1 (acceptForExecution_policy Samples.sampleE
                           Samples.acceptUnary Samples.slsUnary)
                          eq_refl eq_refl)).
    reflexivity.
  - apply (proj2 (acceptForExecution_policy Samples.sampleE
                    Samples.flagsOff Samples.reluInfo)).
    reflexivity.
Defined.

Lemma isOpSupported_indices_bound_witness :
  (65536 <= numElements (mkType Int64ITy [65536]%N))%N
  /\ isOpSupported Samples.sampleE Samples.slsTooManyIndices = false.
Proof.
  split; [vm_compute; discriminate|].
  apply (isOpSupported_indices_bound Samples.sampleE
           Samples.slsTooManyIndices 1 (mkType Int64ITy [65536]%N)).
  - reflexivity.
  - reflexivity.
  - right. vm_compute. discriminate.
Defined.

(** ** Parallelization planner: planning *)

Section PlanningFacts.

Context (E : Collaborators).

Lemma sameEntry_refl i st : sameEntry i st st.
Proof. done. Qed.

Lemma sameEntry_trans i st1 st2 st3 :
  sameEntry i st1 st2 -> sameEntry i st2 st3 -> sameEntry i st1 st3.
Proof. intros [? ?] [? ?]. split; congruence. Qed.

Lemma sameEntry_plan i X kind n st :
  node_id X <> i -> sameEntry i st (plan X kind n st).
Proof.
  intros Hne. split; simpl; by rewrite lookup_insert_ne.
Qed.

Lemma sameEntry_andThen i st (f : Flow PlanMaps)
    (k : PlanMaps -> Flow PlanMaps) :
  sameEntry i st (endIteration f) ->
  (forall st1, sameEntry i st1 (endIteration (k st1))) ->
  sameEntry i st (endIteration (andThen f k)).
Proof.
  intros Hf Hk. destruct f as [st'|st']; simpl in *; [done|].
  eapply sameEntry_trans; [exact Hf|apply Hk].
Qed.

Create HintDb plan.
#[local] Hint Resolve sameEntry_refl sameEntry_plan : plan.

(** An iteration writes the entry of its own node only. *)
Lemma setupBasicNode_other F n node st i :
  node_id node <> i -> sameEntry i st (setupBasicNode E F n node st).
Proof.
  intros Hne. unfold setupBasicNode.
  repeat (apply sameEntry_andThen; [|clear st; intros st]);
    repeat case_match; simpl; auto with plan.
  split; simpl; by rewrite lookup_insert_ne.
Qed.

Lemma setupBasic_fold_other F n nodes st i :
  i ∉ node_id <$> nodes ->
  sameEntry i st
    (fold_left (fun st node => setupBasicNode E F n node st) nodes st).
Proof.
  revert st. induction nodes as [|node nodes IH]; intros st Hi; simpl.
  - apply sameEntry_refl.
  - rewrite fmap_cons in Hi. apply not_elem_of_cons in Hi as [Hne Hi].
    eapply sameEntry_trans; [|apply IH; exact Hi].
    apply setupBasicNode_other. congruence.
Qed.

(** The iteration on a fully-connected node. *)
Lemma setupBasicNode_FC F n FC st :
  node_kind FC = FullyConnectedNodeKind ->
  setupBasicNode E F n FC st
  = if (512 <=? dimAt (dimsOf (getNthInput FC
                                 (FullyConnectedNode_WeightsIdx (layout E))))
                  1)%N
    then plan FC PTK_Model n st
    else if (256 <=? dimAt (dimsOf (getNthInput FC
                                      (FullyConnectedNode_InputIdx
                                         (layout E)))) 0)%N
         then plan FC PTK_Data n st
         else st.
Proof.
  intros HFC. unfold setupBasicNode, isa. rewrite HFC.
  rewrite (bool_decide_eq_true_2 (FullyConnectedNodeKind = _)) by done.
  rewrite !(bool_decide_eq_false_2 (FullyConnectedNodeKind = _))
    by discriminate.
  simpl. repeat case_match; reflexivity.
Qed.

(** C6: with N > 1 chunks, the heuristic plans a fully-connected node for a
    Model split into N chunks when dimension 1 of its weights is at least
    512, else for a Data split into N chunks when dimension 0 of its input
    is at least 256, and else leaves it without entry in both tables. *)
Theorem setupBasic_fullyConnected (F : Function) (n : Z) (FC : Node)
    (weights input : NodeValue) (K M : N) :
  (1 < n < 2 ^ 31)%Z ->
  NoDup (node_id <$> getPostOrder E F) ->
  FC ∈ getPostOrder E F ->
  node_kind FC = FullyConnectedNodeKind ->
  getNthInput FC (FullyConnectedNode_WeightsIdx (layout E)) = Some weights ->
  dims (getType weights) !! 1 = Some K ->
  getNthInput FC (FullyConnectedNode_InputIdx (layout E)) = Some input ->
  dims (getType input) !! 0 = Some M ->
  let planned := setupBasicParallelizationConfigs E F (∅, ∅) n in
  ((512 <= K)%N ->
   planned.2 !! node_id FC = Some PTK_Model
   /\ planned.1 !! node_id FC = Some n)
  /\ ((K < 512)%N -> (256 <= M)%N ->
      planned.2 !! node_id FC = Some PTK_Data
      /\ planned.1 !! node_id FC = Some n)
  /\ ((K < 512)%N -> (M < 256)%N ->
      planned.2 !! node_id FC = None /\ planned.1 !! node_id FC = None).
Proof.
  intros Hn Hnodup Hin HFC Hw HK Hx HM planned.
  apply list_elem_of_split in Hin as (before & after & Hsplit).
  assert (Hsize : to_size_t n = n).
  { unfold to_size_t. apply Z.mod_small. lia. }
  assert (Hbefore : (node_id FC ∉ node_id <$> before)
                    /\ (node_id FC ∉ node_id <$> after)).
  { rewrite Hsplit, fmap_app, fmap_cons in Hnodup.
    apply NoDup_app in Hnodup as (_ & Hdisj & Hafter).
    apply NoDup_cons in Hafter as [Hafter _]. split; [|done].
    intros Hb. apply (Hdisj _ Hb). left. }
  destruct Hbefore as [Hbefore Hafter].
  subst planned. unfold setupBasicParallelizationConfigs.
  rewrite Hsplit, fold_left_app. simpl.
  set (st := fold_left _ before _).
  assert (Hst : sameEntry (node_id FC) (∅, ∅) st)
    by (apply setupBasic_fold_other; exact Hbefore).
  destruct Hst as [Hst1 Hst2]. simpl in Hst1, Hst2.
  rewrite lookup_empty in Hst1. rewrite lookup_empty in Hst2.
  destruct (setupBasic_fold_other F n after
              (setupBasicNode E F n FC st) (node_id FC) Hafter)
    as [-> ->].
  rewrite (setupBasicNode_FC F n FC st HFC), Hw, Hx.
  unfold dimsOf, dimAt. simpl. rewrite HK, HM. simpl.
  repeat split.
  - rewrite (proj2 (N.leb_le 512 K)) by done. simpl.
    apply lookup_insert_eq.
  - rewrite (proj2 (N.leb_le 512 K)) by done. simpl.
    rewrite lookup_insert_eq. by rewrite Hsize.
  - rewrite (proj2 (N.leb_gt 512 K)), (proj2 (N.leb_le 256 M)) by done.
    simpl. apply lookup_insert_eq.
  - rewrite (proj2 (N.leb_gt 512 K)), (proj2 (N.leb_le 256 M)) by done.
    simpl. rewrite lookup_insert_eq. by rewrite Hsize.
  - rewrite (proj2 (N.leb_gt 512 K)), (proj2 (N.leb_gt 256 M)) by done.
    exact Hst2.
  - rewrite (proj2 (N.leb_gt 512 K)), (proj2 (N.leb_gt 256 M)) by done.
    exact Hst1.
Qed.

End PlanningFacts.

Section DirectiveFacts.

Context (E : Collaborators).

Lemma setupPerNode_bad currFunInfo node nodeInfo st :
  currFunInfo !! node_id node = Some nodeInfo ->
  BadDirective E nodeInfo ->
  isErr (setupPerNode E currFunInfo node st).
Proof.
  intros Hinfo Hbad. unfold setupPerNode. rewrite Hinfo.
  destruct Hbad as [kinds Hk Hd Hm Hn|kind Hk Hkind Hc|kind chunks Hk Hkind Hc Hn];
    rewrite Hk.
  - destruct kinds as [|k [|k' kinds]]; simpl; try done.
    destruct (String.eqb_spec k "Data") as [->|_]; [done|].
    destruct (String.eqb_spec k "Model") as [->|_]; [done|].
    destruct (String.eqb_spec k "None") as [->|_]; [done|].
    done.
  - destruct Hkind as [-> | ->]; simpl; by rewrite Hc.
  - assert (Hrest :
      isErr (if (length chunks =? 1)%nat
             then bindE (getIntFromStr E (List.hd "" chunks))
                    (fun numChunks =>
                       if (1 <? numChunks)%Z
                       then Ok (<[node_id node := to_size_t numChunks]> st.1,
                                <[node_id node :=
                                    if String.eqb kind "Data"
                                    then PTK_Data else PTK_Model]> st.2)
                       else Err "numChunks must be > 1.")
             else Err ("Expected single value for "
                       +:+ numParallelChunksKey E))).
    { destruct chunks as [|s [|s' chunks]]; simpl; try done.
      destruct (getIntFromStr E s) as [n|msg] eqn:Hs; simpl; [|done].
      specialize (Hn s n eq_refl Hs).
      by rewrite (proj2 (Z.ltb_ge 1 n)) by lia. }
    destruct Hkind as [-> | ->]; simpl; rewrite Hc; exact Hrest.
Qed.

Lemma setupPerNodeLoop_bad currFunInfo nodes node st :
  node ∈ nodes ->
  (forall st', isErr (setupPerNode E currFunInfo node st')) ->
  isErr (setupPerNodeLoop E currFunInfo nodes st).
Proof.
  intros Hin Hbad. revert st.
  induction nodes as [|head nodes IH]; intros st.
  - by apply not_elem_of_nil in Hin.
  - simpl. apply elem_of_cons in Hin as [<-|Hin].
    + specialize (Hbad st).
      by destruct (setupPerNode E currFunInfo node st).
    + destruct (setupPerNode E currFunInfo head st); simpl; [|done].
      by apply IH.
Qed.

(** C7: the directive-driven setup fails when a node of the function
    carries a transform-kind other than "Data", "Model" and "None", a Data
    or Model transform-kind without chunk-count, or a Data or Model
    transform-kind whose chunk-count is not a single integer above 1; a
    node whose transform-kind is "None", and a node that carries no
    transform-kind at all, whatever its chunk-count, is passed over and
    the plan is left as it was. *)
Theorem setupPerNode_directives (F : Function) (maps : PlanMaps)
    (info : BackendSpecificNodeInfo) (currFunInfo : FunctionNodeInfo)
    (node : Node) (nodeInfo : NodeAnnotations) :
  currFunInfo !! node_id node = Some nodeInfo ->
  (info !! fun_id F = Some currFunInfo ->
   node ∈ getNodes F ->
   BadDirective E nodeInfo ->
   isErr (setupPerNodeParallelizationConfigs E F maps info))
  /\ (nodeInfo !! parallelTransformKindKey E = Some ["None"] ->
      setupPerNode E currFunInfo node maps = Ok maps)
  /\ (nodeInfo !! parallelTransformKindKey E = None ->
      setupPerNode E currFunInfo node maps = Ok maps).
Proof.
  intros Hnode. split; [|split].
  - intros Hinfo Hin Hbad. unfold setupPerNodeParallelizationConfigs.
    rewrite Hinfo. apply (setupPerNodeLoop_bad currFunInfo _ node); [done|].
    intros st'. by apply (setupPerNode_bad currFunInfo node nodeInfo).
  - intros Hnone. unfold setupPerNode. by rewrite Hnode, Hnone.
  - intros Hnone. unfold setupPerNode. by rewrite Hnode, Hnone.
Qed.

End DirectiveFacts.

(** ** Parallelization planner: validation *)

Section ValidationFacts.

Context (E : Collaborators).

(** An [int] that is not negative, or a size far below the top of
    [size_t], is read the same before and after conversion. *)
Lemma to_size_t_eq (n : Z) (len : nat) :
  (- 2 ^ 31 <= n < 2 ^ 31)%Z ->
  (Z.of_nat len < 2 ^ 63)%Z ->
  (to_size_t n =? Z.of_nat len)%Z = true <-> n = Z.of_nat len.
Proof.
  intros Hn Hlen. unfold to_size_t. rewrite Z.eqb_eq.
  destruct (Z.neg_nonneg_cases n) as [Hneg|Hpos].
  - replace (n mod 2 ^ 64)%Z with (n + 2 ^ 64)%Z; [lia|].
    apply Z.mod_unique with (q := (-1)%Z); lia.
  - rewrite Z.mod_small by lia. done.
Qed.

Lemma guard_success (c : bool) (rest : Error) (msg : string) :
  (if c then rest else Err msg) = success <-> c = true /\ rest = success.
Proof. destruct c; split; try tauto; try done. by intros [? ?]. Qed.

Lemma count_false (nodeInfo : NodeAnnotations) (key : string) :
  negb (count nodeInfo key) = true <-> nodeInfo !! key = None.
Proof.
  unfold count. rewrite negb_true_iff, bool_decide_eq_false.
  by rewrite <- eq_None_not_Some.
Qed.

Lemma checkNoHints_success node nodeInfo :
  checkNoHints E node nodeInfo = success
  <-> forall key, key ∈ hintKeys E -> nodeInfo !! key = None.
Proof.
  unfold checkNoHints, hintKeys.
  rewrite !guard_success, !count_false.
  rewrite <- Forall_forall, !Forall_cons, Forall_nil. tauto.
Qed.

Lemma validateRemaining_success currFunInfo nodes :
  validateRemaining E currFunInfo nodes = success
  <-> Forall (noHintLeft E currFunInfo) nodes.
Proof.
  induction nodes as [|node nodes IH]; simpl.
  - split; [constructor|done].
  - rewrite Forall_cons, <- IH. unfold noHintLeft at 1.
    destruct (currFunInfo !! node_id node) as [nodeInfo|] eqn:Hinfo.
    + destruct (checkNoHints E node nodeInfo) as [[]|msg] eqn:Hcheck; simpl.
      * split; [|tauto]. intros Hok. split; [|done].
        intros ? key [= <-].
        exact (proj1 (checkNoHints_success node nodeInfo) Hcheck key).
      * split; [done|]. intros [Hnone _].
        assert (Hok : checkNoHints E node nodeInfo = success)
          by (apply checkNoHints_success; intros key; by apply Hnone).
        congruence.
    + split; [|tauto]. intros Hok. split; [|done]. by intros.
Qed.

Lemma splitAsRecorded_delete currFunInfo i p :
  node_id p.1 <> i ->
  splitAsRecorded E (delete i currFunInfo) p
  <-> splitAsRecorded E currFunInfo p.
Proof.
  intros Hne. unfold splitAsRecorded.
  by rewrite lookup_delete_ne.
Qed.

Lemma validateReplaced_spec F replacedMap currFunInfo :
  NoDup ((fun p : Node * Node => node_id p.1) <$> replacedMap) ->
  (forall s n, getIntFromStr E s = Ok n -> (- 2 ^ 31 <= n < 2 ^ 31)%Z) ->
  Forall (fun p : Node * Node =>
            (Z.of_nat (length (getInputs p.2)) < 2 ^ 63)%Z) replacedMap ->
  (Forall (fun p : Node * Node => getNumUsers F p.1 = 0) replacedMap
   /\ Forall (splitAsRecorded E currFunInfo) replacedMap ->
   validateReplaced E F replacedMap currFunInfo
   = (success, purge replacedMap currFunInfo))
  /\ ((validateReplaced E F replacedMap currFunInfo).1 = success ->
      Forall (fun p : Node * Node => getNumUsers F p.1 = 0) replacedMap
      /\ Forall (splitAsRecorded E currFunInfo) replacedMap).
Proof.
  intros Hnodup Hint Hsizes. revert currFunInfo Hnodup Hsizes.
  induction replacedMap as [|[replacedNode CN] rest IH];
    intros currFunInfo Hnodup Hsizes.
  - simpl. split; [done|]. intros _. split; constructor.
  - rewrite fmap_cons in Hnodup.
    apply NoDup_cons in Hnodup as [Hfresh Hnodup].
    apply Forall_cons in Hsizes as [Hsize Hsizes]. simpl in Hfresh, Hsize.
    specialize (IH (delete (node_id replacedNode) currFunInfo)
                  Hnodup Hsizes) as [IHok IHonly].
    assert (Hrest : Forall (splitAsRecorded E
                              (delete (node_id replacedNode) currFunInfo))
                      rest
                    <-> Forall (splitAsRecorded E currFunInfo) rest).
    { rewrite !Forall_forall. split; intros H p Hp.
      - apply (splitAsRecorded_delete currFunInfo (node_id replacedNode));
          [|by apply H].
        intros Heq. apply Hfresh. rewrite <- Heq.
        by apply (list_elem_of_fmap_2 (fun p : Node * Node => node_id p.1)).
      - apply splitAsRecorded_delete; [|by apply H].
        intros Heq. apply Hfresh. rewrite <- Heq.
        by apply (list_elem_of_fmap_2 (fun p : Node * Node => node_id p.1)). }
    split.
    + intros [Husers Hsplit].
      apply Forall_cons in Husers as [Huser Husers].
      apply Forall_cons in Hsplit as [Hhead Hsplit].
      destruct Hhead as (nodeInfo & s & n & Hinfo & Hchunks & Hs & Hn).
      simpl in Huser, Hinfo, Hn. simpl.
      rewrite Huser, Hinfo, Hchunks. simpl. rewrite Hs.
      rewrite (proj2 (to_size_t_eq n _ (Hint s n Hs) Hsize) Hn). simpl.
      apply IHok. split; [done|]. by apply Hrest.
    + simpl.
      destruct (getNumUsers F replacedNode) as [|users] eqn:Huser;
        simpl; [|done].
      destruct (currFunInfo !! node_id replacedNode) as [nodeInfo|]
        eqn:Hinfo; [|done].
      destruct (nodeInfo !! numParallelChunksKey E) as [chunks|]
        eqn:Hchunks; [|done].
      destruct chunks as [|s [|s' chunks]]; simpl; try done.
      destruct (getIntFromStr E s) as [n|msg] eqn:Hs; [|done].
      destruct (to_size_t n =? Z.of_nat (length (getInputs CN)))%Z
        eqn:Hn; simpl; [|done].
      intros Hok. destruct (IHonly Hok) as [Husers Hsplit].
      split; constructor; try done.
      * exists nodeInfo, s, n. repeat split; try done. simpl.
        by apply (to_size_t_eq n _ (Hint s n Hs) Hsize).
      * by apply Hrest.
Qed.

(** C8: the validation run in directive-driven mode, that is on a function
    that has annotations, succeeds exactly when every replaced node has no
    user left, every recorded concat has as many inputs as the chunk-count
    recorded for the node it replaced, and, the records of the replaced
    nodes purged, no node of the function carries a parallelization or
    placement key. *)
Theorem validateBackendSpecificNodeInfo_iff (F : Function)
    (replacedMap : list (Node * Node)) (info : BackendSpecificNodeInfo)
    (currFunInfo : FunctionNodeInfo) :
  info !! fun_id F = Some currFunInfo ->
  NoDup ((fun p : Node * Node => node_id p.1) <$> replacedMap) ->
  (forall s n, getIntFromStr E s = Ok n -> (- 2 ^ 31 <= n < 2 ^ 31)%Z) ->
  Forall (fun p : Node * Node =>
            (Z.of_nat (length (getInputs p.2)) < 2 ^ 63)%Z) replacedMap ->
  (validateBackendSpecificNodeInfo E F replacedMap info).1 = success
  <-> Forall (fun p : Node * Node => getNumUsers F p.1 = 0) replacedMap
      /\ Forall (splitAsRecorded E currFunInfo) replacedMap
      /\ Forall (noHintLeft E (purge replacedMap currFunInfo)) (getNodes F).
Proof.
  intros Hinfo Hnodup Hint Hsizes.
  destruct (validateReplaced_spec F replacedMap currFunInfo
              Hnodup Hint Hsizes) as [Hok Honly].
  unfold validateBackendSpecificNodeInfo. rewrite Hinfo.
  destruct (validateReplaced E F replacedMap currFunInfo)
    as [res currFunInfo'] eqn:Hloop.
  split.
  - destruct res as [[]|msg]; simpl; [|done].
    intros Hrest. destruct (Honly eq_refl) as [Husers Hsplit].
    split; [done|]. split; [done|].
    pose proof (Hok (conj Husers Hsplit)) as Heq.
    apply (f_equal snd) in Heq. simpl in Heq. subst currFunInfo'.
    by apply validateRemaining_success.
  - intros (Husers & Hsplit & Hrest).
    pose proof (Hok (conj Husers Hsplit)) as Heq.
    injection Heq as -> ->. simpl.
    by apply validateRemaining_success.
Qed.

End ValidationFacts.

(** ** Graph rewrites *)

Section RewriteFacts.

Context (E : Collaborators) (G : Flags).




Lemma lowerRequiredNode_leftAlone N acc :
  leftAlone G N -> lowerRequiredNode E G N acc = acc.
Proof.
  intros (HSLS & HPR & HCT & HBMM). destruct acc as [changed s].
  unfold lowerRequiredNode, isa.
  case_bool_decide as Hk.
  - destruct (HBMM Hk) as [-> Hfloat].
    by rewrite sameElemKind_singleton, Hfloat.
  - by rewrite !bool_decide_eq_false_2 by done.
Qed.


Lemma setupPerNodeLoop_empty nodes st :
  setupPerNodeLoop E ∅ nodes st = Ok st.
Proof.
  induction nodes as [|node nodes IH]; simpl; [done|].
  unfold setupPerNode. by rewrite lookup_empty.
Qed.

(** C9: the planner answers "no change" and touches nothing when it runs
    in directive-driven mode on a function without annotations (no record
    for the function, or an empty one), and when it runs in heuristic mode
    with a chunk count of 1 or less. *)
Theorem parallelizeFunction_noop (s : State) :
  (backendSpecificNodeInfo (st_opts s) !! fun_id (st_fn s) = None
   \/ backendSpecificNodeInfo (st_opts s) !! fun_id (st_fn s) = Some ∅ ->
   parallelizeFunction E G true s = (Ok false, s))
  /\ (forall n,
        defaultNumParallelChunks E G (st_opts s) = Ok n -> (n <= 1)%Z ->
        parallelizeFunction E G false s = (Ok false, s)).
Proof.
  split.
  - intros [Hnone|Hempty]; unfold parallelizeFunction.
    + by rewrite Hnone.
    + rewrite Hempty. unfold setupPerNodeParallelizationConfigs.
      rewrite Hempty, setupPerNodeLoop_empty. simpl.
      by rewrite !map_size_empty.
  - intros n Hn Hle. unfold parallelizeFunction. rewrite Hn. simpl.
    by rewrite (proj2 (Z.leb_le n 1)) by done.
Qed.

(** C10: with the disable-all-backend-transforms flag set,
    [transformPostLowering] answers false at once; the function, the
    options and the log of rewrite calls are as they were. *)
Theorem transformPostLowering_disabled (s : State) :
  GlowDisableNNPITransforms G = true ->
  transformPostLowering E G s = (Ok false, s).
Proof. intros Hflag. unfold transformPostLowering. by rewrite Hflag. Qed.

End RewriteFacts.

(** ** Partition resource binder *)

Section BinderFacts.

Lemma collectUsage_no_bind bindings phUsage :
  Forall (fun c => isBindContext c = false)
         (collectUsage bindings phUsage).2.
Proof.
  revert phUsage. induction bindings as [|cb bindings IH]; intros phUsage.
  - constructor.
  - simpl. destruct (dynamic_cast (device cb)) as [nnpiDM|]; [|constructor].
    specialize (IH (addPlaceholderUsageCount nnpiDM (networkName cb)
                      phUsage)).
    destruct (collectUsage bindings _) as [res calls]. simpl in *.
    by constructor.
Qed.

Lemma markUsage_conflict entries enableP2P enableDRT phUsage ph usage :
  (ph, usage) ∈ entries ->
  (2 <= numWriters usage)%N ->
  markUsage entries enableP2P enableDRT phUsage
  = Err "Multiple writes to the same placeholder not suported".
Proof.
  intros Hin Hw. revert phUsage.
  induction entries as [|[k u] entries IH]; intros phUsage.
  - by apply not_elem_of_nil in Hin.
  - simpl. destruct (numWriters u <? 2)%N eqn:Hu; [|done].
    apply elem_of_cons in Hin as [Heq|Hin]; [|by apply IH].
    injection Heq as <- <-. apply N.ltb_lt in Hu. lia.
Qed.

(** C1: when the usage table accumulated over all bindings holds a
    placeholder with two writers or more, [bindContexts] fails, and no
    device bind call has been issued. *)
Theorem bindContexts_writer_conflict
    (backendOptions_ : NNPIBackendOptions)
    (bindings : list ContextBinding) (root : option DAGNode)
    (enableP2P enableDRT : bool)
    (phUsage : PlaceholderUsageMap) (ph : string)
    (usage : PlaceholderUsage) :
  (collectUsage bindings ∅).1 = Ok phUsage ->
  phUsage !! ph = Some usage ->
  (2 <= numWriters usage)%N ->
  (bindContexts backendOptions_ bindings root enableP2P enableDRT).1
  = Err "Multiple writes to the same placeholder not suported"
  /\ Forall (fun c => isBindContext c = false)
       (bindContexts backendOptions_ bindings root enableP2P enableDRT).2.
Proof.
  intros Hcollect Hph Hw. unfold bindContexts.
  pose proof (collectUsage_no_bind bindings ∅) as Hcalls.
  destruct (collectUsage bindings ∅) as [res calls]. simpl in Hcollect.
  subst res. simpl in Hcalls.
  rewrite (markUsage_conflict _ enableP2P enableDRT phUsage ph usage);
    [|by apply elem_of_map_to_list|done].
  simpl. split; [done|].
  apply Forall_app. split; [|done].
  destruct (dumpRuntime backendOptions_); repeat constructor.
Qed.

End BinderFacts.

(** ** The properties on the sample inputs *)

Import Samples.

(** Closes a decidable goal by evaluation. *)
Ltac by_compute := apply (bool_decide_unpack _); vm_compute; exact I.

Lemma parseDigits_nonneg s acc n :
  (0 <= acc)%Z -> parseDigits s acc = Some n -> (0 <= n)%Z.
Proof.
  revert acc. induction s as [|c s IH]; intros acc Hacc; simpl.
  - intros [= <-]. done.
  - destruct (_ && _) eqn:Hd; [|done].
    apply andb_true_iff in Hd as [Hlo _]. apply Z.leb_le in Hlo.
    apply IH. lia.
Qed.

Lemma parseInt_range s n :
  parseInt s = Ok n -> (- 2 ^ 31 <= n < 2 ^ 31)%Z.
Proof.
  unfold parseInt. destruct s as [|c s]; [done|].
  destruct (parseDigits _ 0) as [m|] eqn:Hm; [|done].
  destruct (m <? 2 ^ 31)%Z eqn:Hlt; [|done].
  intros [= <-]. apply Z.ltb_lt in Hlt.
  apply parseDigits_nonneg in Hm; lia.
Qed.

Lemma bindContexts_writer_conflict_witness :
  (bindContexts optionsOff [binding "p0" "W"; binding "p1" "W"]
     (Some twoPartitions) true true).1
  = Err "Multiple writes to the same placeholder not suported"
  /\ Forall (fun c => isBindContext c = false)
       (bindContexts optionsOff [binding "p0" "W"; binding "p1" "W"]
          (Some twoPartitions) true true).2.
Proof.
  apply (bindContexts_writer_conflict optionsOff
           [binding "p0" "W"; binding "p1" "W"] (Some twoPartitions)
           true true (<["W" := mkUsage 2 0 false false None]> ∅) "W"
           (mkUsage 2 0 false false None)).
  - vm_compute. reflexivity.
  - vm_compute. reflexivity.
  - simpl. lia.
Defined.

(** Without conflict the partitions are bound, children before the
    root. *)
Example bindContexts_binds_in_post_order :
  bindContexts optionsOff
    [binding "root" "U"; binding "p0" "V"; binding "p1" "W"]
    (Some twoPartitions) true true
  = (success,
     [AddPlaceholderUsageCount "root"; AddPlaceholderUsageCount "p0";
      AddPlaceholderUsageCount "p1";
      BindContext "p0"; BindContext "p1"; BindContext "root"]).
Proof. vm_compute. reflexivity. Qed.



Lemma setupBasic_fullyConnected_witness :
  let planned :=
    setupBasicParallelizationConfigs sampleE fcFunction (∅, ∅) 4 in
  (planned.2 !! 11 = Some PTK_Model /\ planned.1 !! 11 = Some 4%Z)
  /\ (planned.2 !! 12 = Some PTK_Data /\ planned.1 !! 12 = Some 4%Z)
  /\ (planned.2 !! 13 = None /\ planned.1 !! 13 = None).
Proof.
  assert (Hn : (1 < 4 < 2 ^ 31)%Z) by lia.
  assert (Hnodup : NoDup (node_id <$> getPostOrder sampleE fcFunction))
    by by_compute.
  split; [|split].
  - apply (proj1 (setupBasic_fullyConnected sampleE fcFunction 4 fcWide
                    (mkNodeValue 1101 0 (ty Float16Ty [64; 512]%N))
                    (mkNodeValue 1100 0 (ty Float16Ty [32; 64]%N))
                    512 32 Hn Hnodup
                    ltac:(repeat constructor) eq_refl eq_refl eq_refl
                    eq_refl eq_refl)).
    lia.
  - apply (proj1 (proj2
             (setupBasic_fullyConnected sampleE fcFunction 4 fcTall
                (mkNodeValue 1201 0 (ty Float16Ty [64; 100]%N))
                (mkNodeValue 1200 0 (ty Float16Ty [256; 64]%N))
                100 256 Hn Hnodup
                ltac:(repeat constructor) eq_refl eq_refl eq_refl
                eq_refl eq_refl))); lia.
  - apply (proj2 (proj2
             (setupBasic_fullyConnected sampleE fcFunction 4 fcSmall
                (mkNodeValue 1301 0 (ty Float16Ty [64; 100]%N))
                (mkNodeValue 1300 0 (ty Float16Ty [32; 64]%N))
                100 32 Hn Hnodup
                ltac:(repeat constructor) eq_refl eq_refl eq_refl
                eq_refl eq_refl))); lia.
Defined.

Lemma setupPerNode_directives_witness :
  isErr (setupPerNodeParallelizationConfigs sampleE fcFunction (∅, ∅)
           (infoOf onlyDataOnce))
  /\ setupPerNode sampleE onlyNone fcTall (∅, ∅) = Ok (∅, ∅)
  /\ setupPerNode sampleE onlyLoneChunks fcWide (∅, ∅) = Ok (∅, ∅).
Proof.
  assert (Hnode : onlyDataOnce !! node_id fcWide = Some dataOnce)
    by (vm_compute; reflexivity).
  assert (Hinfo : infoOf onlyDataOnce !! fun_id fcFunction
                  = Some onlyDataOnce)
    by (vm_compute; reflexivity).
  assert (Hnone : onlyNone !! node_id fcTall = Some noneDirective)
    by (vm_compute; reflexivity).
  assert (Hlone : onlyLoneChunks !! node_id fcWide = Some loneChunks)
    by (vm_compute; reflexivity).
  split; [|split].
  - apply (proj1 (setupPerNode_directives sampleE fcFunction (∅, ∅)
                    (infoOf onlyDataOnce) onlyDataOnce fcWide dataOnce
                    Hnode) Hinfo).
    + repeat constructor.
    + apply (bad_chunks sampleE dataOnce "Data" ["1"]).
      * vm_compute. reflexivity.
      * by left.
      * vm_compute. reflexivity.
      * intros s n [= <-]. vm_compute. intros [= <-]. discriminate.
  - apply (proj1 (proj2 (setupPerNode_directives sampleE fcFunction (∅, ∅)
                           (infoOf onlyNone) onlyNone fcTall noneDirective
                           Hnone))).
    vm_compute. reflexivity.
  - apply (proj2 (proj2 (setupPerNode_directives sampleE fcFunction (∅, ∅)
                           (infoOf onlyLoneChunks) onlyLoneChunks fcWide
                           loneChunks Hlone))).
    vm_compute. reflexivity.
Defined.

(** A chunk-count of 1 with no transform-kind beside it is passed over,
    where the sentence of C7 has the setup fail. *)
Lemma setupPerNode_lone_chunk_count_skipped :
  fcWide ∈ getNodes fcFunction
  /\ infoOf onlyLoneChunks !! fun_id fcFunction = Some onlyLoneChunks
  /\ onlyLoneChunks !! node_id fcWide = Some loneChunks
  /\ loneChunks !! numParallelChunksKey sampleE = Some ["1"]
  /\ getIntFromStr sampleE "1" = Ok 1%Z
  /\ setupPerNodeParallelizationConfigs sampleE fcFunction (∅, ∅)
       (infoOf onlyLoneChunks) = Ok (∅, ∅)
  /\ ~ errsOnBadChunkCount sampleE fcFunction (infoOf onlyLoneChunks)
         fcWide.
Proof.
  assert (Hinfo : infoOf onlyLoneChunks !! fun_id fcFunction
                  = Some onlyLoneChunks)
    by (vm_compute; reflexivity).
  assert (Hnode : onlyLoneChunks !! node_id fcWide = Some loneChunks)
    by (vm_compute; reflexivity).
  assert (Hchunks : loneChunks !! numParallelChunksKey sampleE
                    = Some ["1"])
    by (vm_compute; reflexivity).
  assert (Hok : setupPerNodeParallelizationConfigs sampleE fcFunction
                  (∅, ∅) (infoOf onlyLoneChunks) = Ok (∅, ∅))
    by (vm_compute; reflexivity).
  split; [repeat constructor|]. split; [exact Hinfo|].
  split; [exact Hnode|]. split; [exact Hchunks|].
  split; [reflexivity|]. split; [exact Hok|].
  intros Hclaim.
  specialize (Hclaim onlyLoneChunks loneChunks ["1"] Hinfo
                ltac:(repeat constructor) Hnode Hchunks).
  rewrite Hok in Hclaim. apply Hclaim.
  intros s n [= <-]. vm_compute. intros [= <-]. discriminate.
Qed.

Lemma validateBackendSpecificNodeInfo_iff_witness :
  Forall (fun p : Node * Node => getNumUsers splitFunction p.1 = 0)
         [(fcWide, concatOfHalves)]
  /\ Forall (splitAsRecorded sampleE splitInfo) [(fcWide, concatOfHalves)]
  /\ Forall (noHintLeft sampleE
               (purge [(fcWide, concatOfHalves)] splitInfo))
            (getNodes splitFunction).
Proof.
  assert (Hinfo : infoOf splitInfo !! fun_id splitFunction = Some splitInfo)
    by (vm_compute; reflexivity).
  assert (Hnodup : NoDup ((fun p : Node * Node => node_id p.1)
                            <$> [(fcWide, concatOfHalves)]))
    by by_compute.
  assert (Hsizes : Forall (fun p : Node * Node =>
                             (Z.of_nat (length (getInputs p.2)) < 2 ^ 63)%Z)
                     [(fcWide, concatOfHalves)])
    by (repeat constructor).
  apply (proj1 (validateBackendSpecificNodeInfo_iff sampleE splitFunction
                  [(fcWide, concatOfHalves)] (infoOf splitInfo) splitInfo
                  Hinfo Hnodup parseInt_range Hsizes)).
  vm_compute. reflexivity.
Defined.

Lemma parallelizeFunction_noop_witness :
  parallelizeFunction sampleE flagsOff true (mkState fcFunction noOpts [])
  = (Ok false, mkState fcFunction noOpts [])
  /\ parallelizeFunction sampleE flagsOff false
       (mkState fcFunction noOpts [])
     = (Ok false, mkState fcFunction noOpts []).
Proof.
  split.
  - apply (proj1 (parallelizeFunction_noop sampleE flagsOff
                    (mkState fcFunction noOpts []))).
    left. vm_compute. reflexivity.
  - apply (proj2 (parallelizeFunction_noop sampleE flagsOff
                    (mkState fcFunction noOpts [])) 0%Z).
    + vm_compute. reflexivity.
    + lia.
Defined.

Lemma transformPostLowering_disabled_witness :
  transformPostLowering sampleE disabled
    (mkState (fn [bmmF32; preluF32]) noOpts [])
  = (Ok false, mkState (fn [bmmF32; preluF32]) noOpts []).
Proof.
  apply (transformPostLowering_disabled sampleE disabled
           (mkState (fn [bmmF32; preluF32]) noOpts [])).
  reflexivity.
Defined.

(** The fusion-unblocking rewrite on FC -> Clip -> Relu -> Clip with equal
    bounds: the Relu is made to read the FC, and the change is reported. *)
Example removeClipsBlockingFusion_rewires :
  let r := removeClipsBlockingFusion sampleE
             (mkState (clipChain six) noOpts []) in
  r.1 = true
  /\ st_calls r.2
     = [CallReplaceAllUsesOfWith (mkNodeValue 31 0 wide)
          (mkNodeValue 11 0 wide)]
  /\ getInputs <$> findNode (st_fn r.2) 32 = Some [mkNodeValue 11 0 wide].
Proof. vm_compute. repeat split. Qed.

(** With different bounds on the two clips nothing is rewritten. *)
Example removeClipsBlockingFusion_bounds_differ :
  removeClipsBlockingFusion sampleE (mkState (clipChain three) noOpts [])
  = (false, mkState (clipChain three) noOpts []).
Proof. vm_compute. reflexivity. Qed.

(** A bool-to-float conversion becomes a select between two splats. *)
Example lowerRequiredNodes_bool_conversion :
  let r := lowerRequiredNodes sampleE flagsOff
             (mkState (fn [boolToFloat]) noOpts []) in
  r.1 = true
  /\ st_calls r.2
     = [CallCreateSplat "ct_s0" (ty FloatTy [4]%N) float_0;
        CallCreateSplat "ct_s1" (ty FloatTy [4]%N) float_1;
        CallCreateSelect "ct_sel";
        CallReplaceAllUsesOfWith (mkNodeValue 41 0 (ty FloatTy [4]%N))
          (mkNodeValue 44 0 (ty FloatTy [4]%N))]
  /\ node_kind <$> getNodes (st_fn r.2)
     = [ConvertToNodeKind; SplatNodeKind; SplatNodeKind; SelectNodeKind].
Proof. vm_compute. repeat split. Qed.

(** * Further properties *)

(** ** Shape tests and the acceptance policy *)

Section ShapeFacts.

Context (E : Collaborators) (G : Flags) (backendOptions_ : NNPIBackendOptions).

(** A type is a unary lookup exactly when its shape is [n, 1]. *)
Lemma isUnaryLookup_iff (type : TypeRef) :
  isUnaryLookup type = true <-> exists n, dims type = [n; 1%N].
Proof.
  unfold isUnaryLookup, dimAt.
  destruct (dims type) as [|n [|d [|d' ds]]]; simpl;
    try (split; [done|by intros [? ?]]).
  rewrite N.eqb_eq. split.
  - intros ->. by exists n.
  - by intros [? [= _ ->]].
Qed.

(** An indices type is valid exactly when it has one dimension, of fewer
    than 65536 elements. *)
Lemma isSLSIndicesValid_iff (type : TypeRef) :
  isSLSIndicesValid type = true
  <-> exists d, dims type = [d] /\ (d < 65536)%N.
Proof.
  unfold isSLSIndicesValid, dimAt.
  destruct (dims type) as [|d [|d' ds]]; simpl;
    try (split; [done|by intros (? & ? & ?)]).
  change (N.shiftl 1 16) with 65536%N. rewrite N.ltb_lt. split.
  - intros Hd. by exists d.
  - by intros (? & [= ->] & ?).
Qed.

(** X1: acceptance only narrows support, and setting the accept-unary flag
    never turns an accepted node into a refused one. *)
Theorem acceptForExecution_narrows (NI : NodeInfo) (G' : Flags) :
  acceptForExecution E G NI = true ->
  isOpSupported E NI = true
  /\ (GlowNNPIAcceptUnarySLS G' = true ->
      acceptForExecution E G' NI = true).
Proof.
  unfold acceptForExecution.
  destruct (isOpSupported E NI); simpl; [|done].
  intros Hacc. split; [done|]. intros ->. by destruct (getKind NI).
Qed.

End ShapeFacts.

(** ** The oracle and the lowering decisions together *)

Section OracleAndLowering.

Context (E : Collaborators) (G : Flags) (backendOptions_ : NNPIBackendOptions).

(** When the check passes without exception, every operand and result
    has an allowed kind. *)
Lemma sameElemKind_allowed NI allowed t :
  allInputsAndOutputsHaveSameElemKind NI allowed [] [] = true ->
  t ∈ inTypes_ NI ++ outTypes_ NI ->
  getElementType t ∈ allowed.
Proof.
  unfold allInputsAndOutputsHaveSameElemKind.
  rewrite !keptKinds_none, <- fmap_app.
  destruct (inTypes_ NI ++ outTypes_ NI) as [|t0 ts] eqn:Hall;
    [intros _ Ht; by apply not_elem_of_nil in Ht|].
  rewrite fmap_cons. intros Hsame Ht.
  apply andb_true_iff in Hsame as [Heq Hallowed].
  assert (Hk : getElementType t = getElementType t0).
  { apply elem_of_cons in Ht as [->|Ht]; [done|].
    rewrite forallb_forall in Heq.
    assert (Hin : In (getElementType t) (getElementType <$> ts))
      by (apply list_elem_of_In; by apply list_elem_of_fmap_2).
    apply Heq in Hin. by apply bool_decide_eq_true_1 in Hin. }
  rewrite Hk. apply existsb_exists in Hallowed as (a & Ha & Hak).
  apply bool_decide_eq_true_1 in Hak. subst a. by apply list_elem_of_In.
Qed.

Lemma allTensorsAre_elem k NI t :
  allTensorsAre k NI = true ->
  t ∈ inTypes_ NI ++ outTypes_ NI -> getElementType t = k.
Proof.
  unfold allTensorsAre. rewrite forallb_forall. intros Hall Ht.
  apply list_elem_of_In, Hall in Ht. by apply bool_decide_eq_true_1 in Ht.
Qed.

Lemma allTensorsAre_one_kind k NI :
  (forall t, t ∈ inTypes_ NI ++ outTypes_ NI -> getElementType t = k) ->
  allTensorsAre k NI = true.
Proof.
  intros Hall. unfold allTensorsAre. apply forallb_forall.
  intros t Ht. apply bool_decide_eq_true_2, Hall. by apply list_elem_of_In.
Qed.

(** X2: a clip the oracle supports is never lowered. *)
Theorem supported_clip_not_lowered (N : Node) (result : TypeRef) :
  node_kind N = ClipNodeKind ->
  node_outTypes N !! ClipNode_ResultIdx (layout E) = Some result ->
  isOpSupported E (NodeInfo_of N) = true ->
  shouldLower E backendOptions_ N = false.
Proof.
  intros Hk Hres Hsup. unfold isOpSupported in Hsup. simpl in Hsup.
  rewrite Hk in Hsup.
  assert (Hallowed : getElementType result ∈ [Int8QTy; Float16Ty]).
  { apply (sameElemKind_allowed (NodeInfo_of N) [Int8QTy; Float16Ty]
             result Hsup).
    simpl. apply elem_of_app. right. by eapply list_elem_of_lookup_2. }
  unfold shouldLower, getNthResult, elemTypeIs. rewrite Hk, Hres. simpl.
  apply elem_of_cons in Hallowed as [->|Hallowed]; [done|].
  apply list_elem_of_singleton in Hallowed as ->. done.
Qed.

(** X3: with the force-lower flag off, a batched-matmul the oracle supports
    is left alone by the required-node lowering: the nodes that walk
    decomposes are nodes the device could not run. *)
Theorem supported_batchMatMul_kept (N : Node) (acc : bool * State) :
  node_kind N = BatchMatMulNodeKind ->
  getInputs N <> [] \/ node_outTypes N <> [] ->
  isOpSupported E (NodeInfo_of N) = true ->
  GlowNNPILowerAllBatchMatMul G = false ->
  lowerRequiredNode E G N acc = acc.
Proof.
  intros Hk Hsome Hsup Hflag. apply lowerRequiredNode_leftAlone.
  unfold leftAlone. rewrite Hk.
  split; [done|]. split; [done|]. split; [done|]. intros _. split; [done|].
  unfold isOpSupported in Hsup. simpl in Hsup. rewrite Hk in Hsup.
  assert (Hex : exists t,
            t ∈ inTypes_ (NodeInfo_of N) ++ outTypes_ (NodeInfo_of N)).
  { simpl. destruct Hsome as [Hin|Hout].
    - destruct (getInputs N) as [|v vs]; [done|].
      exists (getType v). rewrite fmap_cons. left.
    - destruct (node_outTypes N) as [|t ts]; [done|].
      exists t. apply elem_of_app. right. left. }
  destruct Hex as [t Ht].
  pose proof (sameElemKind_allowed _ _ t Hsup Ht) as Hallowed.
  destruct (allTensorsAre FloatTy (NodeInfo_of N)) eqn:Hfloat; [|done].
  rewrite (allTensorsAre_elem FloatTy _ t Hfloat Ht) in Hallowed.
  apply elem_of_cons in Hallowed as [?|Hallowed]; [done|].
  by apply list_elem_of_singleton in Hallowed.
Qed.

Lemma allTensorsAre_not k NI :
  allTensorsAre k NI = false ->
  exists t,
    t ∈ inTypes_ NI ++ outTypes_ NI /\ getElementType t <> k.
Proof.
  unfold allTensorsAre.
  induction (inTypes_ NI ++ outTypes_ NI) as [|t ts IH]; [done|].
  cbn [forallb]. intros Hnot.
  apply andb_false_iff in Hnot as [Ht|Hts].
  - exists t. split; [left|]. by apply bool_decide_eq_false_1 in Ht.
  - destruct (IH Hts) as (t' & Ht' & Hne). exists t'. split; [by right|done].
Qed.

(** X4: a logit node with at least one tensor, all of them 16-bit float,
    is supported and kept native (not lowered); conversely, a logit node
    that is supported and kept native has only 32-bit and 16-bit float
    tensors, at least one of them 16-bit. *)
Theorem native_logit_float16 (N : Node) :
  node_kind N = LogitNodeKind ->
  (getInputs N <> [] \/ node_outTypes N <> [] ->
   allTensorsAre Float16Ty (NodeInfo_of N) = true ->
   isOpSupported E (NodeInfo_of N) = true
   /\ shouldLower E backendOptions_ N = false)
  /\ (isOpSupported E (NodeInfo_of N) = true ->
      shouldLower E backendOptions_ N = false ->
      (forall t,
         t ∈ inTypes_ (NodeInfo_of N) ++ outTypes_ (NodeInfo_of N) ->
         getElementType t = FloatTy \/ getElementType t = Float16Ty)
      /\ exists t,
           t ∈ inTypes_ (NodeInfo_of N) ++ outTypes_ (NodeInfo_of N)
           /\ getElementType t = Float16Ty).
Proof.
  intros Hk. unfold isOpSupported, shouldLower. simpl. rewrite Hk.
  rewrite sameElemKind_singleton. split.
  - intros Hsome H16.
    assert (Hex : exists t,
              t ∈ inTypes_ (NodeInfo_of N) ++ outTypes_ (NodeInfo_of N)).
    { simpl. destruct Hsome as [Hin|Hout].
      - destruct (getInputs N) as [|v vs]; [done|].
        exists (getType v). rewrite fmap_cons. left.
      - destruct (node_outTypes N) as [|t ts]; [done|].
        exists t. apply elem_of_app. right. left. }
    destruct Hex as [t Ht]. split.
    + unfold allInputsAndOutputsHaveSameElemKind.
      rewrite !keptKinds_none, <- fmap_app.
      destruct (inTypes_ (NodeInfo_of N) ++ outTypes_ (NodeInfo_of N))
        as [|t0 ts] eqn:Hall; [done|].
      rewrite fmap_cons. apply andb_true_iff. split.
      * apply forallb_forall. intros k Hk'.
        apply list_elem_of_In, list_elem_of_fmap in Hk' as (t' & -> & Ht').
        apply bool_decide_eq_true_2.
        rewrite (allTensorsAre_elem Float16Ty _ t' H16),
          (allTensorsAre_elem Float16Ty _ t0 H16); [done|..];
          rewrite Hall; [left|by right].
      * rewrite (allTensorsAre_elem Float16Ty _ t0 H16)
          by (rewrite Hall; left).
        reflexivity.
    + destruct (allTensorsAre FloatTy (NodeInfo_of N)) eqn:Hf; [|done].
      pose proof (allTensorsAre_elem FloatTy _ t Hf Ht) as H1.
      pose proof (allTensorsAre_elem Float16Ty _ t H16 Ht) as H2.
      congruence.
  - intros Hsup Hkeep.
    assert (Hallowed : forall t,
              t ∈ inTypes_ (NodeInfo_of N) ++ outTypes_ (NodeInfo_of N) ->
              getElementType t = FloatTy \/ getElementType t = Float16Ty).
    { intros t Ht.
      pose proof (sameElemKind_allowed _ _ t Hsup Ht) as Hin.
      apply elem_of_cons in Hin as [?|Hin]; [by left|right].
      by apply list_elem_of_singleton in Hin. }
    split; [exact Hallowed|].
    destruct (allTensorsAre_not FloatTy _ Hkeep) as (t & Ht & Hne).
    exists t. split; [exact Ht|]. by destruct (Hallowed t Ht).
Qed.

(** X5: a conversion the required-node lowering rewrites (a bool input
    converted to float or float16) is one the oracle does not support. *)
Theorem rewritten_conversion_unsupported (N : Node) (s : State) :
  node_kind N = ConvertToNodeKind ->
  (lowerRequiredNode E G N (false, s)).1 = true ->
  isOpSupported E (NodeInfo_of N) = false.
Proof.
  intros Hk. unfold lowerRequiredNode, isa. rewrite Hk.
  rewrite !bool_decide_eq_false_2 by discriminate.
  rewrite bool_decide_eq_true_2 by done.
  unfold isOpSupported. simpl. rewrite Hk.
  unfold getInElemTy, getInTy, getNthInput. simpl.
  rewrite list_lookup_fmap.
  destruct (getNthResult N _) as [result|]; [|done].
  destruct (getInputs N !! _) as [input|]; [|done].
  destruct (_ && elemTypeIs (Some input) BoolTy) eqn:Hbool; [|done].
  intros _. apply andb_true_iff in Hbool as [_ Hbool].
  unfold elemTypeIs in Hbool. apply bool_decide_eq_true_1 in Hbool.
  simpl in Hbool. injection Hbool as Hbool. simpl. by rewrite Hbool.
Qed.

End OracleAndLowering.

(** ** Heuristic planning: the tables as a whole *)

Section PlanTableFacts.

Context (E : Collaborators).

Lemma andThen_inv (P : PlanMaps -> Prop) (f : Flow PlanMaps)
    (k : PlanMaps -> Flow PlanMaps) :
  P (endIteration f) ->
  (forall st1, P st1 -> P (endIteration (k st1))) ->
  P (endIteration (andThen f k)).
Proof. intros Hf Hk. destruct f; simpl in *; auto. Qed.

(** A property of the tables kept by the two ways an iteration writes
    them (a fresh plan for its node, or the copy of the entry of another
    node) is kept by the iteration. *)
Lemma setupBasicNode_inv (P : PlanMaps -> Prop) F n node st :
  P st ->
  (forall st k, k <> PTK_None -> P st -> P (plan node k n st)) ->
  (forall st i c k,
     P st -> st.1 !! i = Some c -> st.2 !! i = Some k ->
     P (<[node_id node := c]> st.1, <[node_id node := k]> st.2)) ->
  P (setupBasicNode E F n node st).
Proof.
  intros HP Hplan Hcopy. unfold setupBasicNode.
  repeat (apply (andThen_inv P);
          [repeat case_match; simpl;
           first [assumption|apply Hplan; [discriminate|assumption]]
          |clear st HP; intros st HP]).
  destruct (isa ClipNodeKind node); [|exact HP].
  destruct (getNode <$> getNthInput node _) as [i|]; simpl; [|exact HP].
  destruct (st.1 !! i) as [c|] eqn:Hc; [|exact HP].
  destruct (st.2 !! i) as [k|] eqn:Hk; [|exact HP].
  simpl. by apply (Hcopy st i c k).
Qed.

Lemma setupBasic_fold_inv (P : PlanMaps -> Prop) F n nodes st :
  P st ->
  (forall node st, P st -> P (setupBasicNode E F n node st)) ->
  P (fold_left (fun st node => setupBasicNode E F n node st) nodes st).
Proof.
  intros HP Hstep. revert st HP.
  induction nodes as [|node nodes IH]; intros st HP; simpl; auto.
Qed.

Lemma setupBasicNode_same_keys F n node st :
  dom st.1 = dom st.2 ->
  dom (setupBasicNode E F n node st).1 = dom (setupBasicNode E F n node st).2.
Proof.
  intros Hdom.
  apply (setupBasicNode_inv (fun st => dom st.1 = dom st.2)); [done|..].
  - intros st' k _ Hst. unfold plan. simpl.
    by rewrite !dom_insert_L, Hst.
  - intros st' i c k Hst _ _. simpl. by rewrite !dom_insert_L, Hst.
Qed.

Lemma setupPerNode_same_keys currFunInfo node st st' :
  dom st.1 = dom st.2 ->
  setupPerNode E currFunInfo node st = Ok st' ->
  dom st'.1 = dom st'.2.
Proof.
  intros Hdom. unfold setupPerNode, bindE.
  repeat case_match; try discriminate; intros [= <-]; try done;
    simpl; by rewrite !dom_insert_L, Hdom.
Qed.

Lemma setupPerNodeLoop_same_keys currFunInfo nodes st st' :
  dom st.1 = dom st.2 ->
  setupPerNodeLoop E currFunInfo nodes st = Ok st' ->
  dom st'.1 = dom st'.2.
Proof.
  revert st. induction nodes as [|node nodes IH]; intros st Hdom; simpl.
  - by intros [= <-].
  - destruct (setupPerNode E currFunInfo node st) as [st1|msg] eqn:Hnode;
      simpl; [|done].
    apply IH. by eapply setupPerNode_same_keys.
Qed.

(** X6: both ways of planning fill the two tables for the same nodes, so
    the tables have the same size and the size check that follows the
    planning cannot fail. *)
Theorem planning_tables_agree (F : Function) (n : Z)
    (info : BackendSpecificNodeInfo) :
  (let maps := setupBasicParallelizationConfigs E F (∅, ∅) n in
   dom maps.1 = dom maps.2 /\ size maps.1 = size maps.2)
  /\ (forall maps,
        setupPerNodeParallelizationConfigs E F (∅, ∅) info = Ok maps ->
        dom maps.1 = dom maps.2 /\ size maps.1 = size maps.2).
Proof.
  assert (Hsize : forall maps : PlanMaps,
            dom maps.1 = dom maps.2 ->
            dom maps.1 = dom maps.2 /\ size maps.1 = size maps.2).
  { intros maps Hdom. split; [done|].
    by rewrite <- (size_dom maps.1), <- (size_dom maps.2), Hdom. }
  split.
  - apply Hsize. unfold setupBasicParallelizationConfigs.
    apply (setupBasic_fold_inv (fun st => dom st.1 = dom st.2)).
    + simpl. by rewrite !dom_empty_L.
    + intros node st. apply setupBasicNode_same_keys.
  - intros maps. unfold setupPerNodeParallelizationConfigs.
    destruct (info !! fun_id F) as [currFunInfo|]; [|done].
    intros Hok. apply Hsize.
    eapply setupPerNodeLoop_same_keys; [|exact Hok].
    simpl. by rewrite !dom_empty_L.
Qed.

(** X7: the heuristic plans only nodes it visits, always with the default
    chunk count, and never with the transform kind None. *)
Theorem setupBasic_entries (F : Function) (n : Z) (i : NodeId) :
  let maps := setupBasicParallelizationConfigs E F (∅, ∅) n in
  (forall c, maps.1 !! i = Some c ->
     c = to_size_t n /\ i ∈ node_id <$> getPostOrder E F)
  /\ (forall k, maps.2 !! i = Some k ->
        k <> PTK_None /\ i ∈ node_id <$> getPostOrder E F).
Proof.
  intros maps.
  assert (Hvisited : is_Some (maps.1 !! i) \/ is_Some (maps.2 !! i) ->
                     i ∈ node_id <$> getPostOrder E F).
  { intros Hsome.
    destruct (decide (i ∈ node_id <$> getPostOrder E F)) as [|Hout];
      [done|].
    destruct (setupBasic_fold_other E F n _ (∅, ∅) i Hout) as [H1 H2].
    fold (setupBasicParallelizationConfigs E F (∅, ∅) n) in H1, H2.
    fold maps in H1, H2. simpl in H1, H2.
    rewrite lookup_empty in H1. rewrite lookup_empty in H2.
    rewrite H1, H2 in Hsome. destruct Hsome as [[? ?]|[? ?]]; done. }
  assert (Hvalues :
    (forall j c, maps.1 !! j = Some c -> c = to_size_t n)
    /\ (forall j k, maps.2 !! j = Some k -> k <> PTK_None)).
  { subst maps. unfold setupBasicParallelizationConfigs.
    apply (setupBasic_fold_inv
             (fun st => (forall j c, st.1 !! j = Some c -> c = to_size_t n)
                        /\ (forall j k, st.2 !! j = Some k ->
                              k <> PTK_None))).
    - split; intros j ?; simpl; by rewrite lookup_empty.
    - intros node st Hst. apply setupBasicNode_inv; [done|..].
      + intros st' k Hk [Hc Hkinds]. unfold plan. simpl.
        split; intros j x; rewrite lookup_insert;
          case_decide; try (by intros [= <-]); eauto.
      + intros st' j0 c k [Hc Hkinds] Hc0 Hk0. simpl.
        split; intros j x; rewrite lookup_insert;
          case_decide; try (intros [= <-]); eauto. }
  destruct Hvalues as [Hc Hk]. split.
  - intros c Hi. split; [by apply (Hc i)|]. apply Hvisited. left. eauto.
  - intros k Hi. split; [by apply (Hk i)|]. apply Hvisited. right. eauto.
Qed.

End PlanTableFacts.

(** ** Heuristic planning: the rules per kind *)

Section PlanRuleFacts.

Context (E : Collaborators).

(** Where a node of a duplicate-free post order is visited: nothing is
    planned for it before, and what its iteration leaves for it is
    final. *)
Lemma setupBasic_at F n before X after :
  getPostOrder E F = before ++ X :: after ->
  NoDup (node_id <$> getPostOrder E F) ->
  let st := fold_left (fun st node => setupBasicNode E F n node st)
              before (∅, ∅) in
  let final := setupBasicParallelizationConfigs E F (∅, ∅) n in
  st.1 !! node_id X = None /\ st.2 !! node_id X = None
  /\ final.1 !! node_id X = (setupBasicNode E F n X st).1 !! node_id X
  /\ final.2 !! node_id X = (setupBasicNode E F n X st).2 !! node_id X.
Proof.
  intros Hsplit Hnodup st final.
  rewrite Hsplit, fmap_app, fmap_cons in Hnodup.
  apply NoDup_app in Hnodup as (_ & Hdisj & Hafter).
  apply NoDup_cons in Hafter as [Hafter _].
  assert (Hbefore : node_id X ∉ node_id <$> before).
  { intros Hb. apply (Hdisj _ Hb). left. }
  destruct (setupBasic_fold_other E F n before (∅, ∅) (node_id X) Hbefore)
    as [H1 H2].
  simpl in H1, H2. rewrite lookup_empty in H1. rewrite lookup_empty in H2.
  split; [exact H1|]. split; [exact H2|].
  subst final. unfold setupBasicParallelizationConfigs.
  rewrite Hsplit, fold_left_app. simpl.
  apply (setupBasic_fold_other E F n after
           (setupBasicNode E F n X st) (node_id X) Hafter).
Qed.

(** The entry of a node that is not visited from some point on is final
    at that point. *)
Lemma setupBasic_settled F n before rest i :
  getPostOrder E F = before ++ rest ->
  i ∉ node_id <$> rest ->
  let st := fold_left (fun st node => setupBasicNode E F n node st)
              before (∅, ∅) in
  let final := setupBasicParallelizationConfigs E F (∅, ∅) n in
  final.1 !! i = st.1 !! i /\ final.2 !! i = st.2 !! i.
Proof.
  intros Hsplit Hi st final. subst final.
  unfold setupBasicParallelizationConfigs. rewrite Hsplit, fold_left_app.
  apply (setupBasic_fold_other E F n rest st i Hi).
Qed.

Lemma fold_same_keys F n nodes :
  let st := fold_left (fun st node => setupBasicNode E F n node st)
              nodes (∅, ∅) in
  dom st.1 = dom st.2.
Proof.
  apply (setupBasic_fold_inv E (fun st => dom st.1 = dom st.2)).
  - simpl. by rewrite !dom_empty_L.
  - intros node st. apply setupBasicNode_same_keys.
Qed.

Lemma int_as_size_t n : (1 < n < 2 ^ 31)%Z -> to_size_t n = n.
Proof. intros Hn. unfold to_size_t. apply Z.mod_small. lia. Qed.

(** Rewrites the kind tests of an iteration on a node of known kind. *)
Ltac known_kind Hk :=
  unfold setupBasicNode, isa; rewrite Hk;
  rewrite ?(bool_decide_eq_true_2 (_ = _)) by reflexivity;
  rewrite ?(bool_decide_eq_false_2 (_ = _)) by discriminate;
  simpl.

(** X8: transpose, quantize, dequantize and batched-matmul nodes are
    always planned for a Data split into N chunks. *)
Theorem setupBasic_data_kinds (F : Function) (n : Z) (X : Node) :
  (1 < n < 2 ^ 31)%Z ->
  NoDup (node_id <$> getPostOrder E F) ->
  X ∈ getPostOrder E F ->
  node_kind X = TransposeNodeKind \/ node_kind X = QuantizeNodeKind
  \/ node_kind X = DequantizeNodeKind \/ node_kind X = BatchMatMulNodeKind ->
  let maps := setupBasicParallelizationConfigs E F (∅, ∅) n in
  maps.2 !! node_id X = Some PTK_Data /\ maps.1 !! node_id X = Some n.
Proof.
  intros Hn Hnodup Hin Hk maps.
  apply list_elem_of_split in Hin as (before & after & Hsplit).
  destruct (setupBasic_at F n before X after Hsplit Hnodup)
    as (_ & _ & H1 & H2).
  fold maps in H1, H2. rewrite H1, H2.
  set (st := fold_left _ before _).
  assert (Hstep : setupBasicNode E F n X st = plan X PTK_Data n st).
  { destruct Hk as [Hk|[Hk|[Hk|Hk]]]; known_kind Hk; reflexivity. }
  rewrite Hstep. unfold plan. simpl.
  rewrite !lookup_insert_eq. by rewrite int_as_size_t.
Qed.

(** X9: a tanh (on its input) or a multiply (on its left operand) is
    planned for a Data split into N chunks exactly when that operand has
    at least two dimensions, the second of them 4096 or more; otherwise it
    gets no entry. *)
Theorem setupBasic_elementwise (F : Function) (n : Z) (X : Node)
    (idx : nat) :
  (1 < n < 2 ^ 31)%Z ->
  NoDup (node_id <$> getPostOrder E F) ->
  X ∈ getPostOrder E F ->
  (node_kind X = TanhNodeKind /\ idx = ActivationIOIdx)
  \/ (node_kind X = MulNodeKind /\ idx = MulNode_LHSIdx (layout E)) ->
  let maps := setupBasicParallelizationConfigs E F (∅, ∅) n in
  let d := dimsOf (getNthInput X idx) in
  (2 <= length d /\ (4096 <= dimAt d 1)%N ->
   maps.2 !! node_id X = Some PTK_Data /\ maps.1 !! node_id X = Some n)
  /\ (length d < 2 \/ (dimAt d 1 < 4096)%N ->
      maps.2 !! node_id X = None /\ maps.1 !! node_id X = None).
Proof.
  intros Hn Hnodup Hin Hk maps d.
  apply list_elem_of_split in Hin as (before & after & Hsplit).
  destruct (setupBasic_at F n before X after Hsplit Hnodup)
    as (Hnone1 & Hnone2 & H1 & H2).
  fold maps in H1, H2. rewrite H1, H2.
  set (st := fold_left _ before _) in *.
  assert (Hstep : setupBasicNode E F n X st
                  = if (length d <? 2)%nat then st
                    else if (dimAt d 1 <? 4096)%N then st
                         else plan X PTK_Data n st).
  { subst d. destruct Hk as [[Hk ->]|[Hk ->]]; known_kind Hk;
      repeat case_match; reflexivity. }
  rewrite Hstep. split.
  - intros [Hlen Hdim].
    rewrite (proj2 (Nat.ltb_ge _ _)) by done.
    rewrite (proj2 (N.ltb_ge _ _)) by done.
    unfold plan. simpl. rewrite !lookup_insert_eq.
    by rewrite int_as_size_t.
  - intros [Hlen|Hdim].
    + by rewrite (proj2 (Nat.ltb_lt _ _)) by done.
    + rewrite (proj2 (N.ltb_lt _ _) Hdim). by destruct (_ <? 2)%nat.
Qed.

(** X10: a clip whose input node is not visited after it mirrors that
    node: in both tables the clip has the entry of its input node, or none
    when the input node has none. *)
Theorem setupBasic_clip_mirrors (F : Function) (n : Z) (C : Node)
    (input : NodeValue) (before after : list Node) :
  getPostOrder E F = before ++ C :: after ->
  NoDup (node_id <$> getPostOrder E F) ->
  node_kind C = ClipNodeKind ->
  getNthInput C (ClipNode_InputIdx (layout E)) = Some input ->
  getNode input ∉ node_id <$> C :: after ->
  let maps := setupBasicParallelizationConfigs E F (∅, ∅) n in
  maps.1 !! node_id C = maps.1 !! getNode input
  /\ maps.2 !! node_id C = maps.2 !! getNode input.
Proof.
  intros Hsplit Hnodup Hk Hinput Hlater maps.
  destruct (setupBasic_at F n before C after Hsplit Hnodup)
    as (Hnone1 & Hnone2 & H1 & H2).
  destruct (setupBasic_settled F n before (C :: after) (getNode input)
              Hsplit Hlater) as [Hin1 Hin2].
  fold maps in H1, H2, Hin1, Hin2. rewrite H1, H2, Hin1, Hin2.
  pose proof (fold_same_keys F n before) as Hdom. simpl in Hdom.
  set (st := fold_left _ before _) in *.
  known_kind Hk. rewrite Hinput. simpl.
  destruct (st.1 !! getNode input) as [c|] eqn:Hc;
    destruct (st.2 !! getNode input) as [k|] eqn:Hkind; simpl.
  - by rewrite !lookup_insert_eq.
  - assert (Hd : getNode input ∈ dom st.2)
      by (rewrite <- Hdom; apply elem_of_dom; eauto).
    apply elem_of_dom in Hd as [? Hd]. congruence.
  - assert (Hd : getNode input ∈ dom st.1)
      by (rewrite Hdom; apply elem_of_dom; eauto).
    apply elem_of_dom in Hd as [? Hd]. congruence.
  - done.
Qed.

(** X11: a Relu that reads a fully-connected node is planned from the
    shape of what it reads, by the thresholds of the fully-connected rule:
    Model when dimension 1 is at least 512, else Data when dimension 0 is
    at least 256, else nothing. *)
Theorem setupBasic_relu_after_fc (F : Function) (n : Z) (R FC : Node)
    (input : NodeValue) (M K : N) (rest : list N) :
  (1 < n < 2 ^ 31)%Z ->
  NoDup (node_id <$> getPostOrder E F) ->
  R ∈ getPostOrder E F ->
  node_kind R = ReluNodeKind ->
  getNthInput R ActivationIOIdx = Some input ->
  findNode F (getNode input) = Some FC ->
  node_kind FC = FullyConnectedNodeKind ->
  dims (getType input) = M :: K :: rest ->
  let maps := setupBasicParallelizationConfigs E F (∅, ∅) n in
  ((512 <= K)%N ->
   maps.2 !! node_id R = Some PTK_Model /\ maps.1 !! node_id R = Some n)
  /\ ((K < 512)%N -> (256 <= M)%N ->
      maps.2 !! node_id R = Some PTK_Data /\ maps.1 !! node_id R = Some n)
  /\ ((K < 512)%N -> (M < 256)%N ->
      maps.2 !! node_id R = None /\ maps.1 !! node_id R = None).
Proof.
  intros Hn Hnodup Hin Hk Hinput Hfind HFC Hdims maps.
  apply list_elem_of_split in Hin as (before & after & Hsplit).
  destruct (setupBasic_at F n before R after Hsplit Hnodup)
    as (Hnone1 & Hnone2 & H1 & H2).
  fold maps in H1, H2. rewrite H1, H2.
  set (st := fold_left _ before _) in *.
  assert (Hstep : setupBasicNode E F n R st
                  = if (512 <=? K)%N then plan R PTK_Model n st
                    else if (256 <=? M)%N then plan R PTK_Data n st
                         else st).
  { known_kind Hk. rewrite Hinput. unfold isaAt. simpl. rewrite Hfind.
    unfold isa. rewrite HFC, bool_decide_eq_true_2 by done. simpl.
    unfold dimAt. rewrite Hdims. simpl.
    repeat case_match; reflexivity. }
  rewrite Hstep. unfold plan. repeat split.
  - rewrite (proj2 (N.leb_le 512 K)) by done. simpl.
    apply lookup_insert_eq.
  - rewrite (proj2 (N.leb_le 512 K)) by done. simpl.
    rewrite lookup_insert_eq. by rewrite int_as_size_t.
  - rewrite (proj2 (N.leb_gt 512 K)), (proj2 (N.leb_le 256 M)) by done.
    simpl. apply lookup_insert_eq.
  - rewrite (proj2 (N.leb_gt 512 K)), (proj2 (N.leb_le 256 M)) by done.
    simpl. rewrite lookup_insert_eq. by rewrite int_as_size_t.
  - by rewrite (proj2 (N.leb_gt 512 K)), (proj2 (N.leb_gt 256 M)) by done.
  - by rewrite (proj2 (N.leb_gt 512 K)), (proj2 (N.leb_gt 256 M)) by done.
Qed.

(** X12: a Relu that reads a node other than a fully-connected one, not
    visited after it, is planned for a Data split into N chunks exactly
    when the node it reads is planned, whatever that plan is. *)
Theorem setupBasic_relu_follows_input (F : Function) (n : Z) (R : Node)
    (input : NodeValue) (before after : list Node) :
  (1 < n < 2 ^ 31)%Z ->
  getPostOrder E F = before ++ R :: after ->
  NoDup (node_id <$> getPostOrder E F) ->
  node_kind R = ReluNodeKind ->
  getNthInput R ActivationIOIdx = Some input ->
  isaAt F FullyConnectedNodeKind (Some (getNode input)) = false ->
  getNode input ∉ node_id <$> R :: after ->
  let maps := setupBasicParallelizationConfigs E F (∅, ∅) n in
  (is_Some (maps.1 !! getNode input) ->
   maps.2 !! node_id R = Some PTK_Data /\ maps.1 !! node_id R = Some n)
  /\ (maps.1 !! getNode input = None ->
      maps.2 !! node_id R = None /\ maps.1 !! node_id R = None).
Proof.
  intros Hn Hsplit Hnodup Hk Hinput Hnot Hlater maps.
  destruct (setupBasic_at F n before R after Hsplit Hnodup)
    as (Hnone1 & Hnone2 & H1 & H2).
  destruct (setupBasic_settled F n before (R :: after) (getNode input)
              Hsplit Hlater) as [Hin1 Hin2].
  fold maps in H1, H2, Hin1, Hin2. rewrite H1, H2, Hin1.
  pose proof (fold_same_keys F n before) as Hdom. simpl in Hdom.
  set (st := fold_left _ before _) in *.
  assert (Hstep : setupBasicNode E F n R st
                  = if planned (Some (getNode input)) st
                    then plan R PTK_Data n st else st).
  { known_kind Hk. rewrite Hinput. simpl. rewrite Hnot. simpl.
    unfold planned. repeat case_match; reflexivity. }
  rewrite Hstep. unfold planned. split.
  - intros Hsome.
    assert (Hsome2 : is_Some (st.2 !! getNode input))
      by (apply elem_of_dom; rewrite <- Hdom; by apply elem_of_dom).
    rewrite !bool_decide_eq_true_2 by done. simpl. unfold plan. simpl.
    rewrite !lookup_insert_eq. by rewrite int_as_size_t.
  - intros Hnone.
    rewrite (bool_decide_eq_false_2 (is_Some (st.1 !! _)))
      by (rewrite Hnone; apply is_Some_None).
    done.
Qed.

End PlanRuleFacts.

(** ** Directive-driven planning: what a successful setup plans *)

Section DirectivePlanFacts.

Context (E : Collaborators).

Lemma GoodDirective_unique nodeInfo k n k' n' :
  GoodDirective E nodeInfo k n -> GoodDirective E nodeInfo k' n' ->
  k = k' /\ n = n'.
Proof.
  intros (ks & s & Hk & Hkind & Hc & Hs & _)
         (ks' & s' & Hk' & Hkind' & Hc' & Hs' & _).
  rewrite Hk in Hk'. injection Hk' as <-.
  rewrite Hc in Hc'. injection Hc' as <-.
  rewrite Hs in Hs'. injection Hs' as <-. split; [|done].
  destruct Hkind as [[-> ->]|[-> ->]], Hkind' as [[? ->]|[? ->]];
    done.
Qed.

(** A successful iteration leaves the plan alone or plans its node as a
    good directive says. *)
Lemma setupPerNode_ok currFunInfo node st st' :
  setupPerNode E currFunInfo node st = Ok st' ->
  st' = st
  \/ exists nodeInfo k n,
       currFunInfo !! node_id node = Some nodeInfo
       /\ GoodDirective E nodeInfo k n
       /\ st' = plan node k n st.
Proof.
  unfold setupPerNode.
  destruct (currFunInfo !! node_id node) as [nodeInfo|] eqn:Hinfo;
    [|intros [= <-]; by left].
  destruct (nodeInfo !! parallelTransformKindKey E) as [kinds|] eqn:Hk;
    [|intros [= <-]; by left].
  destruct kinds as [|ks [|ks' kinds]]; simpl; try done.
  assert (Hrest : forall k,
    (ks = "Data" /\ k = PTK_Data) \/ (ks = "Model" /\ k = PTK_Model) ->
    match nodeInfo !! numParallelChunksKey E with
    | Some chunks =>
        if (length chunks =? 1)%nat
        then bindE (getIntFromStr E (List.hd "" chunks))
               (fun numChunks =>
                  if (1 <? numChunks)%Z
                  then Ok (<[node_id node := to_size_t numChunks]> st.1,
                           <[node_id node := k]> st.2)
                  else Err "numChunks must be > 1.")
        else Err ("Expected single value for " +:+ numParallelChunksKey E)
    | None =>
        Err (numParallelChunksKey E +:+ " and "
             +:+ parallelTransformKindKey E
             +:+ " must be specified together.")
    end = Ok st' ->
    st' = st
    \/ exists nodeInfo0 k0 n,
         Some nodeInfo = Some nodeInfo0
         /\ GoodDirective E nodeInfo0 k0 n
         /\ st' = plan node k0 n st).
  { intros k Hkind.
    destruct (nodeInfo !! numParallelChunksKey E) as [chunks|] eqn:Hc;
      [|done].
    destruct chunks as [|s [|s' chunks]]; simpl; try done.
    destruct (getIntFromStr E s) as [n|msg] eqn:Hs; simpl; [|done].
    destruct (1 <? n)%Z eqn:Hn; [|done].
    intros [= <-]. right. exists nodeInfo, k, n.
    split; [done|]. split; [|done].
    exists ks, s. repeat split; try done. by apply Z.ltb_lt. }
  destruct (String.eqb_spec ks "Data") as [->|_]; simpl.
  { apply (Hrest PTK_Data). by left. }
  destruct (String.eqb_spec ks "Model") as [->|_]; simpl.
  { apply (Hrest PTK_Model). by right. }
  destruct (String.eqb_spec ks "None") as [->|_]; simpl; [|done].
  intros [= <-]. by left.
Qed.

Lemma setupPerNode_good currFunInfo node nodeInfo k n st :
  currFunInfo !! node_id node = Some nodeInfo ->
  GoodDirective E nodeInfo k n ->
  setupPerNode E currFunInfo node st = Ok (plan node k n st).
Proof.
  intros Hinfo (ks & s & Hk & Hkind & Hc & Hs & Hn).
  unfold setupPerNode. rewrite Hinfo, Hk.
  destruct Hkind as [[-> ->]|[-> ->]]; simpl; rewrite Hc; simpl;
    rewrite Hs; simpl; by rewrite (proj2 (Z.ltb_lt 1 n)) by done.
Qed.

(** X13: when the directive-driven setup succeeds, every entry of the plan
    is that of a node of the function that carries a good directive: the
    chunk count is the one the directive gives, above 1, and the kind is
    Data or Model as the directive says. *)
Theorem setupPerNode_plans_directives (F : Function)
    (info : BackendSpecificNodeInfo) (maps : PlanMaps) (i : NodeId)
    (c : Z) :
  setupPerNodeParallelizationConfigs E F (∅, ∅) info = Ok maps ->
  maps.1 !! i = Some c ->
  exists currFunInfo nodeInfo k n,
    info !! fun_id F = Some currFunInfo
    /\ i ∈ node_id <$> getNodes F
    /\ currFunInfo !! i = Some nodeInfo
    /\ GoodDirective E nodeInfo k n
    /\ c = to_size_t n
    /\ maps.2 !! i = Some k.
Proof.
  unfold setupPerNodeParallelizationConfigs.
  destruct (info !! fun_id F) as [currFunInfo|]; [|done].
  intros Hok Hc. exists currFunInfo.
  assert (Hinv : forall nodes st st',
    (forall j x, st.1 !! j = Some x ->
       exists nodeInfo k n,
         j ∈ node_id <$> getNodes F
         /\ currFunInfo !! j = Some nodeInfo
         /\ GoodDirective E nodeInfo k n
         /\ x = to_size_t n /\ st.2 !! j = Some k) ->
    (forall node, node ∈ nodes -> node ∈ getNodes F) ->
    setupPerNodeLoop E currFunInfo nodes st = Ok st' ->
    forall j x, st'.1 !! j = Some x ->
      exists nodeInfo k n,
        j ∈ node_id <$> getNodes F
        /\ currFunInfo !! j = Some nodeInfo
        /\ GoodDirective E nodeInfo k n
        /\ x = to_size_t n /\ st'.2 !! j = Some k).
  { induction nodes as [|node nodes IH]; intros st st' Hst Hsub; simpl.
    - by intros [= <-].
    - destruct (setupPerNode E currFunInfo node st) as [st1|msg] eqn:Hnode;
        simpl; [|done].
      apply IH; [|intros node' Hn'; apply Hsub; by right].
      apply setupPerNode_ok in Hnode
        as [->|(nodeInfo & k & n & Hinfo & Hgood & ->)]; [done|].
      intros j x. unfold plan. simpl. rewrite !lookup_insert.
      case_decide as Hj; [|apply Hst].
      intros [= <-]. subst j. exists nodeInfo, k, n.
      repeat split; try done.
      apply list_elem_of_fmap_2, Hsub. left. }
  destruct (Hinv (getNodes F) (∅, ∅) maps) with (j := i) (x := c)
    as (nodeInfo & k & n & H); try done.
  by exists nodeInfo, k, n.
Qed.

(** X14: when the directive-driven setup succeeds, a node of the function
    that carries a good directive is planned as the directive says. *)
Theorem setupPerNode_directive_planned (F : Function)
    (info : BackendSpecificNodeInfo) (currFunInfo : FunctionNodeInfo)
    (maps : PlanMaps) (node : Node) (nodeInfo : NodeAnnotations)
    (k : ParallelTransformKind) (n : Z) :
  setupPerNodeParallelizationConfigs E F (∅, ∅) info = Ok maps ->
  info !! fun_id F = Some currFunInfo ->
  node ∈ getNodes F ->
  currFunInfo !! node_id node = Some nodeInfo ->
  GoodDirective E nodeInfo k n ->
  maps.1 !! node_id node = Some (to_size_t n)
  /\ maps.2 !! node_id node = Some k.
Proof.
  unfold setupPerNodeParallelizationConfigs. intros Hok Hinfo.
  rewrite Hinfo in Hok. intros Hin Hnode Hgood.
  assert (Hkeep : forall nodes st st',
    st.1 !! node_id node = Some (to_size_t n)
    /\ st.2 !! node_id node = Some k ->
    setupPerNodeLoop E currFunInfo nodes st = Ok st' ->
    st'.1 !! node_id node = Some (to_size_t n)
    /\ st'.2 !! node_id node = Some k).
  { induction nodes as [|node' nodes IH]; intros st st' Hst; simpl.
    - by intros [= <-].
    - destruct (setupPerNode E currFunInfo node' st) as [st1|msg]
        eqn:Hstep; simpl; [|done].
      apply IH.
      apply setupPerNode_ok in Hstep
        as [->|(nodeInfo' & k' & n' & Hinfo' & Hgood' & ->)]; [done|].
      unfold plan. simpl. rewrite !lookup_insert.
      case_decide as Hid; [|done].
      rewrite Hid, Hnode in Hinfo'. injection Hinfo' as <-.
      by destruct (GoodDirective_unique _ _ _ _ _ Hgood Hgood')
        as [<- <-]. }
  revert Hok. generalize ((∅, ∅) : PlanMaps).
  induction (getNodes F) as [|node' nodes IH]; intros st.
  - by apply not_elem_of_nil in Hin.
  - simpl.
    destruct (setupPerNode E currFunInfo node' st) as [st1|msg] eqn:Hstep;
      simpl; [|done].
    apply elem_of_cons in Hin as [<-|Hin]; [|by apply IH].
    rewrite (setupPerNode_good currFunInfo node nodeInfo k n st Hnode Hgood)
      in Hstep.
    injection Hstep as <-. apply Hkeep.
    unfold plan. simpl. by rewrite !lookup_insert_eq.
Qed.

End DirectivePlanFacts.

(** ** The planner as a whole, and what validation leaves behind *)

Section PlannerFacts.

Context (E : Collaborators) (G : Flags).

(** What the first loop of the validation does to the annotations: it
    only deletes records of replaced nodes, all of them when it
    succeeds. *)
Lemma validateReplaced_purges F replacedMap currFunInfo :
  let r := validateReplaced E F replacedMap currFunInfo in
  (forall i, i ∉ (fun p : Node * Node => node_id p.1) <$> replacedMap ->
     r.2 !! i = currFunInfo !! i)
  /\ (forall i x, r.2 !! i = Some x -> currFunInfo !! i = Some x)
  /\ (r.1 = success -> r.2 = purge replacedMap currFunInfo).
Proof.
  revert currFunInfo.
  induction replacedMap as [|[replacedNode CN] rest IH];
    intros currFunInfo; simpl; [done|].
  assert (Hstop : forall msg : string,
    (forall i, i ∉ node_id replacedNode
                   :: ((fun p : Node * Node => node_id p.1) <$> rest) ->
       (@Err unit msg, currFunInfo).2 !! i = currFunInfo !! i)
    /\ (forall i x, (@Err unit msg, currFunInfo).2 !! i = Some x ->
          currFunInfo !! i = Some x)
    /\ ((@Err unit msg, currFunInfo).1 = success ->
        (@Err unit msg, currFunInfo).2
        = purge rest (delete (node_id replacedNode) currFunInfo)))
    by (intros msg; simpl; done).
  repeat case_match; try apply Hstop.
  destruct (IH (delete (node_id replacedNode) currFunInfo))
    as (Hother & Hsub & Hok).
  split; [|split].
  - intros i Hi. apply not_elem_of_cons in Hi as [Hne Hi].
    rewrite (Hother i Hi). by apply lookup_delete_ne.
  - intros i x Hi. apply Hsub in Hi.
    by apply lookup_delete_Some in Hi as [_ Hi].
  - exact Hok.
Qed.

(** X15: the validation edits only the record of the function it
    validates, and in that record it only deletes annotations of replaced
    nodes: every other annotation of the function is kept, and the records
    of the other functions are untouched. *)
Theorem validateBackendSpecificNodeInfo_frame (F : Function)
    (replacedMap : list (Node * Node)) (info : BackendSpecificNodeInfo) :
  let info' := (validateBackendSpecificNodeInfo E F replacedMap info).2 in
  (forall g, g <> fun_id F -> info' !! g = info !! g)
  /\ (forall currFunInfo,
        info !! fun_id F = Some currFunInfo ->
        exists currFunInfo',
          info' !! fun_id F = Some currFunInfo'
          /\ (forall i,
                i ∉ (fun p : Node * Node => node_id p.1) <$> replacedMap ->
                currFunInfo' !! i = currFunInfo !! i)
          /\ (forall i x, currFunInfo' !! i = Some x ->
                currFunInfo !! i = Some x)).
Proof.
  unfold validateBackendSpecificNodeInfo.
  destruct (info !! fun_id F) as [currFunInfo|] eqn:Hinfo; simpl.
  - pose proof (validateReplaced_purges F replacedMap currFunInfo)
      as (Hother & Hsub & _).
    destruct (validateReplaced E F replacedMap currFunInfo)
      as [res currFunInfo'].
    assert (Hsnd : (match res with
                    | Ok _ =>
                        (validateRemaining E currFunInfo' (getNodes F),
                         <[fun_id F := currFunInfo']> info)
                    | Err msg =>
                        (Err msg, <[fun_id F := currFunInfo']> info)
                    end).2 = <[fun_id F := currFunInfo']> info)
      by (by destruct res).
    rewrite Hsnd. split.
    + intros g Hg. by rewrite lookup_insert_ne.
    + intros ? [= <-]. exists currFunInfo'.
      by rewrite lookup_insert_eq.
  - split; [done|]. by intros.
Qed.

(** X16: the planner reports "no change" only when it has touched nothing;
    it hands the function to [parallelizeOps] at most once, and exactly
    once when it reports a change; the heuristic mode never edits the
    options, and no mode edits the string options of the backend. *)
Theorem parallelizeFunction_frame (usePerNodeParallelizationSpec : bool)
    (s : State) :
  let r := parallelizeFunction E G usePerNodeParallelizationSpec s in
  (r.1 = Ok false -> r.2 = s)
  /\ (r.1 = Ok true ->
      st_calls r.2 = st_calls s ++ [CallParallelizeOps])
  /\ (st_calls r.2 = st_calls s
      \/ st_calls r.2 = st_calls s ++ [CallParallelizeOps])
  /\ (usePerNodeParallelizationSpec = false -> st_opts r.2 = st_opts s)
  /\ backendSpecificOpts (st_opts r.2) = backendSpecificOpts (st_opts s).
Proof.
  unfold parallelizeFunction.
  repeat case_match; simpl; repeat split; intros; try done;
    try (by left); try (by right).
Qed.

(** X17: when the directive-driven planner reports a change, the
    annotations it leaves for the function carry no parallelization or
    placement key on any node of the rewritten function. *)
Theorem parallelizeFunction_consumes_directives (s s' : State) :
  parallelizeFunction E G true s = (Ok true, s') ->
  exists currFunInfo',
    backendSpecificNodeInfo (st_opts s') !! fun_id (st_fn s')
    = Some currFunInfo'
    /\ Forall (noHintLeft E currFunInfo') (getNodes (st_fn s')).
Proof.
  unfold parallelizeFunction.
  destruct (backendSpecificNodeInfo (st_opts s) !! fun_id (st_fn s));
    [|done].
  destruct (bindE _ _) as [[[[numChunks parOpts] n]|]|msg]; try done.
  destruct (negb _); [done|]. destruct (_ =? 0)%nat; [done|].
  destruct (parallelizeOps E _ _ _ _) as [F' [replacedMap|msg]];
    [|done].
  destruct (negb _); [done|].
  unfold validateBackendSpecificNodeInfo.
  destruct (backendSpecificNodeInfo (st_opts s) !! fun_id F')
    as [currFunInfo|]; [|done].
  destruct (validateReplaced E F' replacedMap currFunInfo)
    as [[[]|msg] currFunInfo']; [|done].
  destruct (validateRemaining E currFunInfo' (getNodes F'))
    as [[]|msg'] eqn:Hrest'; [|done].
  intros [= <-]. simpl. exists currFunInfo'.
  rewrite lookup_insert_eq. split; [done|].
  by apply validateRemaining_success.
Qed.

End PlannerFacts.

(** ** The rewrites and their change signal *)

Section RewriteSignalFacts.

Context (E : Collaborators) (G : Flags).

(** An iteration of the fusion-unblocking rewrite leaves everything as it
    is, or reports a change and issues one [replaceAllUsesOfWith]. *)
Lemma removeClipBlockingFusion_step id acc :
  let r := removeClipBlockingFusion E id acc in
  r = acc
  \/ (r.1 = true /\ st_opts r.2 = st_opts acc.2
      /\ exists old new,
           st_calls r.2
           = st_calls acc.2 ++ [CallReplaceAllUsesOfWith old new]).
Proof.
  destruct acc as [changed s]. unfold removeClipBlockingFusion.
  repeat case_match; try (by left).
  all: right; simpl; split; [done|]; split; [done|]; eauto.
Qed.

(** The state a fold of change-reporting steps reaches. *)
Lemma signal_fold {A : Type} (step : A -> bool * State -> bool * State)
    (P : GraphCall -> Prop) (items : list A) (acc : bool * State) :
  (forall x acc,
     step x acc = acc
     \/ ((step x acc).1 = true
         /\ st_opts (step x acc).2 = st_opts acc.2
         /\ exists new,
              new <> []
              /\ Forall P new
              /\ st_calls (step x acc).2 = st_calls acc.2 ++ new)) ->
  let r := fold_left (fun acc x => step x acc) items acc in
  st_opts r.2 = st_opts acc.2
  /\ (r.1 = acc.1 /\ r.2 = acc.2 \/ r.1 = true)
  /\ exists new,
       st_calls r.2 = st_calls acc.2 ++ new
       /\ Forall P new
       /\ (new = [] -> r = acc).
Proof.
  intros Hstep. revert acc.
  induction items as [|x items IH]; intros acc; simpl.
  - split; [done|]. split; [by left|].
    exists []. by rewrite app_nil_r.
  - destruct (IH (step x acc)) as (Hopts & Hsig & new2 & Hcalls & HP & Hnil).
    destruct (Hstep x acc)
      as [Heq|(Htrue & Hopts1 & new1 & Hne & HP1 & Hcalls1)].
    + rewrite Heq in *. split; [done|]. split; [done|]. by exists new2.
    + split; [congruence|]. split.
      * right. destruct Hsig as [[-> _]|Hsig]; done.
      * exists (new1 ++ new2). rewrite Hcalls, Hcalls1, app_assoc.
        split; [done|]. split; [by apply Forall_app|].
        intros Hnil'. apply app_eq_nil in Hnil' as [? _]. done.
Qed.

(** X18: the fusion-unblocking rewrite never touches the options, issues
    nothing but [replaceAllUsesOfWith] calls, and reports a change exactly
    when it has issued one; when it reports none the state is as it
    was. *)
Theorem removeClipsBlockingFusion_signal (s : State) :
  let r := removeClipsBlockingFusion E s in
  st_opts r.2 = st_opts s
  /\ (r.1 = false -> r.2 = s)
  /\ exists new,
       st_calls r.2 = st_calls s ++ new
       /\ Forall isReplaceAllUses new
       /\ (r.1 = true <-> new <> []).
Proof.
  unfold removeClipsBlockingFusion.
  destruct (signal_fold (removeClipBlockingFusion E) isReplaceAllUses
              (node_id <$> getNodes (st_fn s)) (false, s))
    as (Hopts & Hsig & new & Hcalls & HP & Hnil).
  { intros id acc.
    destruct (removeClipBlockingFusion_step id acc)
      as [?|(? & ? & old & new & ?)]; [by left|right].
    repeat split; try done. exists [CallReplaceAllUsesOfWith old new].
    repeat split; try done. repeat constructor. by exists old, new. }
  simpl in *. split; [done|]. split.
  - intros Hfalse. destruct Hsig as [[_ ?]|Htrue]; [done|congruence].
  - exists new. repeat split; try done.
    + intros Htrue Hnew. rewrite (Hnil Hnew) in Htrue. done.
    + intros Hnew. destruct Hsig as [[_ Hs]|Htrue]; [|done].
      rewrite Hs in Hcalls. simpl in Hcalls.
      rewrite <- (app_nil_r (st_calls s)) in Hcalls at 1.
      by apply app_inv_head in Hcalls.
Qed.

Lemma findNode_elem F id N :
  findNode F id = Some N -> N ∈ getNodes F /\ node_id N = id.
Proof.
  unfold findNode. intros Hfind. apply find_some in Hfind as [Hin Hid].
  split; [by apply list_elem_of_In|by apply Nat.eqb_eq].
Qed.

(** X19: on a function without clip, and on a function without
    fully-connected node, the fusion-unblocking rewrite does nothing. *)
Theorem removeClipsBlockingFusion_needs_pattern (s : State) :
  Forall (fun N => node_kind N <> ClipNodeKind) (getNodes (st_fn s))
  \/ Forall (fun N => node_kind N <> FullyConnectedNodeKind)
            (getNodes (st_fn s)) ->
  removeClipsBlockingFusion E s = (false, s).
Proof.
  intros Hnone. unfold removeClipsBlockingFusion.
  generalize (node_id <$> getNodes (st_fn s)).
  assert (Hstep : forall id,
            removeClipBlockingFusion E id (false, s) = (false, s)).
  { intros id. unfold removeClipBlockingFusion, isa.
    destruct (findNode (st_fn s) id) as [clipActivation|] eqn:H1; [|done].
    apply findNode_elem in H1 as [H1 _].
    case_bool_decide as Hclip; cbn [negb]; [|done].
    destruct Hnone as [Hnone|Hnone].
    { rewrite Forall_forall in Hnone. by destruct (Hnone _ H1). }
    destruct (_ ≫= findNode _) as [activation|]; [|done].
    destruct (node_kind activation); try done.
    all: destruct (_ ≫= findNode _) as [clipFC|]; [|done].
    all: case_bool_decide; cbn [negb]; [|done].
    all: destruct (_ || _); [done|].
    all: destruct (_ ≫= findNode _) as [FC|] eqn:HFC; [|done].
    all: case_bool_decide as Hkind; cbn [negb]; [|done].
    all: apply bind_Some in HFC as (? & _ & HFC).
    all: apply findNode_elem in HFC as [HFC _].
    all: rewrite Forall_forall in Hnone.
    all: by destruct (Hnone _ HFC). }
  intros ids. induction ids as [|id ids IH]; cbn [fold_left];
    [reflexivity|].
  rewrite Hstep. exact IH.
Qed.

(** What one iteration of the required-node lowering does. *)
Lemma lowerRequiredNode_step N acc :
  let r := lowerRequiredNode E G N acc in
  (handedToLowerNode E G N = false /\ r = acc)
  \/ (r.1 = true /\ st_opts r.2 = st_opts acc.2
      /\ exists new,
           new <> []
           /\ (forall M, CallLowerNode M ∈ new ->
                 M = N /\ handedToLowerNode E G N = true)
           /\ (handedToLowerNode E G N = true -> CallLowerNode N ∈ new)
           /\ st_calls r.2 = st_calls acc.2 ++ new).
Proof.
  destruct acc as [changed s].
  unfold lowerRequiredNode, handedToLowerNode, lowerIt.
  assert (Hlower :
    (true = true /\ st_opts s = st_opts s
     /\ exists new,
          new <> []
          /\ (forall M, CallLowerNode M ∈ new -> M = N /\ true = true)
          /\ (true = true -> CallLowerNode N ∈ new)
          /\ st_calls s ++ [CallLowerNode N] = st_calls s ++ new)).
  { split; [done|]. split; [done|]. exists [CallLowerNode N].
    split; [done|]. split; [|split; [|done]].
    - intros M HM. apply list_elem_of_singleton in HM. split; congruence.
    - intros _. left. }
  destruct (isa BatchMatMulNodeKind N).
  { destruct (negb _ && negb _); cbn [negb fst snd st_opts st_calls withFn];
      [by left|by right]. }
  destruct (isa FusedRowwiseQuantizedSparseLengthsSumNodeKind N).
  { destruct (elemTypeIs _ _); cbn [negb fst snd st_opts st_calls withFn];
      [by left|by right]. }
  destruct (isa PReluNodeKind N).
  { destruct (elemTypeIs _ _); cbn [negb fst snd st_opts st_calls withFn];
      [by left|by right]. }
  destruct (isa ConvertToNodeKind N); [|by left].
  destruct (getNthResult N _) as [result|]; [|by left].
  destruct (getNthInput N _) as [input|]; [|by left].
  destruct (_ && elemTypeIs (Some input) BoolTy); [|by left].
  destruct (createSplat E (st_fn s) _ _ _) as [F1 s0].
  destruct (createSplat E F1 _ _ _) as [F2 s1].
  destruct (createSelect E F2 _ _ _ _) as [F3 sel].
  right. cbn [fst snd st_opts st_calls].
  split; [done|]. split; [done|]. eexists.
  split; [|split; [|split; [|reflexivity]]].
  - done.
  - intros M HM.
    repeat (apply elem_of_cons in HM as [HM|HM]; [discriminate HM|]).
    by apply not_elem_of_nil in HM.
  - done.
Qed.

Lemma lowerRequiredNodes_fold nodes acc :
  let r := fold_left (fun acc N => lowerRequiredNode E G N acc) nodes acc in
  st_opts r.2 = st_opts acc.2
  /\ (r.1 = acc.1 /\ r.2 = acc.2 \/ r.1 = true)
  /\ exists new,
       st_calls r.2 = st_calls acc.2 ++ new
       /\ (new = [] -> r = acc)
       /\ (forall M, CallLowerNode M ∈ new ->
             M ∈ nodes /\ handedToLowerNode E G M = true)
       /\ (forall M, M ∈ nodes -> handedToLowerNode E G M = true ->
             CallLowerNode M ∈ new).
Proof.
  revert acc. induction nodes as [|N nodes IH]; intros acc; simpl.
  - split; [done|]. split; [by left|]. exists []. rewrite app_nil_r.
    split; [done|]. split; [done|].
    split; intros M HM; by apply not_elem_of_nil in HM.
  - destruct (IH (lowerRequiredNode E G N acc))
      as (Hopts & Hsig & new2 & Hcalls & Hnil & Hin & Hout).
    destruct (lowerRequiredNode_step N acc)
      as [[Hno Heq]|(Htrue & Hopts1 & new1 & Hne & Hin1 & Hout1 & Hcalls1)].
    + rewrite Heq in *. split; [done|]. split; [done|]. exists new2.
      split; [done|]. split; [done|]. split.
      * intros M HM. destruct (Hin M HM). split; [by right|done].
      * intros M HM Hh. apply elem_of_cons in HM as [->|HM]; [congruence|].
        by apply Hout.
    + split; [congruence|]. split.
      * right. destruct Hsig as [[-> _]|Hsig]; done.
      * exists (new1 ++ new2). rewrite Hcalls, Hcalls1, app_assoc.
        split; [done|]. split.
        { intros Hnil'. apply app_eq_nil in Hnil' as [? _]. done. }
        split.
        { intros M HM. apply elem_of_app in HM as [HM|HM].
          - destruct (Hin1 M HM) as [-> ?]. split; [left|done].
          - destruct (Hin M HM). split; [by right|done]. }
        { intros M HM Hh. apply elem_of_app.
          apply elem_of_cons in HM as [->|HM]; [left|right]; auto. }
Qed.

(** X20: the required-node lowering never touches the options and reports
    a change exactly when it has issued a call to the graph; when it
    reports none the state is as it was. *)
Theorem lowerRequiredNodes_signal (s : State) :
  let r := lowerRequiredNodes E G s in
  st_opts r.2 = st_opts s
  /\ (r.1 = false -> r.2 = s)
  /\ exists new,
       st_calls r.2 = st_calls s ++ new /\ (r.1 = true <-> new <> []).
Proof.
  unfold lowerRequiredNodes.
  destruct (lowerRequiredNodes_fold (getNodes (st_fn s)) (false, s))
    as (Hopts & Hsig & new & Hcalls & Hnil & _).
  simpl in *. split; [done|]. split.
  - intros Hfalse. destruct Hsig as [[_ ?]|Htrue]; [done|congruence].
  - exists new. repeat split; try done.
    + intros Htrue Hnew. rewrite (Hnil Hnew) in Htrue. done.
    + intros Hnew. destruct Hsig as [[_ Hs]|Htrue]; [|done].
      rewrite Hs in Hcalls. simpl in Hcalls.
      rewrite <- (app_nil_r (st_calls s)) in Hcalls at 1.
      by apply app_inv_head in Hcalls.
Qed.

(** X21: a parametric ReLU or a fused-rowwise-quantized sparse-sum is
    handed to [lowerNode] exactly when its result is not 16-bit float, and
    a node of a kind other than these two and batched-matmul never is. *)
Theorem lowerRequiredNodes_float16_kept (F : Function)
    (opts : BackendOptions) (N : Node) :
  N ∈ getNodes F ->
  let calls := st_calls (lowerRequiredNodes E G (mkState F opts [])).2 in
  (forall idx result,
     (node_kind N = PReluNodeKind /\ idx = PReluNode_ResultIdx (layout E))
     \/ (node_kind N = FusedRowwiseQuantizedSparseLengthsSumNodeKind
         /\ idx = FusedRowwiseQuantizedSparseLengthsSumNode_ResultIdx
                    (layout E)) ->
     node_outTypes N !! idx = Some result ->
     CallLowerNode N ∈ calls <-> getElementType result <> Float16Ty)
  /\ (node_kind N <> PReluNodeKind ->
      node_kind N <> FusedRowwiseQuantizedSparseLengthsSumNodeKind ->
      node_kind N <> BatchMatMulNodeKind ->
      CallLowerNode N ∉ calls).
Proof.
  intros HN calls. subst calls. unfold lowerRequiredNodes. simpl.
  destruct (lowerRequiredNodes_fold (getNodes F) (false, mkState F opts []))
    as (_ & _ & new & -> & _ & Hin & Hout).
  simpl.
  assert (Hiff : CallLowerNode N ∈ new <-> handedToLowerNode E G N = true).
  { split; [intros H; by apply (Hin N H)|by apply Hout]. }
  split.
  - intros idx result Hk Hres. rewrite Hiff. unfold handedToLowerNode, isa.
    assert (Helem : forall k,
              elemTypeIs (getNthResult N idx) k = true
              <-> getElementType result = k).
    { intros k. unfold elemTypeIs, getNthResult. rewrite Hres. simpl.
      rewrite bool_decide_eq_true. split; [by intros [= ->]|by intros ->]. }
    destruct Hk as [[Hk ->]|[Hk ->]]; rewrite Hk;
      rewrite ?(bool_decide_eq_false_2 (_ = _)) by discriminate;
      rewrite ?(bool_decide_eq_true_2 (_ = _)) by reflexivity;
      cbv iota; rewrite negb_true_iff, <- not_true_iff_false;
      by rewrite Helem.
  - intros H1 H2 H3. rewrite Hiff. unfold handedToLowerNode, isa.
    by rewrite !bool_decide_eq_false_2 by done.
Qed.

Lemma parallelizeFunction_false use s :
  (parallelizeFunction E G use s).1 = Ok false ->
  (parallelizeFunction E G use s).2 = s.
Proof.
  unfold parallelizeFunction. repeat case_match; simpl; done.
Qed.

(** X22: in a build without private transforms (or with them disabled),
    [transformPostLowering] answers "unchanged" only when the function,
    the options and the log of rewrite calls are as they were. *)
Theorem transformPostLowering_unchanged (s s' : State) :
  transformPrivate E = None \/ GlowDisableNNPIPrivateTransforms G = true ->
  transformPostLowering E G s = (Ok false, s') ->
  s' = s.
Proof.
  intros Hprivate. unfold transformPostLowering.
  destruct (GlowDisableNNPITransforms G); [by intros [= <-]|].
  destruct (signal_fold (removeClipBlockingFusion E) isReplaceAllUses
              (node_id <$> getNodes (st_fn s)) (false, s))
    as (_ & Hsig1 & _).
  { intros id acc.
    destruct (removeClipBlockingFusion_step id acc)
      as [?|(? & ? & old & new & ?)]; [by left|right].
    repeat split; try done. exists [CallReplaceAllUsesOfWith old new].
    repeat split; try done. repeat constructor. by exists old, new. }
  fold (removeClipsBlockingFusion E s) in Hsig1.
  destruct (removeClipsBlockingFusion E s) as [changed s1].
  destruct (lowerRequiredNodes_fold (getNodes (st_fn s1)) (false, s1))
    as (_ & Hsig2 & _).
  fold (lowerRequiredNodes E G s1) in Hsig2.
  destruct (lowerRequiredNodes E G s1) as [lowered s2].
  pose proof (parallelizeFunction_false false s2) as Hpar.
  destruct (parallelizeFunction E G false s2) as [[parallelized|msg] s3];
    [|done].
  simpl in *.
  assert (Hres : (Ok (changed || lowered || parallelized), s3)
                 = (@Ok bool false, s') -> s' = s).
  { intros [= Hfalse <-].
    apply orb_false_iff in Hfalse as [Hfalse ->].
    apply orb_false_iff in Hfalse as [-> ->].
    rewrite Hpar by done.
    destruct Hsig2 as [[_ ->]|?]; [|done].
    destruct Hsig1 as [[_ ->]|?]; done. }
  destruct Hprivate as [-> | ->]; [exact Hres|].
  destruct (transformPrivate E); exact Hres.
Qed.

End RewriteSignalFacts.

(** ** The compilation entry point *)

Section CompileFacts.

Context (E : Collaborators) (G : Flags).
Context {NNPICompiledFunction : Type}.
Context (runFinalizeFPM : Function -> Function).
Context (make_unique : Function -> NNPICompiledFunction).
Context (compileFunction :
           NNPICompiledFunction -> Function -> BackendOptions
           -> Error * NNPICompiledFunction).

(** What the state is when the directive-driven planner reports a
    change. *)
Lemma parallelizeFunction_true s s' :
  parallelizeFunction E G true s = (Ok true, s') ->
  st_calls s' = st_calls s ++ [CallParallelizeOps]
  /\ backendSpecificOpts (st_opts s') = backendSpecificOpts (st_opts s)
  /\ exists currFunInfo',
       backendSpecificNodeInfo (st_opts s') !! fun_id (st_fn s')
       = Some currFunInfo'
       /\ Forall (noHintLeft E currFunInfo') (getNodes (st_fn s')).
Proof.
  unfold parallelizeFunction.
  destruct (backendSpecificNodeInfo (st_opts s) !! fun_id (st_fn s));
    [|done].
  destruct (bindE _ _) as [[[[numChunks parOpts] n]|]|msg]; try done.
  destruct (negb _); [done|]. destruct (_ =? 0)%nat; [done|].
  destruct (parallelizeOps E _ _ _ _) as [F' [replacedMap|msg]];
    [|done].
  destruct (negb _); [done|].
  unfold validateBackendSpecificNodeInfo.
  destruct (backendSpecificNodeInfo (st_opts s) !! fun_id F')
    as [currFunInfo|]; [|done].
  destruct (validateReplaced E F' replacedMap currFunInfo)
    as [[[]|msg] currFunInfo']; [|done].
  destruct (validateRemaining E currFunInfo' (getNodes F'))
    as [[]|msg'] eqn:Hrest'; [|done].
  intros [= <-]. cbn [st_calls st_opts st_fn withFn backendSpecificOpts
                      backendSpecificNodeInfo].
  split; [done|]. split; [done|]. exists currFunInfo'.
  rewrite lookup_insert_eq. split; [done|].
  by apply validateRemaining_success.
Qed.

(** X23: the device compiler is called at most once, as the last step.
    What it receives is either the function and the options as [compile]
    got them, nothing having been done before, or the function the
    planner has split, after the clean-up passes, with the string options
    as given and annotations that carry no parallelization or placement
    key on any node of the split function. *)
Theorem compile_device_input (F F' : Function)
    (opts opts' : BackendOptions) :
  StepDeviceCompile F' opts'
  ∈ (compile E G runFinalizeFPM make_unique compileFunction F opts).2 ->
  ((compile E G runFinalizeFPM make_unique compileFunction F opts).2
   = [StepDeviceCompile F opts]
   /\ F' = F /\ opts' = opts)
  \/ (exists F1 currFunInfo',
        (compile E G runFinalizeFPM make_unique compileFunction F opts).2
        = [StepGraph CallParallelizeOps; StepFinalizeFPM F1;
           StepDeviceCompile (runFinalizeFPM F1) opts']
        /\ F' = runFinalizeFPM F1
        /\ backendSpecificOpts opts' = backendSpecificOpts opts
        /\ backendSpecificNodeInfo opts' !! fun_id F1 = Some currFunInfo'
        /\ Forall (noHintLeft E currFunInfo') (getNodes F1)).
Proof.
  unfold compile.
  pose proof (parallelizeFunction_false E G true (mkState F opts []))
    as Hfalse.
  pose proof (parallelizeFunction_true (mkState F opts [])) as Htrue.
  destruct (parallelizeFunction E G true (mkState F opts []))
    as [[[|]|msg] s].
  - destruct (Htrue s eq_refl) as (Hcalls & Hopts & currFunInfo' & Hinfo
                                   & Hnone).
    cbn [st_calls st_opts app] in Hcalls, Hopts. rewrite Hcalls.
    destruct (compileFunction _ _ _) as [[[]|msg] compiledFunc];
      cbn [fst snd fmap list_fmap app].
    all: intros Hin; right; exists (st_fn s), currFunInfo'.
    all: repeat (apply elem_of_cons in Hin as [Hin|Hin];
                 [try discriminate Hin|]);
      try (by apply not_elem_of_nil in Hin).
    all: injection Hin as -> ->; done.
  - cbn [fst snd] in Hfalse. rewrite (Hfalse eq_refl).
    cbn [st_calls st_fn st_opts fmap list_fmap app].
    destruct (compileFunction _ _ _) as [[[]|msg] compiledFunc];
      cbn [fst snd].
    all: intros Hin; left.
    all: apply list_elem_of_singleton in Hin; injection Hin as -> ->; done.
  - cbn [snd]. intros Hin.
    apply list_elem_of_fmap in Hin as (call & Hcall & _). discriminate.
Qed.

(** X24: when a node of the function carries a bad directive (a
    transform-kind other than "Data", "Model" and "None", a Data or Model
    transform-kind without chunk-count, or a Data or Model transform-kind
    whose chunk-count is not a single integer above 1), [compile] fails
    before anything is done: no graph call, no clean-up pass, and the
    device compiler is not called. *)
Theorem compile_bad_directive (F : Function) (opts : BackendOptions)
    (currFunInfo : FunctionNodeInfo) (node : Node)
    (nodeInfo : NodeAnnotations) :
  backendSpecificNodeInfo opts !! fun_id F = Some currFunInfo ->
  node ∈ getNodes F ->
  currFunInfo !! node_id node = Some nodeInfo ->
  BadDirective E nodeInfo ->
  exists msg,
    compile E G runFinalizeFPM make_unique compileFunction F opts
    = (Err msg, []).
Proof.
  intros Hinfo Hin Hnode Hbad. unfold compile, parallelizeFunction.
  cbn [st_fn st_opts]. rewrite Hinfo.
  unfold setupPerNodeParallelizationConfigs. rewrite Hinfo.
  pose proof (setupPerNodeLoop_bad E currFunInfo (getNodes F) node (∅, ∅)
                Hin) as Hloop.
  destruct (setupPerNodeLoop E currFunInfo (getNodes F) (∅, ∅))
    as [maps|msg].
  - exfalso. apply Hloop. intros st'.
    by apply (setupPerNode_bad E currFunInfo node nodeInfo).
  - by exists msg.
Qed.

End CompileFacts.

(** ** The binder: traversal, usage table, bind calls *)

Set Warnings "-clear-no-such-hyp".

Section BinderWalkFacts.

(** Induction on a DAG node with the property at hand for its
    children. *)
Lemma DAGNode_children_ind (P : DAGNode -> Prop) :
  (forall i nm b cs, Forall P cs -> P (mkDAGNode i nm b cs)) ->
  forall n, P n.
Proof.
  intros Hnode. fix IH 1. intros [i nm b cs]. apply Hnode.
  induction cs as [|c cs IHcs]; constructor; [apply IH|apply IHcs].
Qed.

(** What a traversal adds to the post order and to the visited set: the
    nodes added were not visited, no address among them is repeated, the
    node itself comes last, and the children of the node are visited. *)
Lemma traversePostOrder_spec (root : DAGNode) :
  forall st : gset nat * list DAGNode,
    exists new,
      (traversePostOrder root st).2 = st.2 ++ new ++ [root]
      /\ (traversePostOrder root st).1
         = st.1 ∪ {[dag_id root]} ∪ list_to_set (dag_id <$> new)
      /\ NoDup (dag_id <$> new)
      /\ (forall x, x ∈ new ->
            (dag_id x ∉ st.1) /\ dag_id x <> dag_id root)
      /\ (forall c, c ∈ children root ->
            dag_id c ∈ (traversePostOrder root st).1).
Proof.
  induction root as [i nm b cs IH] using DAGNode_children_ind.
  intros st. cbn [traversePostOrder].
  set (visit := fix visit (cs : list DAGNode)
                  (st : gset nat * list DAGNode) :=
                  match cs with
                  | [] => st
                  | c :: cs' =>
                      visit cs'
                        (if bool_decide (dag_id c ∈ st.1) then st
                         else traversePostOrder c st)
                  end).
  assert (Hvisit : forall st1 : gset nat * list DAGNode,
    exists new,
      (visit cs st1).2 = st1.2 ++ new
      /\ (visit cs st1).1 = st1.1 ∪ list_to_set (dag_id <$> new)
      /\ NoDup (dag_id <$> new)
      /\ (forall x, x ∈ new -> dag_id x ∉ st1.1)
      /\ (forall c, c ∈ cs -> dag_id c ∈ (visit cs st1).1)).
  { clear st. induction cs as [|c cs IHcs]; intros st1.
    - exists []. cbn [visit]. rewrite app_nil_r. simpl.
      split; [done|]. split; [set_solver|]. split; [constructor|].
      split; intros x Hx; by apply not_elem_of_nil in Hx.
    - apply Forall_cons in IH as [IHc IH]. specialize (IHcs IH).
      cbn [visit]. fold visit. case_bool_decide as Hseen.
      + destruct (IHcs st1) as (new & H2 & H1 & Hnd & Hfresh & Hch).
        exists new. repeat split; try done.
        intros c' Hc'. apply elem_of_cons in Hc' as [->|Hc']; [|auto].
        rewrite H1. set_solver.
      + destruct (IHc st1) as (newc & Hc2 & Hc1 & Hcnd & Hcfresh & _).
        destruct (IHcs (traversePostOrder c st1))
          as (new & H2 & H1 & Hnd & Hfresh & Hch).
        exists ((newc ++ [c]) ++ new).
        rewrite H2, Hc2, H1, Hc1, !fmap_app, !list_to_set_app_L.
        repeat split.
        * by rewrite !app_assoc.
        * simpl. set_solver.
        * apply NoDup_app. split; [|split; [|done]].
          { apply NoDup_app. split; [done|]. split; [|repeat constructor;
              by intros ?%not_elem_of_nil].
            intros y Hy Hy'. apply list_elem_of_singleton in Hy'.
            apply list_elem_of_fmap in Hy as (x & -> & Hx).
            by destruct (Hcfresh x Hx). }
          intros y Hy Hy'.
          apply list_elem_of_fmap in Hy' as (x & -> & Hx).
          apply Hfresh in Hx. apply Hx. rewrite Hc1.
          apply elem_of_app in Hy as [Hy|Hy]; [|set_solver].
          apply elem_of_union_r, elem_of_list_to_set. done.
        * intros x Hx. apply elem_of_app in Hx as [Hx|Hx].
          { apply elem_of_app in Hx as [Hx|Hx].
            - by destruct (Hcfresh x Hx).
            - by apply list_elem_of_singleton in Hx as ->. }
          apply Hfresh in Hx. rewrite Hc1 in Hx. set_solver.
        * intros c' Hc'. apply elem_of_cons in Hc' as [->|Hc'].
          { set_solver. }
          specialize (Hch c' Hc'). rewrite H1, Hc1 in Hch.
          set_solver. }
  destruct (Hvisit ({[i]} ∪ st.1, st.2))
    as (new & H2 & H1 & Hnd & Hfresh & Hch).
  exists new. cbn [fst snd] in *. rewrite H2, H1.
  split; [by rewrite app_assoc|]. split; [set_solver|].
  split; [done|]. split.
  - intros x Hx. apply Hfresh in Hx. simpl. set_solver.
  - intros c Hc. simpl in Hc. apply Hch in Hc. by rewrite H1 in Hc.
Qed.

(** X25: the post order of a device DAG ends with the root, lists no
    address twice, and holds every child of the root ahead of the
    root. *)
Theorem traversePostOrder_post_order (root : DAGNode) :
  exists earlier,
    postOrderOf (Some root) = earlier ++ [root]
    /\ NoDup (dag_id <$> postOrderOf (Some root))
    /\ (forall c, c ∈ children root ->
          dag_id c = dag_id root \/ dag_id c ∈ dag_id <$> earlier).
Proof.
  unfold postOrderOf.
  destruct (traversePostOrder_spec root (∅, []))
    as (new & H2 & H1 & Hnd & Hfresh & Hch).
  exists new. rewrite H2. simpl. split; [done|]. split.
  - rewrite fmap_app. apply NoDup_app. split; [done|].
    split; [|repeat constructor; by intros ?%not_elem_of_nil].
    intros y Hy Hy'. apply list_elem_of_singleton in Hy'.
    apply list_elem_of_fmap in Hy as (x & -> & Hx).
    by destruct (Hfresh x Hx).
  - intros c Hc. apply Hch in Hc. rewrite H1 in Hc. simpl in Hc.
    destruct (decide (dag_id c = dag_id root)) as [|Hne]; [by left|right].
    assert (Hset : dag_id c ∈ (list_to_set (dag_id <$> new) : gset nat))
      by set_solver.
    by apply elem_of_list_to_set in Hset.
Qed.

End BinderWalkFacts.

Section BinderLogFacts.

Lemma collectUsage_ok bindings phUsage phUsage' calls :
  collectUsage bindings phUsage = (Ok phUsage', calls) ->
  calls = AddPlaceholderUsageCount ∘ networkName <$> bindings
  /\ Forall (fun cb => is_Some (dynamic_cast (device cb))) bindings.
Proof.
  revert phUsage calls.
  induction bindings as [|cb bindings IH]; intros phUsage calls; simpl.
  - intros [= _ <-]. split; [done|constructor].
  - destruct (dynamic_cast (device cb)) as [nnpiDM|] eqn:Hcast; [|done].
    destruct (collectUsage bindings _) as [res calls'] eqn:Hrest.
    intros [= -> <-]. destruct (IH _ _ Hrest) as [-> Hall].
    split; [done|]. constructor; [by rewrite Hcast|done].
Qed.

Lemma collectUsage_invalid good bad rest phUsage :
  Forall (fun cb => is_Some (dynamic_cast (device cb))) good ->
  dynamic_cast (device bad) = None ->
  collectUsage (good ++ bad :: rest) phUsage
  = (Err "Invalid device manager",
     AddPlaceholderUsageCount ∘ networkName <$> good).
Proof.
  intros Hgood Hbad. revert phUsage.
  induction Hgood as [|cb good [nnpiDM Hcast] _ IH]; intros phUsage; simpl.
  - by rewrite Hbad.
  - rewrite Hcast. by rewrite IH.
Qed.

(** X26: when a binding's device is not an NNPI device manager, the
    binder fails with "Invalid device manager" after it has asked the
    devices of the bindings before it for their usage, and before any
    usage check or bind call. *)
Theorem bindContexts_invalid_device (backendOptions_ : NNPIBackendOptions)
    (good : list ContextBinding) (bad : ContextBinding)
    (rest : list ContextBinding) (root : option DAGNode)
    (enableP2P enableDRT : bool) :
  Forall (fun cb => is_Some (dynamic_cast (device cb))) good ->
  dynamic_cast (device bad) = None ->
  bindContexts backendOptions_ (good ++ bad :: rest) root
    enableP2P enableDRT
  = (Err "Invalid device manager",
     dotOpen backendOptions_
     ++ (AddPlaceholderUsageCount ∘ networkName <$> good)).
Proof.
  intros Hgood Hbad. unfold bindContexts.
  by rewrite (collectUsage_invalid good bad rest ∅ Hgood Hbad).
Qed.

Lemma markUsage_ok entries enableP2P enableDRT acc result :
  NoDup entries.*1 ->
  markUsage entries enableP2P enableDRT acc = Ok result ->
  Forall (fun e => (numWriters e.2 < 2)%N) entries
  /\ result
     = (withFlags enableP2P enableDRT <$> list_to_map entries) ∪ acc.
Proof.
  revert acc. induction entries as [|[k u] entries IH]; intros acc Hnd.
  - simpl. intros [= <-]. split; [constructor|].
    by rewrite fmap_empty, (left_id_L ∅ (∪)).
  - rewrite fmap_cons in Hnd. apply NoDup_cons in Hnd as [Hk Hnd].
    cbn [markUsage]. destruct (numWriters u <? 2)%N eqn:Hu; [|done].
    intros Hrest. destruct (IH _ Hnd Hrest) as [Hall ->].
    split; [constructor; [by apply N.ltb_lt|done]|].
    cbn [list_to_map foldr uncurry fst snd]. rewrite fmap_insert.
    fold (withFlags enableP2P enableDRT u).
    rewrite <- insert_union_l. rewrite <- insert_union_r; [done|].
    rewrite lookup_fmap. apply fmap_None.
    by apply not_elem_of_list_to_map_1.
Qed.

Lemma markUsage_all entries enableP2P enableDRT acc :
  Forall (fun e => (numWriters e.2 < 2)%N) entries ->
  exists result, markUsage entries enableP2P enableDRT acc = Ok result.
Proof.
  intros Hall. revert acc.
  induction Hall as [|[k u] entries Hu _ IH]; intros acc;
    cbn [markUsage].
  - by exists acc.
  - cbn [snd] in Hu. rewrite (proj2 (N.ltb_lt _ _) Hu). apply IH.
Qed.

(** X27: the loop over the usage table succeeds exactly when no
    placeholder has two writers or more, and it then leaves every record
    with its counts and tensor as they were and with the two transfer
    flags of the bind operation. *)
Theorem markUsage_flags (phUsage : PlaceholderUsageMap)
    (enableP2P enableDRT : bool) :
  (forall result,
     markUsage (map_to_list phUsage) enableP2P enableDRT phUsage = Ok result
     -> result = withFlags enableP2P enableDRT <$> phUsage)
  /\ ((exists result,
         markUsage (map_to_list phUsage) enableP2P enableDRT phUsage
         = Ok result)
      <-> forall ph usage,
            phUsage !! ph = Some usage -> (numWriters usage < 2)%N).
Proof.
  split; [|split].
  - intros result Hok.
    apply markUsage_ok in Hok as [_ ->]; [|apply NoDup_fst_map_to_list].
    rewrite list_to_map_to_list. apply map_eq. intros ph.
    rewrite lookup_union, !lookup_fmap.
    by destruct (phUsage !! ph).
  - intros [result Hok] ph usage Hph.
    apply markUsage_ok in Hok as [Hall _]; [|apply NoDup_fst_map_to_list].
    rewrite Forall_forall in Hall.
    by apply (Hall (ph, usage)), elem_of_map_to_list.
  - intros Hall. apply markUsage_all, Forall_forall.
    intros [ph usage] Hin. apply elem_of_map_to_list in Hin.
    by apply (Hall ph usage).
Qed.

Lemma findBinding_elem bindings nodeName ctx devMgr :
  findBinding bindings nodeName = (ctx, Some devMgr) ->
  exists cb, cb ∈ bindings /\ device cb = Some devMgr.
Proof.
  induction bindings as [|cb bindings IH]; simpl; [done|].
  destruct (String.eqb _ _).
  - intros [= _ Hdev]. exists cb. split; [left|done].
  - intros Hrest. destruct (IH Hrest) as (cb' & Hin & Hdev).
    exists cb'. split; [by right|done].
Qed.

(** What the loop over the DAG nodes logs: bind calls for the partitions
    to bind, in the order of the walk, up to the one that fails, if
    any. *)
Lemma bindNodes_log bindings postOrder phUsage :
  Forall (fun cb => is_Some (dynamic_cast (device cb))) bindings ->
  ((bindNodes bindings postOrder phUsage).1 = success
   /\ (bindNodes bindings postOrder phUsage).2
      = BindContext ∘ name <$> List.filter (toBind bindings) postOrder)
  \/ ((bindNodes bindings postOrder phUsage).1
       = Err "Failed to bind context"
      /\ exists bound failed later,
           List.filter (toBind bindings) postOrder
           = bound ++ failed :: later
           /\ (bindNodes bindings postOrder phUsage).2
              = (BindContext ∘ name <$> bound)
                ++ [BindContext (name failed)]).
Proof.
  intros Hdev. revert phUsage.
  induction postOrder as [|dagNode postOrder IH]; intros phUsage;
    cbn [bindNodes List.filter]; [by left|].
  destruct (toBind bindings dagNode) eqn:Hbind; unfold toBind in Hbind.
  - apply andb_true_iff in Hbind as [-> Hfind]. cbn [negb].
    destruct (findBinding bindings (name dagNode)) as [[ctx|] [devMgr|]]
      eqn:Hfound; try done.
    destruct (findBinding_elem _ _ _ _ Hfound) as (cb & Hin & Hcb).
    rewrite Forall_forall in Hdev. pose proof (Hdev cb Hin) as Hcast.
    rewrite Hcb in Hcast. destruct Hcast as [nnpiDM ->].
    destruct (bindContext nnpiDM _ _ _); cbn [negb].
    + right. split; [done|].
      by exists [], dagNode, (List.filter (toBind bindings) postOrder).
    + specialize (IH (updateTensors ctx phUsage)).
      destruct (bindNodes bindings postOrder _) as [res calls].
      cbn [fst snd] in *.
      destruct IH as [[-> ->]|(-> & bound & failed & later & Hsplit & ->)].
      * by left.
      * right. split; [done|].
        exists (dagNode :: bound), failed, later. by rewrite Hsplit.
  - destruct (String.eqb (backendName dagNode) "NNPI"); cbn [negb];
      [|apply IH].
    cbn [andb] in Hbind.
    destruct (findBinding bindings (name dagNode)) as [[ctx|] [devMgr|]];
      try done; apply IH.
Qed.


(** X29: when a device fails to bind a partition, the binder stops there:
    the failing bind call is the last entry of the log, after the bind
    calls of the partitions that precede it in post order; nothing else
    is bound, nothing is undone, and the dump is not written. *)
Theorem bindContexts_bind_failure (backendOptions_ : NNPIBackendOptions)
    (bindings : list ContextBinding) (root : option DAGNode)
    (enableP2P enableDRT : bool) :
  (bindContexts backendOptions_ bindings root enableP2P enableDRT).1
  = Err "Failed to bind context" ->
  exists bound failed later,
    List.filter (toBind bindings) (postOrderOf root)
    = bound ++ failed :: later
    /\ (bindContexts backendOptions_ bindings root enableP2P enableDRT).2
       = dotOpen backendOptions_
         ++ (AddPlaceholderUsageCount ∘ networkName <$> bindings)
         ++ (BindContext ∘ name <$> bound)
         ++ [BindContext (name failed)].
Proof.
  unfold bindContexts. fold (postOrderOf root). fold (dotOpen backendOptions_).
  destruct (collectUsage bindings ∅) as [[phUsage|msg] calls] eqn:Hcollect.
  2:{ simpl. intros [= ->].
      clear -Hcollect. exfalso. revert Hcollect. generalize (∅ : PlaceholderUsageMap).
      generalize dependent calls.
      induction bindings as [|cb bindings IH]; intros calls acc; simpl;
        [done|].
      destruct (dynamic_cast (device cb)); [|done].
      destruct (collectUsage bindings _) as [res calls'] eqn:Hrest.
      intros [= -> <-]. by apply (IH _ _ Hrest). }
  apply collectUsage_ok in Hcollect as [-> Hdev].
  destruct (markUsage _ _ _ _) as [phUsage'|msg] eqn:Hmark.
  2:{ simpl. intros [= ->]. exfalso. revert Hmark.
      generalize phUsage at 2. generalize (map_to_list phUsage).
      intros entries. induction entries as [|[k u] entries IH];
        intros acc; simpl; [done|].
      destruct (numWriters u <? 2)%N; [apply IH|done]. }
  pose proof (bindNodes_log bindings (postOrderOf root) phUsage' Hdev)
    as Hlog.
  destruct (bindNodes bindings (postOrderOf root) phUsage')
    as [[[]|msg] calls]; [done|].
  cbn [fst snd] in *.
  destruct Hlog as [[? _]|(_ & bound & failed & later & ? & ->)]; [done|].
  intros _. by exists bound, failed, later.
Qed.

(** X30: once the usage of every binding has been collected, the device of
    a binding is known to be an NNPI device manager, so the binder never
    fails with "Invalid device manager bound". *)
Theorem bindContexts_device_known (backendOptions_ : NNPIBackendOptions)
    (bindings : list ContextBinding) (root : option DAGNode)
    (enableP2P enableDRT : bool) :
  (bindContexts backendOptions_ bindings root enableP2P enableDRT).1
  <> Err "Invalid device manager bound".
Proof.
  unfold bindContexts. fold (postOrderOf root).
  destruct (collectUsage bindings ∅) as [[phUsage|msg] calls] eqn:Hcollect.
  2:{ simpl. intros [= ->].
      clear -Hcollect. revert Hcollect. generalize (∅ : PlaceholderUsageMap).
      generalize dependent calls.
      induction bindings as [|cb bindings IH]; intros calls acc; simpl;
        [done|].
      destruct (dynamic_cast (device cb)); [|done].
      destruct (collectUsage bindings _) as [res calls'] eqn:Hrest.
      intros [= -> <-]. by apply (IH _ _ Hrest). }
  apply collectUsage_ok in Hcollect as [-> Hdev].
  destruct (markUsage _ _ _ _) as [phUsage'|msg] eqn:Hmark.
  2:{ simpl. intros [= ->]. revert Hmark.
      generalize phUsage at 2. generalize (map_to_list phUsage).
      intros entries. induction entries as [|[k u] entries IH];
        intros acc; simpl; [done|].
      destruct (numWriters u <? 2)%N; [apply IH|done]. }
  pose proof (bindNodes_log bindings (postOrderOf root) phUsage' Hdev)
    as Hlog.
  destruct (bindNodes bindings (postOrderOf root) phUsage')
    as [[[]|msg] calls]; [done|].
  cbn [fst snd] in *. destruct Hlog as [[? _]|([= ->] & _)]; done.
Qed.

End BinderLogFacts.

(** ** The further properties on the sample inputs *)

Lemma acceptForExecution_narrows_witness :
  isOpSupported sampleE slsWide = true
  /\ (GlowNNPIAcceptUnarySLS acceptUnary = true ->
      acceptForExecution sampleE acceptUnary slsWide = true).
Proof.
  apply (acceptForExecution_narrows sampleE flagsOff slsWide acceptUnary).
  vm_compute. reflexivity.
Defined.

Lemma supported_clip_not_lowered_witness :
  shouldLower sampleE optionsOff (clipOf 31 11 float_0 six) = false.
Proof.
  apply (supported_clip_not_lowered sampleE optionsOff
           (clipOf 31 11 float_0 six) wide).
  - reflexivity.
  - reflexivity.
  - vm_compute. reflexivity.
Defined.

Lemma supported_batchMatMul_kept_witness :
  lowerRequiredNode sampleE flagsOff bmmF16
    (false, mkState (fn [bmmF16]) noOpts [])
  = (false, mkState (fn [bmmF16]) noOpts []).
Proof.
  apply (supported_batchMatMul_kept sampleE flagsOff bmmF16
           (false, mkState (fn [bmmF16]) noOpts [])).
  - reflexivity.
  - left. discriminate.
  - vm_compute. reflexivity.
  - reflexivity.
Defined.

Lemma native_logit_float16_witness :
  (isOpSupported sampleE (NodeInfo_of logitF16) = true
   /\ shouldLower sampleE optionsOff logitF16 = false)
  /\ exists t,
       t ∈ inTypes_ (NodeInfo_of logitF16) ++ outTypes_ (NodeInfo_of logitF16)
       /\ getElementType t = Float16Ty.
Proof.
  assert (Hkind : node_kind logitF16 = LogitNodeKind) by reflexivity.
  assert (Hsome : getInputs logitF16 <> [] \/ node_outTypes logitF16 <> [])
    by (left; discriminate).
  assert (H16 : allTensorsAre Float16Ty (NodeInfo_of logitF16) = true)
    by (vm_compute; reflexivity).
  destruct (proj1 (native_logit_float16 sampleE optionsOff logitF16 Hkind)
              Hsome H16) as [Hsup Hkeep].
  split; [by split|].
  apply (proj2 (native_logit_float16 sampleE optionsOff logitF16 Hkind)
           Hsup Hkeep).
Defined.

Lemma rewritten_conversion_unsupported_witness :
  isOpSupported sampleE (NodeInfo_of boolToFloat) = false.
Proof.
  apply (rewritten_conversion_unsupported sampleE flagsOff boolToFloat
           (mkState (fn [boolToFloat]) noOpts [])).
  - reflexivity.
  - vm_compute. reflexivity.
Defined.

Lemma planning_tables_agree_witness :
  dom planOfDataTwice.1 = dom planOfDataTwice.2
  /\ size planOfDataTwice.1 = size planOfDataTwice.2.
Proof.
  apply (proj2 (planning_tables_agree sampleE fcFunction 2
                  (infoOf splitInfo)) planOfDataTwice).
  vm_compute. reflexivity.
Defined.

Lemma setupBasic_entries_witness :
  4%Z = to_size_t 4 /\ 11 ∈ node_id <$> getPostOrder sampleE fcFunction.
Proof.
  apply (proj1 (setupBasic_entries sampleE fcFunction 4 11) 4%Z).
  vm_compute. reflexivity.
Defined.

Lemma setupBasic_data_kinds_witness :
  let maps :=
    setupBasicParallelizationConfigs sampleE (fn [bmmF16; reluF16])
      (∅, ∅) 4 in
  maps.2 !! 3 = Some PTK_Data /\ maps.1 !! 3 = Some 4%Z.
Proof.
  assert (Hn : (1 < 4 < 2 ^ 31)%Z) by lia.
  assert (Hnodup : NoDup (node_id <$> getPostOrder sampleE
                                        (fn [bmmF16; reluF16])))
    by by_compute.
  apply (setupBasic_data_kinds sampleE (fn [bmmF16; reluF16]) 4 bmmF16
           Hn Hnodup).
  - repeat constructor.
  - do 3 right. reflexivity.
Defined.

Lemma setupBasic_elementwise_witness :
  let maps :=
    setupBasicParallelizationConfigs sampleE (fn [tanhWide; tanhNarrow])
      (∅, ∅) 4 in
  (maps.2 !! 51 = Some PTK_Data /\ maps.1 !! 51 = Some 4%Z)
  /\ (maps.2 !! 52 = None /\ maps.1 !! 52 = None).
Proof.
  assert (Hn : (1 < 4 < 2 ^ 31)%Z) by lia.
  assert (Hnodup : NoDup (node_id <$> getPostOrder sampleE
                                        (fn [tanhWide; tanhNarrow])))
    by by_compute.
  split.
  - apply (proj1 (setupBasic_elementwise sampleE
                    (fn [tanhWide; tanhNarrow]) 4 tanhWide ActivationIOIdx
                    Hn Hnodup ltac:(repeat constructor)
                    (or_introl (conj eq_refl eq_refl)))).
    split; by_compute.
  - apply (proj2 (setupBasic_elementwise sampleE
                    (fn [tanhWide; tanhNarrow]) 4 tanhNarrow ActivationIOIdx
                    Hn Hnodup ltac:(repeat constructor)
                    (or_introl (conj eq_refl eq_refl)))).
    right. by_compute.
Defined.

Lemma setupBasic_clip_mirrors_witness :
  let maps :=
    setupBasicParallelizationConfigs sampleE (clipChain six) (∅, ∅) 4 in
  maps.1 !! 31 = maps.1 !! 11 /\ maps.2 !! 31 = maps.2 !! 11.
Proof.
  assert (Hnodup : NoDup (node_id <$> getPostOrder sampleE (clipChain six)))
    by by_compute.
  apply (setupBasic_clip_mirrors sampleE (clipChain six) 4
           (clipOf 31 11 float_0 six) (mkNodeValue 11 0 wide) [fcWide]
           [reluOf 32 31; clipOf 33 32 float_0 six] eq_refl Hnodup
           eq_refl eq_refl).
  by_compute.
Defined.

Lemma setupBasic_relu_after_fc_witness :
  let maps :=
    setupBasicParallelizationConfigs sampleE reluAfterFc (∅, ∅) 4 in
  maps.2 !! 34 = Some PTK_Model /\ maps.1 !! 34 = Some 4%Z.
Proof.
  assert (Hn : (1 < 4 < 2 ^ 31)%Z) by lia.
  assert (Hnodup : NoDup (node_id <$> getPostOrder sampleE reluAfterFc))
    by by_compute.
  apply (proj1 (setupBasic_relu_after_fc sampleE reluAfterFc 4
                  (reluOf 34 11) fcWide (mkNodeValue 11 0 wide) 32 512 []
                  Hn Hnodup ltac:(repeat constructor) eq_refl eq_refl
                  eq_refl eq_refl eq_refl)).
  lia.
Defined.

Lemma setupBasic_relu_follows_input_witness :
  let maps :=
    setupBasicParallelizationConfigs sampleE (clipChain six) (∅, ∅) 4 in
  maps.2 !! 32 = Some PTK_Data /\ maps.1 !! 32 = Some 4%Z.
Proof.
  assert (Hn : (1 < 4 < 2 ^ 31)%Z) by lia.
  assert (Hnodup : NoDup (node_id <$> getPostOrder sampleE (clipChain six)))
    by by_compute.
  assert (Hlater : getNode (mkNodeValue 31 0 wide)
                   ∉ node_id <$> [reluOf 32 31; clipOf 33 32 float_0 six])
    by by_compute.
  apply (proj1 (setupBasic_relu_follows_input sampleE (clipChain six) 4
                  (reluOf 32 31) (mkNodeValue 31 0 wide)
                  [fcWide; clipOf 31 11 float_0 six]
                  [clipOf 33 32 float_0 six] Hn eq_refl Hnodup eq_refl
                  eq_refl eq_refl Hlater)).
  exists 4%Z. vm_compute. reflexivity.
Defined.

Lemma setupPerNode_plans_directives_witness :
  exists currFunInfo nodeInfo k n,
    infoOf splitInfo !! fun_id fcFunction = Some currFunInfo
    /\ 11 ∈ node_id <$> getNodes fcFunction
    /\ currFunInfo !! 11 = Some nodeInfo
    /\ GoodDirective sampleE nodeInfo k n
    /\ 2%Z = to_size_t n
    /\ planOfDataTwice.2 !! 11 = Some k.
Proof.
  apply (setupPerNode_plans_directives sampleE fcFunction
           (infoOf splitInfo) planOfDataTwice 11 2).
  - vm_compute. reflexivity.
  - vm_compute. reflexivity.
Defined.

Lemma setupPerNode_directive_planned_witness :
  planOfDataTwice.1 !! node_id fcWide = Some (to_size_t 2)
  /\ planOfDataTwice.2 !! node_id fcWide = Some PTK_Data.
Proof.
  assert (Hok : setupPerNodeParallelizationConfigs sampleE fcFunction
                  (∅, ∅) (infoOf splitInfo) = Ok planOfDataTwice)
    by (vm_compute; reflexivity).
  assert (Hinfo : infoOf splitInfo !! fun_id fcFunction = Some splitInfo)
    by (vm_compute; reflexivity).
  assert (Hnode : splitInfo !! node_id fcWide = Some dataTwice)
    by (vm_compute; reflexivity).
  apply (setupPerNode_directive_planned sampleE fcFunction
           (infoOf splitInfo) splitInfo planOfDataTwice fcWide dataTwice
           PTK_Data 2 Hok Hinfo).
  - repeat constructor.
  - exact Hnode.
  - exists "Data", "2". split; [vm_compute; reflexivity|].
    split; [by left|]. split; [vm_compute; reflexivity|].
    split; [vm_compute; reflexivity|lia].
Defined.

Lemma validateBackendSpecificNodeInfo_frame_witness :
  (validateBackendSpecificNodeInfo sampleE splitFunction
     [(fcWide, concatOfHalves)] (<[8 := onlyNone]> (infoOf splitInfo))).2
  !! 8
  = <[8 := onlyNone]> (infoOf splitInfo) !! 8.
Proof.
  apply (proj1 (validateBackendSpecificNodeInfo_frame sampleE splitFunction
                  [(fcWide, concatOfHalves)]
                  (<[8 := onlyNone]> (infoOf splitInfo))) 8).
  discriminate.
Defined.

Lemma parallelizeFunction_frame_witness :
  st_calls (parallelizeFunction splitE flagsOff true annotated).2
  = st_calls annotated ++ [CallParallelizeOps].
Proof.
  apply (proj1 (proj2 (parallelizeFunction_frame splitE flagsOff true
                         annotated))).
  vm_compute. reflexivity.
Defined.

Lemma parallelizeFunction_consumes_directives_witness :
  exists currFunInfo',
    backendSpecificNodeInfo
      (st_opts (parallelizeFunction splitE flagsOff true annotated).2)
    !! fun_id (st_fn (parallelizeFunction splitE flagsOff true annotated).2)
    = Some currFunInfo'
    /\ Forall (noHintLeft splitE currFunInfo')
         (getNodes
            (st_fn (parallelizeFunction splitE flagsOff true annotated).2)).
Proof.
  apply (parallelizeFunction_consumes_directives splitE flagsOff annotated
           (parallelizeFunction splitE flagsOff true annotated).2).
  vm_compute. reflexivity.
Defined.

Lemma removeClipsBlockingFusion_signal_witness :
  (removeClipsBlockingFusion sampleE
     (mkState (clipChain three) noOpts [])).2
  = mkState (clipChain three) noOpts [].
Proof.
  apply (proj1 (proj2 (removeClipsBlockingFusion_signal sampleE
                         (mkState (clipChain three) noOpts [])))).
  vm_compute. reflexivity.
Defined.

Lemma removeClipsBlockingFusion_needs_pattern_witness :
  removeClipsBlockingFusion sampleE (mkState clipsOnly noOpts [])
  = (false, mkState clipsOnly noOpts []).
Proof.
  apply (removeClipsBlockingFusion_needs_pattern sampleE
           (mkState clipsOnly noOpts [])).
  right. repeat constructor; discriminate.
Defined.

Lemma lowerRequiredNodes_signal_witness :
  (lowerRequiredNodes sampleE flagsOff
     (mkState (fn [bmmF16; reluF16]) noOpts [])).2
  = mkState (fn [bmmF16; reluF16]) noOpts [].
Proof.
  apply (proj1 (proj2 (lowerRequiredNodes_signal sampleE flagsOff
                         (mkState (fn [bmmF16; reluF16]) noOpts [])))).
  vm_compute. reflexivity.
Defined.

Lemma lowerRequiredNodes_float16_kept_witness :
  CallLowerNode preluF32
  ∈ st_calls (lowerRequiredNodes sampleE flagsOff
                (mkState (fn [preluF32; reluF16]) noOpts [])).2
  /\ CallLowerNode reluF16
     ∉ st_calls (lowerRequiredNodes sampleE flagsOff
                   (mkState (fn [preluF32; reluF16]) noOpts [])).2.
Proof.
  split.
  - apply (proj2 (proj1 (lowerRequiredNodes_float16_kept sampleE flagsOff
                           (fn [preluF32; reluF16]) noOpts preluF32
                           ltac:(repeat constructor))
                    0 (ty FloatTy [8]%N)
                    (or_introl (conj eq_refl eq_refl)) eq_refl)).
    discriminate.
  - apply (proj2 (lowerRequiredNodes_float16_kept sampleE flagsOff
                    (fn [preluF32; reluF16]) noOpts reluF16
                    ltac:(repeat constructor))); discriminate.
Defined.

Lemma transformPostLowering_unchanged_witness :
  (transformPostLowering sampleE flagsOff
     (mkState (fn [bmmF16; reluF16]) noOpts [])).2
  = mkState (fn [bmmF16; reluF16]) noOpts [].
Proof.
  apply (transformPostLowering_unchanged sampleE flagsOff
           (mkState (fn [bmmF16; reluF16]) noOpts [])
           (transformPostLowering sampleE flagsOff
              (mkState (fn [bmmF16; reluF16]) noOpts [])).2).
  - left. reflexivity.
  - vm_compute. reflexivity.
Defined.

Lemma compile_device_input_witness :
  (exists F1 currFunInfo',
     (compile splitE flagsOff cleanUp id compiles (fn [fcWide])
        (st_opts annotated)).2
     = [StepGraph CallParallelizeOps; StepFinalizeFPM F1;
        StepDeviceCompile (cleanUp F1)
          (st_opts (parallelizeFunction splitE flagsOff true annotated).2)]
     /\ cleanUp splitFunction = cleanUp F1
     /\ backendSpecificOpts
          (st_opts (parallelizeFunction splitE flagsOff true annotated).2)
        = backendSpecificOpts (st_opts annotated)
     /\ backendSpecificNodeInfo
          (st_opts (parallelizeFunction splitE flagsOff true annotated).2)
        !! fun_id F1 = Some currFunInfo'
     /\ Forall (noHintLeft splitE currFunInfo') (getNodes F1))
  /\ (compile sampleE flagsOff cleanUp id compiles fcFunction noOpts).2
     = [StepDeviceCompile fcFunction noOpts].
Proof.
  split.
  - destruct (compile_device_input splitE flagsOff cleanUp id compiles
                (fn [fcWide]) (cleanUp splitFunction) (st_opts annotated)
                (st_opts (parallelizeFunction splitE flagsOff true
                            annotated).2))
      as [[Hlog _]|Hsplit].
    + vm_compute. repeat constructor.
    + vm_compute in Hlog. discriminate Hlog.
    + exact Hsplit.
  - destruct (compile_device_input sampleE flagsOff cleanUp id compiles
                fcFunction fcFunction noOpts noOpts)
      as [[Hlog _]|(F1 & currFunInfo' & Hlog & _)].
    + vm_compute. repeat constructor.
    + exact Hlog.
    + vm_compute in Hlog. discriminate Hlog.
Defined.

Lemma compile_bad_directive_witness :
  exists msg,
    compile sampleE flagsOff cleanUp id compiles fcFunction
      (mkBackendOpts ∅ (infoOf onlyDataOnce))
    = (Err msg, []).
Proof.
  assert (Hinfo : backendSpecificNodeInfo
                    (mkBackendOpts ∅ (infoOf onlyDataOnce))
                  !! fun_id fcFunction = Some onlyDataOnce)
    by (vm_compute; reflexivity).
  assert (Hnode : onlyDataOnce !! node_id fcWide = Some dataOnce)
    by (vm_compute; reflexivity).
  apply (compile_bad_directive sampleE flagsOff cleanUp id compiles
           fcFunction (mkBackendOpts ∅ (infoOf onlyDataOnce)) onlyDataOnce
           fcWide dataOnce Hinfo).
  - repeat constructor.
  - exact Hnode.
  - apply (bad_chunks sampleE dataOnce "Data" ["1"]).
    + vm_compute. reflexivity.
    + by left.
    + vm_compute. reflexivity.
    + intros s n [= <-]. vm_compute. intros [= <-]. discriminate.
Defined.

Lemma traversePostOrder_post_order_witness :
  exists earlier,
    postOrderOf (Some diamond) = earlier ++ [diamond]
    /\ NoDup (dag_id <$> postOrderOf (Some diamond))
    /\ (forall c, c ∈ children diamond ->
          dag_id c = dag_id diamond \/ dag_id c ∈ dag_id <$> earlier).
Proof. exact (traversePostOrder_post_order diamond). Defined.

Lemma bindContexts_invalid_device_witness :
  bindContexts optionsOff
    ([binding "p0" "V"] ++ foreignBinding "p1" :: [binding "root" "U"])
    (Some twoPartitions) true true
  = (Err "Invalid device manager",
     dotOpen optionsOff
     ++ (AddPlaceholderUsageCount ∘ networkName <$> [binding "p0" "V"])).
Proof.
  apply (bindContexts_invalid_device optionsOff [binding "p0" "V"]
           (foreignBinding "p1") [binding "root" "U"] (Some twoPartitions)
           true true).
  - repeat constructor. by eexists.
  - reflexivity.
Defined.

Lemma markUsage_flags_witness :
  <["W" := mkUsage 1 3 false true None]> ∅
  = withFlags true false
    <$> (<["W" := mkUsage 1 3 false false None]> ∅ : PlaceholderUsageMap).
Proof.
  apply (proj1 (markUsage_flags (<["W" := mkUsage 1 3 false false None]> ∅)
                  true false)).
  vm_compute. reflexivity.
Defined.


Lemma bindContexts_bind_failure_witness :
  exists bound failed later,
    List.filter
      (toBind [binding "root" "U"; binding "p0" "V"; failingBinding "p1"])
      (postOrderOf (Some twoPartitions))
    = bound ++ failed :: later
    /\ (bindContexts optionsOff
          [binding "root" "U"; binding "p0" "V"; failingBinding "p1"]
          (Some twoPartitions) true true).2
       = dotOpen optionsOff
         ++ (AddPlaceholderUsageCount ∘ networkName
               <$> [binding "root" "U"; binding "p0" "V";
                    failingBinding "p1"])
         ++ (BindContext ∘ name <$> bound)
         ++ [BindContext (name failed)].
Proof.
  apply (bindContexts_bind_failure optionsOff
           [binding "root" "U"; binding "p0" "V"; failingBinding "p1"]
           (Some twoPartitions) true true).
  vm_compute. reflexivity.
Defined.

Lemma bindContexts_device_known_witness :
  (bindContexts optionsOff
     [binding "root" "U"; binding "p0" "V"; failingBinding "p1"]
     (Some twoPartitions) true true).1
  <> Err "Invalid device manager bound".
Proof.
  exact (bindContexts_device_known optionsOff
           [binding "root" "U"; binding "p0" "V"; failingBinding "p1"]
           (Some twoPartitions) true true).
Defined.
